(** * IBM Cloud hibernation actuator and client: a shallow embedding

  The development follows two Go files of the repository:
  - [pkg/ibmclient/client.go]: the client that talks to the IBM Cloud
    SDK services ([Module ibmclient]);
  - [pkg/controller/hibernation/ibmcloud_actuator.go]: the hibernation
    actuator written against the client's [API] interface
    ([Module hibernation]).

  Go values are modelled as the code has them: a pointer is an [option],
  a slice is either the nil slice or a backing list, an [error] is
  either nil or an error value, a nil dereference is the outcome
  [Panic].  Calls to the provider are threaded through a state monad
  whose state records every request handed to the SDK. *)

From stdpp Require Import base option list gmap sets strings.
From Stdlib Require Import ZArith Lia.

Set Default Proof Using "Type".
Open Scope string_scope.
Open Scope list_scope.

(** ** Go runtime notions *)

Module Go.

(** A pointer [*T]: [None] is the nil pointer. *)
Definition ptr (A : Type) : Type := option A.

(** What evaluating a Go expression or call yields: a value, or a
    run-time panic (the only panics of these files are nil pointer
    dereferences). *)
Inductive outcome (A : Type) : Type :=
| Done (a : A)
| Panic.
Arguments Done {A} a.
Arguments Panic {A}.

Definition panics {A} (o : outcome A) : bool :=
  match o with Done _ => false | Panic => true end.

(** [*p] *)
Definition deref {A} (p : ptr A) : outcome A :=
  match p with Some a => Done a | None => Panic end.

(** A slice [[]T]: the nil slice ([var s []T]) or a slice with a backing
    array; [len] and [range] do not tell the two apart, [== nil] does. *)
Inductive slice (A : Type) : Type :=
| nil_slice
| Slice (backing : list A).
Arguments nil_slice {A}.
Arguments Slice {A} backing.

Definition elems {A} (s : slice A) : list A :=
  match s with nil_slice => [] | Slice l => l end.

Definition len {A} (s : slice A) : nat := length (elems s).

Definition is_nil {A} (s : slice A) : bool :=
  match s with nil_slice => true | Slice _ => false end.

(** [append(s, x)] always yields a slice with a backing array. *)
Definition append {A} (s : slice A) (x : A) : slice A :=
  Slice (elems s ++ [x]).

(** [append(s, l...)]: appending nothing gives [s] back. *)
Definition append_all {A} (s : slice A) (l : list A) : slice A :=
  match l with
  | [] => s
  | _ :: _ => Slice (elems s ++ l)
  end.

(** [make([]T, n)]: [n] zero values, never nil (also for [n = 0]). *)
Definition make {A} (zero : A) (n : nat) : slice A :=
  Slice (replicate n zero).

(** [s[i] = x] on a slice made with [len(s) > i]; the loops below only
    write inside the bounds, where Go does not panic. *)
Definition set_index {A} (s : slice A) (i : nat) (x : A) : slice A :=
  match s with
  | nil_slice => nil_slice
  | Slice l => Slice (<[i:=x]> l)
  end.

(** Error values.  The constructors are the ways these two files obtain
    an error: from an SDK call, from [errors.New]/[fmt.Errorf], by
    wrapping with [errors.Wrap]/[errors.Wrapf] (the format arguments are
    kept next to the message), and the typed
    [*VPCResourceNotFoundError] of package ibmclient. *)
Inductive error_value : Type :=
| SDKError (msg : string)
| ErrorString (msg : string) (args : list string)
| Wrap (cause : error_value) (msg : string) (args : list string)
| VPCResourceNotFoundError.

(** The interface type [error]: [None] is nil. *)
Definition error : Type := option error_value.


(** [context.Context] values, by construction. *)
Inductive Context : Type :=
| Background
| TODO
| WithCancel (parent : Context)
| WithTimeout (parent : Context) (timeout : Z).

(** [time.Minute], in nanoseconds. *)
Definition Minute : Z := 60 * 1000000000.

Global Instance outcome_ret : MRet outcome := fun A a => Done a.

Global Instance outcome_bind : MBind outcome :=
  fun A B k o => match o with Done a => k a | Panic => Panic end.

(** Code that calls out: a computation over a world [W] (the provider and
    the requests made so far) that ends with a value or a panic. *)
Definition exec (W A : Type) : Type := W -> outcome A * W.

Global Instance exec_ret {W} : MRet (exec W) :=
  fun A a w => (Done a, w).

Global Instance exec_bind {W} : MBind (exec W) :=
  fun A B k m w =>
    match m w with
    | (Done a, w') => k a w'
    | (Panic, w') => (Panic, w')
    end.

(** A pure step that may panic, inside a computation. *)
Definition lift {W A} (o : outcome A) : exec W A := fun w => (o, w).

End Go.
Export Go.

(** ** k8s.io/apimachinery/pkg/util/sets: [sets.String] *)

Module sets.

Abbreviation String := (gset string) (only parsing).

Definition NewString (items : list string) : String := list_to_set items.
Definition Union (s1 s2 : String) : String := s1 ∪ s2.
Definition Has (s : String) (item : string) : bool := bool_decide (item ∈ s).

End sets.

(** ** The Go standard library's [strings] *)

Module strings.

(** [strings.HasPrefix(s, prefix)] *)
Fixpoint HasPrefix (s prefix : string) {struct prefix} : bool :=
  match prefix, s with
  | EmptyString, _ => true
  | String a prefix', String b s' =>
      if Ascii.eqb a b then HasPrefix s' prefix' else false
  | String _ _, EmptyString => false
  end.

(** [strings.Contains(s, substr)]: [substr] occurs within [s], at the
    front or further on. *)
Fixpoint Contains (s substr : string) : bool :=
  HasPrefix s substr ||
  match s with
  | EmptyString => false
  | String _ s' => Contains s' substr
  end.

End strings.

(** ** SDK types: the fields and constants these files use *)

Module http.
Definition StatusNotFound : Z := 404.
End http.

Module core.
(** The response that comes with an answer of the provider; the SDK is
    taken to hand one back with every answer. *)
Record DetailedResponse := { StatusCode : Z }.
Definition GetStatusCode (response : DetailedResponse) : Z := StatusCode response.
End core.

Module vpcv1.

Record Instance := { ID : ptr string; Name : ptr string; Status : ptr string }.
Record InstanceCollection := { Instances : slice Instance }.

Record ListInstancesOptions := { VPCName : ptr string }.
Definition SetVPCName (_ : ListInstancesOptions) (vpcName : string) : ListInstancesOptions :=
  {| VPCName := Some vpcName |}.

Definition CreateInstanceActionOptionsTypeStartConst : string := "start".
Definition CreateInstanceActionOptionsTypeStopConst : string := "stop".

Record CreateInstanceActionOptions := { InstanceID : ptr string; Type_ : ptr string }.
Definition SetInstanceID (o : CreateInstanceActionOptions) (instanceID : string) :=
  {| InstanceID := Some instanceID; Type_ := Type_ o |}.
Definition SetType (o : CreateInstanceActionOptions) (type : string) :=
  {| InstanceID := InstanceID o; Type_ := Some type |}.

Record Subnet := { SubnetID : ptr string }.
Record GetSubnetOptions := { GetSubnetOptionsID : ptr string }.

Record VPC := { VPCID : ptr string }.
Record GetVPCOptions := { GetVPCOptionsID : ptr string }.
Definition NewGetVPCOptions (id : string) : GetVPCOptions :=
  {| GetVPCOptionsID := Some id |}.

Record Region := { Endpoint : ptr string }.
Record RegionCollection := { Regions : slice Region }.

End vpcv1.

Module resourcecontrollerv2.
Record ResourceInstance := {
  CRN : ptr string;
  ResourceInstanceName : ptr string;
  ResourceGroupID : ptr string
}.
Record ResourceInstancesList := { Resources : slice ResourceInstance }.

Record GetResourceInstanceOptions := { GetResourceInstanceOptionsID : ptr string }.
Definition NewGetResourceInstanceOptions (id : string) : GetResourceInstanceOptions :=
  {| GetResourceInstanceOptionsID := Some id |}.

Record ListResourceInstancesOptions := { ResourceID : ptr string }.
Definition NewListResourceInstancesOptions : ListResourceInstancesOptions :=
  {| ResourceID := None |}.
Definition SetResourceID (_ : ListResourceInstancesOptions) (resourceID : string) :=
  {| ResourceID := Some resourceID |}.
End resourcecontrollerv2.

Module zonesv1.
Record ZoneDetails := {
  ZoneID : ptr string;
  ZoneName : ptr string;
  ZoneStatus : ptr string
}.
Record ListZonesResp := { Result : slice ZoneDetails }.
End zonesv1.

(** ** The provider behind the SDK

    An SDK service object is modelled by the answers the provider gives
    (a function of the service URL in force and of the request) and by a
    session: the service URL, which [SetServiceURL] changes, and the
    requests handed to the SDK so far, oldest first, each with the
    context it was given, if the method called takes one. *)

Module sdk.
Import vpcv1 resourcecontrollerv2 zonesv1 core.

Inductive Call : Type :=
| CallListInstances (options : ListInstancesOptions)
| CallCreateInstanceAction (options : CreateInstanceActionOptions)
| CallGetSubnet (options : GetSubnetOptions)
| CallGetVPC (options : GetVPCOptions)
| CallListRegions
| CallGetResourceInstance (options : GetResourceInstanceOptions)
| CallListResourceInstances (options : ListResourceInstancesOptions)
| CallListZones (crn : ptr string).

Record Request := {
  reqContext : option Context;   (* [None]: the method takes no context *)
  reqURL : option string;        (* VPC requests: the service URL in force *)
  reqCall : Call
}.

Record Session := { serviceURL : string; requests : list Request }.

Definition M : Type -> Type := exec Session.

(** Hand a request to the SDK: it is recorded, the session is otherwise
    unchanged. *)
Definition record (r : Request) : M unit :=
  fun s =>
    (Done tt, {| serviceURL := serviceURL s; requests := requests s ++ [r] |}).

(** A request to the VPC service goes to the service URL in force. *)
Definition send (ctx : option Context) (call : Call) : M string :=
  fun s =>
    (Done (serviceURL s),
     {| serviceURL := serviceURL s;
        requests := requests s ++
          [{| reqContext := ctx; reqURL := Some (serviceURL s); reqCall := call |}] |}).

(** The provider's answers say whether the SDK call fails, and with which
    message; the SDK methods hand that on as an [error] of the SDK's own. *)
Definition sdk_error : Type := option string.
Definition to_error (e : sdk_error) : error := SDKError <$> e.

(** [*vpcv1.VpcV1] *)
Record VpcV1 := {
  onListInstances :
    string -> ListInstancesOptions -> ptr InstanceCollection * DetailedResponse * sdk_error;
  onCreateInstanceAction :
    string -> CreateInstanceActionOptions -> DetailedResponse * sdk_error;
  onGetSubnet :
    string -> GetSubnetOptions -> ptr Subnet * DetailedResponse * sdk_error;
  onGetVPC :
    string -> GetVPCOptions -> ptr VPC * DetailedResponse * sdk_error;
  onListRegions :
    string -> ptr RegionCollection * DetailedResponse * sdk_error;
  onSetServiceURL : string -> sdk_error
}.

Definition ListInstances (vpc : VpcV1) (options : ListInstancesOptions) :
    M (ptr InstanceCollection * DetailedResponse * error) :=
  url ← send None (CallListInstances options);
  let '(result, response, err) := onListInstances vpc url options in
  mret (result, response, to_error err).

Definition CreateInstanceAction (vpc : VpcV1) (options : CreateInstanceActionOptions) :
    M (DetailedResponse * error) :=
  url ← send None (CallCreateInstanceAction options);
  let '(response, err) := onCreateInstanceAction vpc url options in
  mret (response, to_error err).

Definition GetSubnet (vpc : VpcV1) (options : GetSubnetOptions) :
    M (ptr Subnet * DetailedResponse * error) :=
  url ← send None (CallGetSubnet options);
  let '(result, response, err) := onGetSubnet vpc url options in
  mret (result, response, to_error err).

Definition GetVPC (vpc : VpcV1) (options : GetVPCOptions) :
    M (ptr VPC * DetailedResponse * error) :=
  url ← send None (CallGetVPC options);
  let '(result, response, err) := onGetVPC vpc url options in
  mret (result, response, to_error err).

Definition ListRegionsWithContext (vpc : VpcV1) (ctx : Context) :
    M (ptr RegionCollection * DetailedResponse * error) :=
  url ← send (Some ctx) CallListRegions;
  let '(result, response, err) := onListRegions vpc url in
  mret (result, response, to_error err).

(** [SetServiceURL] is local to the SDK object: no request is made; the
    URL is replaced when the SDK accepts it. *)
Definition SetServiceURL (vpc : VpcV1) (url : string) : M error :=
  fun s =>
    match onSetServiceURL vpc url with
    | Some e => (Done (Some (SDKError e)), s)
    | None => (Done None, {| serviceURL := url; requests := requests s |})
    end.

(** [*resourcecontrollerv2.ResourceControllerV2] *)
Record ResourceControllerV2 := {
  onGetResourceInstance :
    GetResourceInstanceOptions -> ptr ResourceInstance * DetailedResponse * sdk_error;
  onListResourceInstances :
    ListResourceInstancesOptions ->
    ptr ResourceInstancesList * DetailedResponse * sdk_error
}.

Definition GetResourceInstance (rc : ResourceControllerV2)
    (options : GetResourceInstanceOptions) :
    M (ptr ResourceInstance * DetailedResponse * error) :=
  record {| reqContext := None; reqURL := None;
            reqCall := CallGetResourceInstance options |};;
  let '(result, response, err) := onGetResourceInstance rc options in
  mret (result, response, to_error err).

Definition ListResourceInstances (rc : ResourceControllerV2)
    (options : ListResourceInstancesOptions) :
    M (ptr ResourceInstancesList * DetailedResponse * error) :=
  record {| reqContext := None; reqURL := None;
            reqCall := CallListResourceInstances options |};;
  let '(result, response, err) := onListResourceInstances rc options in
  mret (result, response, to_error err).

(** [*zonesv1.ZonesV1], a service for the CIS instance [zonesCrn]. *)
Record ZonesV1 := {
  zonesCrn : ptr string;
  onListZones : ptr ListZonesResp * DetailedResponse * sdk_error
}.

Definition ListZones (zones : ZonesV1) :
    M (ptr ListZonesResp * DetailedResponse * error) :=
  record {| reqContext := None; reqURL := None;
            reqCall := CallListZones (zonesCrn zones) |};;
  let '(result, response, err) := onListZones zones in
  mret (result, response, to_error err).

(** [*core.IamAuthenticator], with what [zonesv1.NewZonesV1] makes of it
    for a CRN: a service, or an error. *)
Record IamAuthenticator := {
  onNewZonesV1 : ptr string -> ptr ZonesV1 * sdk_error
}.

Definition NewZonesV1 (authenticator : IamAuthenticator) (crn : ptr string) :
    ptr ZonesV1 * error :=
  let '(service, err) := onNewZonesV1 authenticator crn in (service, to_error err).

End sdk.

(** ** pkg/ibmclient/client.go *)

Module ibmclient.
Import vpcv1 resourcecontrollerv2 zonesv1 core sdk.

(** cisServiceID is the Cloud Internet Services' catalog service ID. *)
Definition cisServiceID : string := "75874a60-cb12-11e7-948e-37ac098eb1b9".

(** DNSZoneResponse represents a DNS zone response. *)
Module DNSZoneResponse.
Record t := {
  Name : string;
  ID : string;
  CISInstanceCRN : string;
  CISInstanceName : string;
  ResourceGroupID : string
}.
End DNSZoneResponse.

(** [context.WithTimeout(ctx, d)]: the derived context and its cancel
    function (cancelling a context nobody holds has no effect). *)
Definition context_WithTimeout (ctx : Context) (d : Z) : Context * unit :=
  (WithTimeout ctx d, tt).

(** Interface [API]: the methods modelled here, over any world [W] (the
    other methods of the interface are not called by the actuator). *)
Record API (W : Type) := {
  GetCISInstance : Context -> string -> exec W (ptr ResourceInstance * error);
  GetDNSZones : Context -> exec W (slice DNSZoneResponse.t * error);
  GetSubnet : Context -> string -> exec W (ptr Subnet * error);
  GetVPC : Context -> string -> exec W (ptr VPC * error);
  GetVPCInstances : Context -> string -> exec W (slice Instance * error);
  StartInstances : slice Instance -> exec W error;
  StopInstances : slice Instance -> exec W error
}.
Arguments GetCISInstance {W} _ _ _.
Arguments GetDNSZones {W} _ _.
Arguments GetSubnet {W} _ _ _.
Arguments GetVPC {W} _ _ _.
Arguments GetVPCInstances {W} _ _ _.
Arguments StartInstances {W} _ _.
Arguments StopInstances {W} _ _.

(** [type Client struct] and its methods. *)
Module Client.

Record t := {
  controllerAPI : ResourceControllerV2;
  vpcAPI : VpcV1;
  Authenticator : IamAuthenticator
}.

Definition GetCISInstance (c : t) (ctx : Context) (crnstr : string) :
    M (ptr ResourceInstance * error) :=
  let '(_, cancel) := context_WithTimeout ctx (1 * Minute) in
  let options := NewGetResourceInstanceOptions crnstr in
  '(resourceInstance, _, err) ← sdk.GetResourceInstance (controllerAPI c) options;
  match err with
  | Some e => mret (None, Some (Wrap e "failed to get cis instances" []))
  | None => mret (resourceInstance, None)
  end.

(** The inner loop of [GetDNSZones]: the active zones of one CIS
    instance. *)
Fixpoint GetDNSZones_zones (instance : ResourceInstance) (zones : list ZoneDetails)
    (allZones : slice DNSZoneResponse.t) : outcome (slice DNSZoneResponse.t) :=
  match zones with
  | [] => Done allZones
  | zone :: rest =>
      status ← deref (ZoneStatus zone);
      if String.eqb status "active" then
        name ← deref (ZoneName zone);
        id ← deref (ZoneID zone);
        crn ← deref (CRN instance);
        instanceName ← deref (ResourceInstanceName instance);
        resourceGroupID ← deref (resourcecontrollerv2.ResourceGroupID instance);
        let zoneStruct := {|
          DNSZoneResponse.Name := name;
          DNSZoneResponse.ID := id;
          DNSZoneResponse.CISInstanceCRN := crn;
          DNSZoneResponse.CISInstanceName := instanceName;
          DNSZoneResponse.ResourceGroupID := resourceGroupID
        |} in
        GetDNSZones_zones instance rest (append allZones zoneStruct)
      else GetDNSZones_zones instance rest allZones
  end.

(** The outer loop of [GetDNSZones], over the CIS instances. *)
Fixpoint GetDNSZones_instances (c : t) (resources : list ResourceInstance)
    (allZones : slice DNSZoneResponse.t) : M (slice DNSZoneResponse.t * error) :=
  match resources with
  | [] => mret (allZones, None)
  | instance :: rest =>
      let crnstr := CRN instance in
      let '(zonesService, err) := NewZonesV1 (Authenticator c) crnstr in
      match err with
      | Some e => mret (nil_slice, Some (Wrap e "failed to list DNS zones" []))
      | None =>
          zonesService ← lift (deref zonesService);
          '(listZonesResponse, _, err) ← sdk.ListZones zonesService;
          match listZonesResponse with
          | None => mret (nil_slice, err)
          | Some response =>
              allZones ← lift (GetDNSZones_zones instance (elems (Result response)) allZones);
              GetDNSZones_instances c rest allZones
          end
      end
  end.

(** GetDNSZones returns all of the active DNS zones managed by CIS. *)
Definition GetDNSZones (c : t) (ctx : Context) : M (slice DNSZoneResponse.t * error) :=
  let '(_, cancel) := context_WithTimeout ctx (1 * Minute) in
  let options := NewListResourceInstancesOptions in
  let options := SetResourceID options cisServiceID in
  '(listResourceInstancesResponse, _, err) ←
    sdk.ListResourceInstances (controllerAPI c) options;
  match err with
  | Some e => mret (nil_slice, Some (Wrap e "failed to get cis instance" []))
  | None =>
      response ← lift (deref listResourceInstancesResponse);
      GetDNSZones_instances c (elems (Resources response)) nil_slice
  end.

Definition GetSubnet (c : t) (ctx : Context) (subnetID : string) :
    M (ptr Subnet * error) :=
  let '(_, cancel) := context_WithTimeout ctx (1 * Minute) in
  '(subnet, detailedResponse, err) ←
    sdk.GetSubnet (vpcAPI c) {| GetSubnetOptionsID := Some subnetID |};
  if (GetStatusCode detailedResponse =? http.StatusNotFound)%Z
  then mret (None, Some VPCResourceNotFoundError)
  else mret (subnet, err).

Definition getVPCRegions (c : t) (ctx : Context) : M (slice Region * error) :=
  '(listRegionsResponse, _, err) ← sdk.ListRegionsWithContext (vpcAPI c) ctx;
  match err with
  | Some e => mret (nil_slice, Some (Wrap e "failed to list vpc regions" []))
  | None =>
      response ← lift (deref listRegionsResponse);
      mret (Regions response, None)
  end.

(** The body of [GetVPC]'s loop over the regions; falling off the end is
    the [return nil, &VPCResourceNotFoundError{}] after the loop. *)
Fixpoint GetVPC_regions (c : t) (vpcID : string) (regions : list Region) :
    M (ptr VPC * error) :=
  match regions with
  | [] => mret (None, Some VPCResourceNotFoundError)
  | region :: rest =>
      endpoint ← lift (deref (Endpoint region));
      err ← sdk.SetServiceURL (vpcAPI c) (endpoint +:+ "/v1");
      match err with
      | Some e => mret (None, Some (Wrap e "failed to set vpc api service url" []))
      | None =>
          '(vpc, detailedResponse, err) ← sdk.GetVPC (vpcAPI c) (NewGetVPCOptions vpcID);
          match err with
          | Some e =>
              if negb (GetStatusCode detailedResponse =? http.StatusNotFound)%Z
              then mret (None, Some e)
              else GetVPC_regions c vpcID rest
          | None =>
              match vpc with
              | Some v => mret (Some v, None)
              | None => GetVPC_regions c vpcID rest
              end
          end
      end
  end.

Definition GetVPC (c : t) (ctx : Context) (vpcID : string) : M (ptr VPC * error) :=
  let '(_, cancel) := context_WithTimeout ctx (1 * Minute) in
  '(regions, err) ← getVPCRegions c ctx;
  match err with
  | Some e => mret (None, Some e)
  | None => GetVPC_regions c vpcID (elems regions)
  end.

(** The loop of [GetVPCInstances]: keep the instances whose name contains
    the infrastructure ID. *)
Fixpoint GetVPCInstances_range (infraID : string) (l : list Instance)
    (instances : slice Instance) : outcome (slice Instance) :=
  match l with
  | [] => Done instances
  | instance :: rest =>
      match deref (Name instance) with
      | Panic => Panic
      | Done name =>
          GetVPCInstances_range infraID rest
            (if strings.Contains name infraID then append instances instance
             else instances)
      end
  end.

Definition GetVPCInstances (c : t) (ctx : Context) (infraID : string) :
    M (slice Instance * error) :=
  let options := SetVPCName {| VPCName := None |} (infraID +:+ "-vpc") in
  '(result, _, err) ← sdk.ListInstances (vpcAPI c) options;
  match err with
  | Some e => mret (nil_slice, Some (Wrap e "failed to list vpc instances" []))
  | None =>
      result ← lift (deref result);
      instances ← lift (GetVPCInstances_range infraID (elems (Instances result)) nil_slice);
      mret (instances, None)
  end.

Fixpoint StopInstances_range (c : t) (l : list Instance) : M error :=
  match l with
  | [] => mret None
  | instance :: rest =>
      let options := {| InstanceID := None; Type_ := None |} in
      id ← lift (deref (ID instance));
      let options := SetInstanceID options id in
      let options := SetType options CreateInstanceActionOptionsTypeStopConst in
      '(_, err) ← sdk.CreateInstanceAction (vpcAPI c) options;
      match err with
      | Some e => mret (Some (Wrap e "failed to create stop instance action" []))
      | None => StopInstances_range c rest
      end
  end.

Definition StopInstances (c : t) (instances : slice Instance) : M error :=
  StopInstances_range c (elems instances).

Fixpoint StartInstances_range (c : t) (l : list Instance) : M error :=
  match l with
  | [] => mret None
  | instance :: rest =>
      let options := {| InstanceID := None; Type_ := None |} in
      id ← lift (deref (ID instance));
      let options := SetInstanceID options id in
      let options := SetType options CreateInstanceActionOptionsTypeStartConst in
      '(_, err) ← sdk.CreateInstanceAction (vpcAPI c) options;
      match err with
      | Some e =>
          name ← lift (deref (Name instance));
          mret (Some (Wrap e "failed to create start instance action for instance %q" [name]))
      | None => StartInstances_range c rest
      end
  end.

Definition StartInstances (c : t) (instances : slice Instance) : M error :=
  StartInstances_range c (elems instances).

End Client.

(** The request by which [StopInstances] and [StartInstances] ask for
    [action] on the instance [id], and the provider's word on it. *)
Definition action_request (url action id : string) : Request :=
  {| reqContext := None;
     reqURL := Some url;
     reqCall := CallCreateInstanceAction
                  {| InstanceID := Some id; Type_ := Some action |} |}.

Definition action_error (c : Client.t) (url action id : string) : sdk_error :=
  (onCreateInstanceAction (Client.vpcAPI c) url
     {| InstanceID := Some id; Type_ := Some action |}).2.

(** The membership test of [GetVPCInstances]: the instance has a name
    and the name contains the infrastructure ID. *)
Definition belongs (infraID : string) (i : Instance) : bool :=
  match Name i with
  | Some name => strings.Contains name infraID
  | None => false
  end.

(** An answer to the VPC lookup that lets [GetVPC] go on to the next
    region: an error with status 404, or no error and no VPC. *)
Definition lookup_missed (answer : ptr VPC * DetailedResponse * sdk_error) : bool :=
  match answer with
  | (_, response, Some _) => (GetStatusCode response =? http.StatusNotFound)%Z
  | (None, _, None) => true
  | (Some _, _, None) => false
  end.

(** A region in which [GetVPC] does not find the VPC: the SDK accepts the
    region's endpoint as service URL and the lookup there misses. *)
Definition region_missed (c : Client.t) (vpcID : string) (region : Region) : bool :=
  match Endpoint region with
  | Some endpoint =>
      match onSetServiceURL (Client.vpcAPI c) (endpoint +:+ "/v1") with
      | Some _ => false
      | None =>
          lookup_missed
            (onGetVPC (Client.vpcAPI c) (endpoint +:+ "/v1") (NewGetVPCOptions vpcID))
      end
  | None => false
  end.

(** [*Client] implements [API]. *)
Definition ClientAPI (c : Client.t) : API Session := {|
  GetCISInstance := Client.GetCISInstance c;
  GetDNSZones := Client.GetDNSZones c;
  GetSubnet := Client.GetSubnet c;
  GetVPC := Client.GetVPC c;
  GetVPCInstances := Client.GetVPCInstances c;
  StartInstances := Client.StartInstances c;
  StopInstances := Client.StopInstances c
|}.

End ibmclient.

(** ** pkg/controller/hibernation/ibmcloud_actuator.go *)

Module hivev1.
(** [cd.Spec.ClusterMetadata.InfraID], the one part of a
    ClusterDeployment that the modelled code reads.  The type is declared
    in apis/hive/v1; the record holds the value that the read yields, so a
    ClusterDeployment without cluster metadata is not represented.  The
    read comes before the listing: wherever a listing is assumed to have
    returned, it has succeeded. *)
Record ClusterDeployment := { InfraID : string }.
End hivev1.

Module hibernation.
Import vpcv1 hivev1 ibmclient.


(** Modelled from the spec: the package variables [runningOrPendingStates],
    [stoppedOrStoppingStates], [notRunningStates] and [notStoppedStates],
    which the four operations pass to [getIBMCloudClusterInstances], are
    declared in another file of package hibernation that is not among the
    sources.  The spec (sections 3 and 8) gives the shared predicate sets
    as RunningOrPending = {Running, Pending}, StoppedOrStopping =
    {Stopped, Stopping}, NotRunning = StoppedOrStopping + {Pending},
    NotStopped = RunningOrPending + {Stopping}; the raw status strings
    are those of its scenarios and of the table above. *)
Definition runningStates : sets.String := sets.NewString ["running"].
Definition stoppedStates : sets.String := sets.NewString ["stopped"].
Definition pendingStates : sets.String := sets.NewString ["pending"].
Definition stoppingStates : sets.String := sets.NewString ["stopping"].
Definition runningOrPendingStates : sets.String :=
  sets.Union runningStates pendingStates.
Definition stoppedOrStoppingStates : sets.String :=
  sets.Union stoppedStates stoppingStates.
Definition notRunningStates : sets.String :=
  sets.Union stoppedOrStoppingStates pendingStates.
Definition notStoppedStates : sets.String :=
  sets.Union runningOrPendingStates stoppingStates.

(** Reading an instance: is its status in a set of states (a nil status
    is in none), and its name. *)
Definition status_in (states : sets.String) (i : Instance) : bool :=
  match Status i with
  | Some status => sets.Has states status
  | None => false
  end.

Definition instance_name (i : Instance) : string := default "" (Name i).

Section actuator.
(** [W]: the world of the client in use; [KubeClient]: the
    controller-runtime client handed through to [ibmCloudClientFn].
    Logging is left out. *)
Context {W KubeClient : Type}.

Record ibmCloudActuator := {
  (* the function to build an IBM Cloud client, here for testing *)
  ibmCloudClientFn : ClusterDeployment -> KubeClient -> ptr (API W) * error
}.

(** The loop of [getIBMCloudClusterInstances]. *)
Fixpoint getIBMCloudClusterInstances_range (states : sets.String)
    (l : list Instance) (result : slice Instance) : outcome (slice Instance) :=
  match l with
  | [] => Done result
  | i :: rest =>
      match deref (Status i) with
      | Panic => Panic
      | Done status =>
          getIBMCloudClusterInstances_range states rest
            (if sets.Has states status then append result i else result)
      end
  end.

Definition getIBMCloudClusterInstances (cd : ClusterDeployment) (c : ptr (API W))
    (states : sets.String) : exec W (slice Instance * error) :=
  let infraID := InfraID cd in
  c ← lift (deref c);
  '(instances, err) ← GetVPCInstances c TODO infraID;
  match err with
  | Some e => mret (nil_slice, Some e)
  | None =>
      result ← lift (getIBMCloudClusterInstances_range states (elems instances) nil_slice);
      mret (result, None)
  end.

(** StopMachines will stop machines belonging to the given ClusterDeployment *)
Definition StopMachines (a : ibmCloudActuator) (cd : ClusterDeployment)
    (hiveClient : KubeClient) : exec W error :=
  let '(ibmCloudClient, err) := ibmCloudClientFn a cd hiveClient in
  match err with
  | Some e => mret (Some e)
  | None =>
      '(instances, err) ←
        getIBMCloudClusterInstances cd ibmCloudClient runningOrPendingStates;
      match err with
      | Some e => mret (Some e)
      | None =>
          if (len instances =? 0)%nat then mret None
          else
            c ← lift (deref ibmCloudClient);
            err ← StopInstances c instances;
            match err with
            | Some e => mret (Some e)
            | None => mret None
            end
      end
  end.

(** StartMachines will start machines belonging to the given ClusterDeployment *)
Definition StartMachines (a : ibmCloudActuator) (cd : ClusterDeployment)
    (hiveClient : KubeClient) : exec W error :=
  let '(ibmCloudClient, err) := ibmCloudClientFn a cd hiveClient in
  match err with
  | Some e => mret (Some e)
  | None =>
      '(instances, err) ←
        getIBMCloudClusterInstances cd ibmCloudClient stoppedOrStoppingStates;
      match err with
      | Some e => mret (Some e)
      | None =>
          if (len instances =? 0)%nat then mret None
          else
            c ← lift (deref ibmCloudClient);
            err ← StartInstances c instances;
            match err with
            | Some e => mret (Some e)
            | None => mret None
            end
      end
  end.

(** The loop of [ibmCloudInstanceNames]: [names[i] = *instance.Name]. *)
Fixpoint ibmCloudInstanceNames_range (i : nat) (l : list Instance)
    (names : slice string) : outcome (slice string) :=
  match l with
  | [] => Done names
  | instance :: rest =>
      match deref (Name instance) with
      | Panic => Panic
      | Done name => ibmCloudInstanceNames_range (S i) rest (set_index names i name)
      end
  end.

Definition ibmCloudInstanceNames (instances : slice Instance) : outcome (slice string) :=
  let names := make "" (len instances) in
  ibmCloudInstanceNames_range 0 (elems instances) names.

(** MachinesRunning will return true if the machines associated with the
    given ClusterDeployment are in a running state. It also returns a list
    of machines that are not running. *)
Definition MachinesRunning (a : ibmCloudActuator) (cd : ClusterDeployment)
    (hiveClient : KubeClient) : exec W (bool * slice string * error) :=
  let '(ibmCloudClient, err) := ibmCloudClientFn a cd hiveClient in
  match err with
  | Some e => mret (false, nil_slice, Some e)
  | None =>
      '(instances, err) ←
        getIBMCloudClusterInstances cd ibmCloudClient notRunningStates;
      match err with
      | Some e => mret (false, nil_slice, Some e)
      | None =>
          names ← lift (ibmCloudInstanceNames instances);
          mret ((len instances =? 0)%nat, names, None)
      end
  end.

(** MachinesStopped will return true if the machines associated with the
    given ClusterDeployment are in a stopped state. It also returns a list
    of machines that have not stopped. *)
Definition MachinesStopped (a : ibmCloudActuator) (cd : ClusterDeployment)
    (hiveClient : KubeClient) : exec W (bool * slice string * error) :=
  let '(ibmCloudClient, err) := ibmCloudClientFn a cd hiveClient in
  match err with
  | Some e => mret (false, nil_slice, Some e)
  | None =>
      '(instances, err) ←
        getIBMCloudClusterInstances cd ibmCloudClient notStoppedStates;
      match err with
      | Some e => mret (false, nil_slice, Some e)
      | None =>
          names ← lift (ibmCloudInstanceNames instances);
          mret ((len instances =? 0)%nat, names, None)
      end
  end.

(** The situation most statements about the operations start from: the
    client [c] was built for [cd], and its listing, asked in world [w],
    answered [instances] without an error and left the world [w']. *)
Definition listed (a : ibmCloudActuator) (cd : ClusterDeployment)
    (hiveClient : KubeClient) (c : API W) (w : W)
    (instances : slice Instance) (w' : W) : Prop :=
  ibmCloudClientFn a cd hiveClient = (Some c, None) /\
  GetVPCInstances c TODO (InfraID cd) w = (Done (instances, None), w').


End actuator.
Arguments ibmCloudActuator : clear implicits.

(** The states the tables know; any other raw status, the empty string
    included, is an unknown one. *)
Definition knownStates : sets.String :=
  sets.Union (sets.Union runningStates pendingStates)
             (sets.Union stoppedStates stoppingStates).

Definition unknown_status (i : Instance) : bool := negb (status_in knownStates i).

End hibernation.

(** ** Concrete providers for the scenarios *)

Module scenarios.
Import vpcv1 resourcecontrollerv2 zonesv1 core sdk ibmclient hivev1 hibernation.

Definition ok : DetailedResponse := {| StatusCode := 200 |}.
Definition unavailable : DetailedResponse := {| StatusCode := 503 |}.
Definition not_found : DetailedResponse := {| StatusCode := 404 |}.

(** An account with one CIS instance and two DNS zones, one of them
    active. *)
Definition cisInstance : ResourceInstance :=
  {| CRN := Some "crn:cis";
     ResourceInstanceName := Some "cis";
     resourcecontrollerv2.ResourceGroupID := Some "rg-1" |}.

Definition cis : ResourceControllerV2 := {|
  onGetResourceInstance := fun _ => (Some cisInstance, ok, None);
  onListResourceInstances := fun _ =>
    (Some {| Resources := Slice [cisInstance] |}, ok, None)
|}.

Definition authenticator : IamAuthenticator := {|
  onNewZonesV1 := fun crn =>
    (Some {| zonesCrn := crn;
             onListZones :=
               (Some {| Result := Slice [
                  {| ZoneID := Some "z1"; ZoneName := Some "example.com";
                     ZoneStatus := Some "active" |};
                  {| ZoneID := Some "z2"; ZoneName := Some "example.org";
                     ZoneStatus := Some "pending" |} ] |}, ok, None) |},
     None)
|}.

Definition instance (name status : string) : Instance :=
  {| ID := Some ("id-" +:+ name); Name := Some name; Status := Some status |}.

(** An account whose VPC holds [instances]; an instance action fails for
    the instance IDs in [failing], each time with the same SDK error. *)
Definition account (instances : list Instance) (failing : list string) : Client.t := {|
  Client.controllerAPI := cis;
  Client.Authenticator := authenticator;
  Client.vpcAPI := {|
    onListInstances := fun _ _ => (Some {| Instances := Slice instances |}, ok, None);
    onCreateInstanceAction := fun _ options =>
      match InstanceID options with
      | Some id =>
          if bool_decide (id ∈ failing)
          then (unavailable, Some "service unavailable")
          else (ok, None)
      | None => (unavailable, Some "service unavailable")
      end;
    onGetSubnet := fun _ _ => (None, not_found, Some "subnet not found");
    onGetVPC := fun _ _ => (None, not_found, Some "vpc not found");
    onListRegions := fun _ => (Some {| Regions := Slice [] |}, ok, None);
    onSetServiceURL := fun _ => None
  |}
|}.

(** An account with two regions; the VPC [vpc-1] exists in the second
    one, and the lookup of [vpc-broken] fails there with a server error. *)
Definition regional : Client.t := {|
  Client.controllerAPI := cis;
  Client.Authenticator := authenticator;
  Client.vpcAPI := {|
    onListInstances := fun _ _ => (Some {| Instances := Slice [] |}, ok, None);
    onCreateInstanceAction := fun _ _ => (ok, None);
    onGetSubnet := fun _ options =>
      if bool_decide (GetSubnetOptionsID options = Some "subnet-1")
      then (Some {| SubnetID := Some "subnet-1" |}, ok, None)
      else (None, not_found, Some "subnet not found");
    onGetVPC := fun url options =>
      if bool_decide (url = "https://us-south.example/v1") then
        if bool_decide (GetVPCOptionsID options = Some "vpc-1")
        then (Some {| VPCID := Some "vpc-1" |}, ok, None)
        else if bool_decide (GetVPCOptionsID options = Some "vpc-broken")
        then (None, unavailable, Some "service unavailable")
        else (None, not_found, Some "vpc not found")
      else (None, not_found, Some "vpc not found");
    onListRegions := fun _ =>
      (Some {| Regions := Slice [ {| Endpoint := Some "https://eu-de.example" |};
                                  {| Endpoint := Some "https://us-south.example" |} ] |},
       ok, None);
    onSetServiceURL := fun _ => None
  |}
|}.

Definition fresh : Session :=
  {| serviceURL := "https://us-south.iaas.cloud.ibm.com/v1"; requests := [] |}.

(** The actuator as [init] registers it, with the client already built. *)
Definition actuator (c : Client.t) : ibmCloudActuator Session unit :=
  {| ibmCloudClientFn := fun _ _ => (Some (ClientAPI c), None) |}.

Definition cluster : ClusterDeployment := {| InfraID := "c1" |}.

(** A test double for [API], in the manner of the generated mock: it
    records the calls it receives and gives canned answers. *)
Inductive APICall : Type :=
| GetVPCInstancesCall (ctx : Context) (infraID : string)
| StartInstancesCall (instances : slice Instance)
| StopInstancesCall (instances : slice Instance).

Definition mockAnswer {A} (call : APICall) (answer : A) : exec (list APICall) A :=
  fun calls => (Done answer, calls ++ [call]).

Definition mockAPI (listed : slice Instance * error) (startErr stopErr : error) :
    API (list APICall) := {|
  GetCISInstance := fun _ _ => mret (None, Some (ErrorString "unexpected call" []));
  GetDNSZones := fun _ => mret (nil_slice, Some (ErrorString "unexpected call" []));
  GetSubnet := fun _ _ => mret (None, Some (ErrorString "unexpected call" []));
  GetVPC := fun _ _ => mret (None, Some (ErrorString "unexpected call" []));
  GetVPCInstances := fun ctx infraID => mockAnswer (GetVPCInstancesCall ctx infraID) listed;
  StartInstances := fun instances => mockAnswer (StartInstancesCall instances) startErr;
  StopInstances := fun instances => mockAnswer (StopInstancesCall instances) stopErr
|}.

Definition mockActuator (api : API (list APICall)) : ibmCloudActuator (list APICall) unit :=
  {| ibmCloudClientFn := fun _ _ => (Some api, None) |}.

(** What the test double has recorded once the actuator has listed the
    instances of [cluster]. *)
Definition listing : list APICall := [GetVPCInstancesCall TODO "c1"].

(** Scenario A of the spec. *)
Definition scenarioA : list Instance := [instance "a" "running"; instance "b" "stopped"].

(** Scenario B of the spec. *)
Definition scenarioB : list Instance := [instance "a" "stopping"].

(** The request that asks for [action] on the instance called [name]. *)
Definition actionRequest (action name : string) : Request :=
  action_request (serviceURL fresh) action ("id-" +:+ name).

(** Scenario E of the spec: three instances to act on. *)
Definition scenarioE : list Instance :=
  [instance "c1-a" "running"; instance "c1-b" "running"; instance "c1-c" "running"].


(** An instance whose status the tables do not know: the empty string. *)
Definition scenarioUnknown : list Instance := [instance "a" ""].

End scenarios.

(** ** pkg/ibmclient/client.go: the remaining functions

    [ibmclient.Client.t] above is the client with its services in place,
    reduced to the three parts that the functions of the first half use.
    The functions below are written against the struct as it is declared,
    one pointer per service, so that [NewClient], which fills the
    services in one after the other, can be followed.  The two lookups by
    name that go through [GetDNSZones] are written against the first
    half. *)

(** *** SDK types: the fields and constants the remaining functions use *)

Module vpcv1_more.

Record GetRegionOptions := { GetRegionOptionsName : ptr string }.
Definition NewGetRegionOptions (name : string) : GetRegionOptions :=
  {| GetRegionOptionsName := Some name |}.

(* vpcv1.DedicatedHost: ID, Name *)
Record DedicatedHost := { DedicatedHostID : ptr string; DedicatedHostName : ptr string }.
Record DedicatedHostCollection := { DedicatedHosts : slice DedicatedHost }.

(* vpcv1.DedicatedHostProfile: Name; the collection's field is Profiles *)
Record DedicatedHostProfile := { DedicatedHostProfileName : ptr string }.
Record DedicatedHostProfileCollection := {
  DedicatedHostProfiles : slice DedicatedHostProfile
}.

(* vpcv1.InstanceProfile: Name; the collection's field is Profiles *)
Record InstanceProfile := { InstanceProfileName : ptr string }.
Record InstanceProfileCollection := { InstanceProfiles : slice InstanceProfile }.

(* vpcv1.Zone: Name *)
Record Zone := { VPCZoneName : ptr string }.
Record ZoneCollection := { Zones : slice Zone }.

Record ListRegionZonesOptions := { RegionName : ptr string }.
Definition NewListRegionZonesOptions (regionName : string) : ListRegionZonesOptions :=
  {| RegionName := Some regionName |}.

End vpcv1_more.

Module iamidentityv1.
Record APIKey := { AccountID : ptr string }.
Record GetAPIKeysDetailsOptions := { IamAPIKey : ptr string }.
Definition NewGetAPIKeysDetailsOptions : GetAPIKeysDetailsOptions :=
  {| IamAPIKey := None |}.
Definition SetIamAPIKey (_ : GetAPIKeysDetailsOptions) (iamAPIKey : string) :=
  {| IamAPIKey := Some iamAPIKey |}.
End iamidentityv1.

Module resourcemanagerv2.
(* resourcemanagerv2.ResourceGroup: ID, Name; the list's field is Resources *)
Record ResourceGroup := { GroupID : ptr string; GroupName : ptr string }.
Record ResourceGroupList := { Groups : slice ResourceGroup }.
Record ListResourceGroupsOptions := { ListAccountID : ptr string }.
Definition NewListResourceGroupsOptions : ListResourceGroupsOptions :=
  {| ListAccountID := None |}.
Definition SetAccountID (_ : ListResourceGroupsOptions) (accountID : string) :=
  {| ListAccountID := Some accountID |}.
End resourcemanagerv2.

Module dnsrecordsv1.
(* dnsrecordsv1.DnsrecordDetails: ID, Name, Content; the response's field
   is Result *)
Record DnsrecordDetails := {
  RecordID : ptr string;
  RecordName : ptr string;
  RecordContent : ptr string
}.
Record ListDnsrecordsResp := { Records : slice DnsrecordDetails }.
Record ListAllDnsRecordsOptions := { ListName : ptr string }.
End dnsrecordsv1.

Module corev1.
(** [corev1.Secret]: its [Data], a map from keys to bytes.  A nil map
    answers a lookup like the empty one. *)
Record Secret := { Data : gmap string (list Byte.byte) }.
End corev1.

(** *** The SDK behind the remaining functions

    The methods used here all take a context.  The provider's answer is a
    function of that context (a cancelled one makes a call fail), of the
    request and, for the VPC service, of the service URL in force.  The
    requests are recorded beside the session of the first half. *)

Module sdk_more.
Import core vpcv1 vpcv1_more iamidentityv1 resourcemanagerv2 dnsrecordsv1.

Inductive Call : Type :=
| CallGetRegion (options : GetRegionOptions)
| CallListDedicatedHosts
| CallListDedicatedHostProfiles
| CallListInstanceProfiles
| CallListRegionZones (options : ListRegionZonesOptions)
| CallGetAPIKeysDetails (options : GetAPIKeysDetailsOptions)
| CallListResourceGroups (options : ListResourceGroupsOptions)
| CallListAllDnsRecords (crn zoneIdentifier : ptr string) (options : ListAllDnsRecordsOptions).

Record Request := {
  reqContext : Context;
  reqURL : option string;        (* VPC requests: the service URL in force *)
  reqCall : Call
}.

(** The session of the VPC service, shared with the first half, and the
    requests made through the methods of this half, oldest first. *)
Record World := { session : sdk.Session; calls : list Request }.

Definition M : Type -> Type := exec World.

(** A method of the first half, run on the session. *)
Definition on_session {A} (m : sdk.M A) : M A :=
  fun w =>
    let '(o, s) := m (session w) in
    (o, {| session := s; calls := calls w |}).

Definition record (r : Request) : M unit :=
  fun w => (Done tt, {| session := session w; calls := calls w ++ [r] |}).

(** A request to the VPC service goes to the service URL in force. *)
Definition send (ctx : Context) (call : Call) : M string :=
  fun w =>
    let url := sdk.serviceURL (session w) in
    (Done url,
     {| session := session w;
        calls := calls w ++
          [{| reqContext := ctx; reqURL := Some url; reqCall := call |}] |}).

(** [*vpcv1.VpcV1], with the methods of both halves. *)
Record VpcV1 := {
  firstHalf : sdk.VpcV1;
  onGetRegion :
    Context -> string -> GetRegionOptions ->
    ptr Region * DetailedResponse * sdk.sdk_error;
  onListDedicatedHosts :
    Context -> string -> ptr DedicatedHostCollection * DetailedResponse * sdk.sdk_error;
  onListDedicatedHostProfiles :
    Context -> string ->
    ptr DedicatedHostProfileCollection * DetailedResponse * sdk.sdk_error;
  onListInstanceProfiles :
    Context -> string -> ptr InstanceProfileCollection * DetailedResponse * sdk.sdk_error;
  onListRegionZones :
    Context -> string -> ListRegionZonesOptions ->
    ptr ZoneCollection * DetailedResponse * sdk.sdk_error
}.

Definition GetRegionWithContext (vpc : VpcV1) (ctx : Context)
    (options : GetRegionOptions) : M (ptr Region * DetailedResponse * error) :=
  url ← send ctx (CallGetRegion options);
  let '(result, response, err) := onGetRegion vpc ctx url options in
  mret (result, response, sdk.to_error err).

Definition ListDedicatedHostsWithContext (vpc : VpcV1) (ctx : Context) :
    M (ptr DedicatedHostCollection * DetailedResponse * error) :=
  url ← send ctx CallListDedicatedHosts;
  let '(result, response, err) := onListDedicatedHosts vpc ctx url in
  mret (result, response, sdk.to_error err).

Definition ListDedicatedHostProfilesWithContext (vpc : VpcV1) (ctx : Context) :
    M (ptr DedicatedHostProfileCollection * DetailedResponse * error) :=
  url ← send ctx CallListDedicatedHostProfiles;
  let '(result, response, err) := onListDedicatedHostProfiles vpc ctx url in
  mret (result, response, sdk.to_error err).

Definition ListInstanceProfilesWithContext (vpc : VpcV1) (ctx : Context) :
    M (ptr InstanceProfileCollection * DetailedResponse * error) :=
  url ← send ctx CallListInstanceProfiles;
  let '(result, response, err) := onListInstanceProfiles vpc ctx url in
  mret (result, response, sdk.to_error err).

Definition ListRegionZonesWithContext (vpc : VpcV1) (ctx : Context)
    (options : ListRegionZonesOptions) :
    M (ptr ZoneCollection * DetailedResponse * error) :=
  url ← send ctx (CallListRegionZones options);
  let '(result, response, err) := onListRegionZones vpc ctx url options in
  mret (result, response, sdk.to_error err).

Definition SetServiceURL (vpc : VpcV1) (url : string) : M error :=
  on_session (sdk.SetServiceURL (firstHalf vpc) url).

(** [*iamidentityv1.IamIdentityV1] *)
Record IamIdentityV1 := {
  onGetAPIKeysDetails :
    Context -> GetAPIKeysDetailsOptions -> ptr APIKey * DetailedResponse * sdk.sdk_error
}.

Definition GetAPIKeysDetailsWithContext (iam : IamIdentityV1) (ctx : Context)
    (options : GetAPIKeysDetailsOptions) : M (ptr APIKey * DetailedResponse * error) :=
  record {| reqContext := ctx; reqURL := None;
            reqCall := CallGetAPIKeysDetails options |};;
  let '(result, response, err) := onGetAPIKeysDetails iam ctx options in
  mret (result, response, sdk.to_error err).

(** [*resourcemanagerv2.ResourceManagerV2] *)
Record ResourceManagerV2 := {
  onListResourceGroups :
    Context -> ListResourceGroupsOptions ->
    ptr ResourceGroupList * DetailedResponse * sdk.sdk_error
}.

Definition ListResourceGroupsWithContext (rm : ResourceManagerV2) (ctx : Context)
    (options : ListResourceGroupsOptions) :
    M (ptr ResourceGroupList * DetailedResponse * error) :=
  record {| reqContext := ctx; reqURL := None;
            reqCall := CallListResourceGroups options |};;
  let '(result, response, err) := onListResourceGroups rm ctx options in
  mret (result, response, sdk.to_error err).

(** [*dnsrecordsv1.DnsRecordsV1], a service for one zone of one CIS
    instance. *)
Record DnsRecordsV1 := {
  dnsCrn : ptr string;
  dnsZoneIdentifier : ptr string;
  onListAllDnsRecords :
    Context -> ListAllDnsRecordsOptions ->
    ptr ListDnsrecordsResp * DetailedResponse * sdk.sdk_error
}.

Definition ListAllDnsRecordsWithContext (dns : DnsRecordsV1) (ctx : Context)
    (options : ListAllDnsRecordsOptions) :
    M (ptr ListDnsrecordsResp * DetailedResponse * error) :=
  record {| reqContext := ctx; reqURL := None;
            reqCall := CallListAllDnsRecords (dnsCrn dns) (dnsZoneIdentifier dns) options |};;
  let '(result, response, err) := onListAllDnsRecords dns ctx options in
  mret (result, response, sdk.to_error err).

(** [core.IamAuthenticator{ApiKey: ...}] *)
Record IamAuthenticator := { ApiKey : string }.

(** The constructors of the SDK's services: what each makes of the
    authenticator it is given, a service or an error. *)
Record Library := {
  onNewResourceManagerV2 : ptr IamAuthenticator -> ptr ResourceManagerV2 * sdk.sdk_error;
  onNewResourceControllerV2 :
    ptr IamAuthenticator -> ptr sdk.ResourceControllerV2 * sdk.sdk_error;
  onNewVpcV1 : ptr IamAuthenticator -> ptr VpcV1 * sdk.sdk_error;
  onNewIamIdentityV1 : ptr IamAuthenticator -> ptr IamIdentityV1 * sdk.sdk_error;
  onNewDnsRecordsV1 :
    ptr IamAuthenticator -> ptr string -> ptr string -> ptr DnsRecordsV1 * sdk.sdk_error
}.

Definition NewResourceManagerV2 (ibm : Library) (authenticator : ptr IamAuthenticator) :
    ptr ResourceManagerV2 * error :=
  let '(service, err) := onNewResourceManagerV2 ibm authenticator in
  (service, sdk.to_error err).

Definition NewResourceControllerV2 (ibm : Library) (authenticator : ptr IamAuthenticator) :
    ptr sdk.ResourceControllerV2 * error :=
  let '(service, err) := onNewResourceControllerV2 ibm authenticator in
  (service, sdk.to_error err).

Definition NewVpcV1 (ibm : Library) (authenticator : ptr IamAuthenticator) :
    ptr VpcV1 * error :=
  let '(service, err) := onNewVpcV1 ibm authenticator in
  (service, sdk.to_error err).

Definition NewIamIdentityV1 (ibm : Library) (authenticator : ptr IamAuthenticator) :
    ptr IamIdentityV1 * error :=
  let '(service, err) := onNewIamIdentityV1 ibm authenticator in
  (service, sdk.to_error err).

Definition NewDnsRecordsV1 (ibm : Library) (authenticator : ptr IamAuthenticator)
    (crn zoneIdentifier : ptr string) : ptr DnsRecordsV1 * error :=
  let '(service, err) := onNewDnsRecordsV1 ibm authenticator crn zoneIdentifier in
  (service, sdk.to_error err).

End sdk_more.

(** *** The functions *)

Module ibmclient_more.
Import core vpcv1 vpcv1_more iamidentityv1 resourcemanagerv2 dnsrecordsv1 corev1 sdk_more.

(** The double quote that Go writes as a backslash and a quote. *)
Definition quote : string := String (Ascii.ascii_of_nat 34) EmptyString.

(** Interface [API]: the method that [GetAccountID] calls. *)
Record API (W : Type) := {
  GetAuthenticatorAPIKeyDetails : Context -> exec W (ptr APIKey * error)
}.
Arguments GetAuthenticatorAPIKeyDetails {W} _ _.

(** **** Lookups by name over [GetDNSZones] *)

(** The loop of [GetDNSZoneIDByName], with the [return] that follows
    it. *)
Fixpoint GetDNSZoneIDByName_range (name : string)
    (zones : list ibmclient.DNSZoneResponse.t) : string * error :=
  match zones with
  | [] => ("", Some (ErrorString "DNS zone %q not found" [name]))
  | z :: rest =>
      if String.eqb (ibmclient.DNSZoneResponse.Name z) name
      then (ibmclient.DNSZoneResponse.ID z, None)
      else GetDNSZoneIDByName_range name rest
  end.

(** GetDNSZoneIDByName gets the CIS zone ID from its domain name. *)
Definition GetDNSZoneIDByName (c : ibmclient.Client.t) (ctx : Context) (name : string) :
    sdk.M (string * error) :=
  '(zones, err) ← ibmclient.Client.GetDNSZones c ctx;
  match err with
  | Some e => mret ("", Some e)
  | None => mret (GetDNSZoneIDByName_range name (elems zones))
  end.

(** The loop of [GetCISInstanceCRN]: the first zone of that name sets
    [cisInstanceCRN] and ends the loop. *)
Fixpoint GetCISInstanceCRN_range (baseDomain : string)
    (zones : list ibmclient.DNSZoneResponse.t) (cisInstanceCRN : string) : string :=
  match zones with
  | [] => cisInstanceCRN
  | z :: rest =>
      if String.eqb (ibmclient.DNSZoneResponse.Name z) baseDomain
      then ibmclient.DNSZoneResponse.CISInstanceCRN z
      else GetCISInstanceCRN_range baseDomain rest cisInstanceCRN
  end.

Definition GetCISInstanceCRN {W} (client : ptr (ibmclient.API W)) (ctx : Context)
    (baseDomain : string) : exec W (string * error) :=
  client ← lift (deref client);
  '(zones, err) ← ibmclient.GetDNSZones client ctx;
  match err with
  | Some e => mret ("", Some (Wrap e "Unable to retrieve IBM Cloud DNS zones" []))
  | None =>
      let cisInstanceCRN := "" in
      let cisInstanceCRN := GetCISInstanceCRN_range baseDomain (elems zones) cisInstanceCRN in
      if String.eqb cisInstanceCRN ""
      then mret ("", Some (ErrorString
             "Could not determine CISInstanceCRN, no DNS zone found for base domain %s"
             [baseDomain]))
      else mret (cisInstanceCRN, None)
  end.

Definition GetAccountID {W} (client : ptr (API W)) (ctx : Context) :
    exec W (string * error) :=
  client ← lift (deref client);
  '(apiKeyDetails, err) ← GetAuthenticatorAPIKeyDetails client TODO;
  match err with
  | Some e => mret ("", Some (Wrap e "Unable to retrieve IBM Cloud APIKeyDetails" []))
  | None =>
      apiKeyDetails ← lift (deref apiKeyDetails);
      accountID ← lift (deref (AccountID apiKeyDetails));
      mret (accountID, None)
  end.

(** **** [type Client struct] as declared, and the remaining methods *)

Module Client.

Record t := {
  managementAPI : ptr ResourceManagerV2;
  controllerAPI : ptr sdk.ResourceControllerV2;
  vpcAPI : ptr VpcV1;
  Authenticator : ptr IamAuthenticator
}.

Section methods.
(** [ibm]: the SDK's constructors. *)
Variable ibm : Library.

(** The three loaders assign to a field of [c]; the struct they leave is
    returned beside the error. *)
Definition loadResourceManagementAPI (c : t) : t * error :=
  let '(resourceManagerV2Service, err) := NewResourceManagerV2 ibm (Authenticator c) in
  match err with
  | Some e => (c, Some e)
  | None =>
      ({| managementAPI := resourceManagerV2Service;
          controllerAPI := controllerAPI c;
          vpcAPI := vpcAPI c;
          Authenticator := Authenticator c |}, None)
  end.

Definition loadResourceControllerAPI (c : t) : t * error :=
  let '(resourceControllerV2Service, err) := NewResourceControllerV2 ibm (Authenticator c) in
  match err with
  | Some e => (c, Some e)
  | None =>
      ({| managementAPI := managementAPI c;
          controllerAPI := resourceControllerV2Service;
          vpcAPI := vpcAPI c;
          Authenticator := Authenticator c |}, None)
  end.

Definition loadVPCV1API (c : t) : t * error :=
  let '(vpcService, err) := NewVpcV1 ibm (Authenticator c) in
  match err with
  | Some e => (c, Some e)
  | None =>
      ({| managementAPI := managementAPI c;
          controllerAPI := controllerAPI c;
          vpcAPI := vpcService;
          Authenticator := Authenticator c |}, None)
  end.

(** The loop of [loadSDKServices] over the load functions. *)
Fixpoint loadSDKServices_range (servicesToLoad : list (t -> t * error)) (c : t) :
    t * error :=
  match servicesToLoad with
  | [] => (c, None)
  | fn :: rest =>
      let '(c, err) := fn c in
      match err with
      | Some e => (c, Some e)
      | None => loadSDKServices_range rest c
      end
  end.

Definition loadSDKServices (c : t) : t * error :=
  let servicesToLoad :=
    [loadResourceManagementAPI; loadResourceControllerAPI; loadVPCV1API] in
  loadSDKServices_range servicesToLoad c.

(** GetAuthenticatorAPIKeyDetails gets detailed information on the API key
    used for authentication to the IBM Cloud APIs *)
Definition GetAuthenticatorAPIKeyDetails (c : t) (ctx : Context) :
    M (ptr APIKey * error) :=
  let '(iamIdentityService, err) := NewIamIdentityV1 ibm (Authenticator c) in
  match err with
  | Some e => mret (None, Some e)
  | None =>
      let options := NewGetAPIKeysDetailsOptions in
      authenticator ← lift (deref (Authenticator c));
      let options := SetIamAPIKey options (ApiKey authenticator) in
      iamIdentityService ← lift (deref iamIdentityService);
      '(details, _, err) ← GetAPIKeysDetailsWithContext iamIdentityService ctx options;
      match err with
      | Some e => mret (None, Some e)
      | None => mret (details, None)
      end
  end.

(** GetResourceGroups gets the list of resource groups. *)
Definition GetResourceGroups (c : t) (ctx : Context) :
    M (slice ResourceGroup * error) :=
  let '(_, cancel) := ibmclient.context_WithTimeout ctx (1 * Minute) in
  '(apikey, err) ← GetAuthenticatorAPIKeyDetails c ctx;
  match err with
  | Some e => mret (nil_slice, Some e)
  | None =>
      let options := NewListResourceGroupsOptions in
      apikey ← lift (deref apikey);
      accountID ← lift (deref (AccountID apikey));
      let options := SetAccountID options accountID in
      managementAPI ← lift (deref (managementAPI c));
      '(listResourceGroupsResponse, _, err) ←
        ListResourceGroupsWithContext managementAPI ctx options;
      match err with
      | Some e => mret (nil_slice, Some e)
      | None =>
          response ← lift (deref listResourceGroupsResponse);
          mret (Groups response, None)
      end
  end.

(** The loop of [GetResourceGroup], with the [return] that follows it;
    [||] reads the name only when the ID is another. *)
Fixpoint GetResourceGroup_range (nameOrID : string) (groups : list ResourceGroup) :
    outcome (ptr ResourceGroup * error) :=
  match groups with
  | [] => Done (None, Some (ErrorString "resource group %q not found" [nameOrID]))
  | rg :: rest =>
      id ← deref (GroupID rg);
      if String.eqb id nameOrID then Done (Some rg, None)
      else
        name ← deref (GroupName rg);
        if String.eqb name nameOrID then Done (Some rg, None)
        else GetResourceGroup_range nameOrID rest
  end.

(** GetResourceGroup gets a resource group by its name or ID. *)
Definition GetResourceGroup (c : t) (ctx : Context) (nameOrID : string) :
    M (ptr ResourceGroup * error) :=
  let '(_, cancel) := ibmclient.context_WithTimeout ctx (1 * Minute) in
  '(groups, err) ← GetResourceGroups c ctx;
  match err with
  | Some e => mret (None, Some e)
  | None => lift (GetResourceGroup_range nameOrID (elems groups))
  end.

Definition setVPCServiceURLForRegion (c : t) (ctx : Context) (region : string) : M error :=
  let regionOptions := NewGetRegionOptions region in
  vpcAPI ← lift (deref (vpcAPI c));
  '(vpcRegion, _, err) ← GetRegionWithContext vpcAPI ctx regionOptions;
  match err with
  | Some e => mret (Some e)
  | None =>
      vpcRegion ← lift (deref vpcRegion);
      endpoint ← lift (deref (Endpoint vpcRegion));
      err ← SetServiceURL vpcAPI (endpoint +:+ "/v1");
      match err with
      | Some e => mret (Some e)
      | None => mret None
      end
  end.

(** The loop of [GetDedicatedHostByName], with the [return] that follows
    it. *)
Fixpoint GetDedicatedHostByName_range (name : string) (dhosts : list DedicatedHost) :
    outcome (ptr DedicatedHost * error) :=
  match dhosts with
  | [] => Done (None, Some (ErrorString "dedicated host %q not found" [name]))
  | dhost :: rest =>
      dhostName ← deref (DedicatedHostName dhost);
      if String.eqb dhostName name then Done (Some dhost, None)
      else GetDedicatedHostByName_range name rest
  end.

(** GetDedicatedHostByName gets dedicated host by name. *)
Definition GetDedicatedHostByName (c : t) (ctx : Context) (name region : string) :
    M (ptr DedicatedHost * error) :=
  err ← setVPCServiceURLForRegion c ctx region;
  match err with
  | Some e => mret (None, Some e)
  | None =>
      vpcAPI ← lift (deref (vpcAPI c));
      '(dhosts, _, err) ← ListDedicatedHostsWithContext vpcAPI ctx;
      match err with
      | Some e => mret (None, Some (Wrap e "failed to list dedicated hosts" []))
      | None =>
          dhosts ← lift (deref dhosts);
          lift (GetDedicatedHostByName_range name (elems (DedicatedHosts dhosts)))
      end
  end.

(** GetDedicatedHostProfiles gets a list of profiles supported in a
    region. *)
Definition GetDedicatedHostProfiles (c : t) (ctx : Context) (region : string) :
    M (slice DedicatedHostProfile * error) :=
  err ← setVPCServiceURLForRegion c ctx region;
  match err with
  | Some e => mret (nil_slice, Some e)
  | None =>
      vpcAPI ← lift (deref (vpcAPI c));
      '(profiles, _, err) ← ListDedicatedHostProfilesWithContext vpcAPI ctx;
      match err with
      | Some e => mret (nil_slice, Some e)
      | None =>
          profiles ← lift (deref profiles);
          mret (DedicatedHostProfiles profiles, None)
      end
  end.

(** GetDNSRecordsByName gets DNS records in specific Cloud Internet
    Services instance by its CRN, zone ID, and DNS record name. *)
Definition GetDNSRecordsByName (c : t) (ctx : Context) (crnstr zoneID recordName : string) :
    M (slice DnsrecordDetails * error) :=
  let '(dnsService, err) :=
    NewDnsRecordsV1 ibm (Authenticator c) (Some crnstr) (Some zoneID) in
  match err with
  | Some e => mret (nil_slice, Some e)
  | None =>
      dnsService ← lift (deref dnsService);
      '(records, _, err) ←
        ListAllDnsRecordsWithContext dnsService ctx {| ListName := Some recordName |};
      match err with
      | Some e => mret (nil_slice, Some (Wrap e "could not retrieve DNS records" []))
      | None =>
          records ← lift (deref records);
          mret (Records records, None)
      end
  end.

(** GetVSIProfiles gets a list of all VSI profiles. *)
Definition GetVSIProfiles (c : t) (ctx : Context) : M (slice InstanceProfile * error) :=
  vpcAPI ← lift (deref (vpcAPI c));
  '(profiles, _, err) ← ListInstanceProfilesWithContext vpcAPI ctx;
  match err with
  | Some e => mret (nil_slice, Some (Wrap e "failed to list vpc vsi profiles" []))
  | None =>
      profiles ← lift (deref profiles);
      mret (InstanceProfiles profiles, None)
  end.

(** The loop of [GetVPCZonesForRegion]: [response[idx] = *zone.Name]. *)
Fixpoint GetVPCZonesForRegion_range (idx : nat) (zones : list Zone)
    (response : slice string) : outcome (slice string) :=
  match zones with
  | [] => Done response
  | zone :: rest =>
      match deref (VPCZoneName zone) with
      | Panic => Panic
      | Done name => GetVPCZonesForRegion_range (S idx) rest (set_index response idx name)
      end
  end.

(** GetVPCZonesForRegion gets the supported zones for a VPC region. *)
Definition GetVPCZonesForRegion (c : t) (ctx : Context) (region : string) :
    M (slice string * error) :=
  let '(_, cancel) := ibmclient.context_WithTimeout ctx (1 * Minute) in
  let regionZonesOptions := NewListRegionZonesOptions region in
  vpcAPI ← lift (deref (vpcAPI c));
  '(zones, _, err) ← ListRegionZonesWithContext vpcAPI ctx regionZonesOptions;
  match err with
  | Some e => mret (nil_slice, Some e)
  | None =>
      zones ← lift (deref zones);
      let response := make "" (len (Zones zones)) in
      response ← lift (GetVPCZonesForRegion_range 0 (elems (Zones zones)) response);
      mret (response, err)
  end.

(** NewClient initializes a client with a session. *)
Definition NewClient (apiKey : string) : ptr t * error :=
  let authenticator := {| ApiKey := apiKey |} in
  let client := {|
    managementAPI := None;
    controllerAPI := None;
    vpcAPI := None;
    Authenticator := Some authenticator
  |} in
  let '(client, err) := loadSDKServices client in
  match err with
  | Some e => (None, Some (Wrap e "failed to load IBM SDK services" []))
  | None => (Some client, None)
  end.

(** [constants.IBMCloudAPIKeySecretKey] is declared in pkg/constants: the
    key is taken as given. *)
Variable IBMCloudAPIKeySecretKey : string.

Definition NewClientFromSecret (secret : ptr Secret) : outcome (ptr t * error) :=
  secret ← deref secret;
  match Data secret !! IBMCloudAPIKeySecretKey with
  | None =>
      mret (None,
            Some (ErrorString
                    ("creds secret does not contain " +:+ quote +:+
                     IBMCloudAPIKeySecretKey +:+ quote +:+ " data") []))
  | Some apiKey => mret (NewClient (String.string_of_list_byte apiKey))
  end.

End methods.

End Client.

(** [*Client] implements [API]. *)
Definition ClientAPI (ibm : Library) (c : Client.t) : API World := {|
  GetAuthenticatorAPIKeyDetails := Client.GetAuthenticatorAPIKeyDetails ibm c
|}.

(** **** Vocabulary of the statements *)

(** The zone that [GetDNSZones] returns for an active zone of a CIS
    instance. *)
Definition zone_response (instance : resourcecontrollerv2.ResourceInstance)
    (zone : zonesv1.ZoneDetails) : ibmclient.DNSZoneResponse.t := {|
  ibmclient.DNSZoneResponse.Name := default "" (zonesv1.ZoneName zone);
  ibmclient.DNSZoneResponse.ID := default "" (zonesv1.ZoneID zone);
  ibmclient.DNSZoneResponse.CISInstanceCRN := default "" (resourcecontrollerv2.CRN instance);
  ibmclient.DNSZoneResponse.CISInstanceName :=
    default "" (resourcecontrollerv2.ResourceInstanceName instance);
  ibmclient.DNSZoneResponse.ResourceGroupID :=
    default "" (resourcecontrollerv2.ResourceGroupID instance)
|}.

Definition active (zone : zonesv1.ZoneDetails) : bool :=
  bool_decide (zonesv1.ZoneStatus zone = Some "active").

(** The zones that the provider lists for a CIS instance when the zones
    service can be built for it and answers with a response; an error
    that comes with a response is not looked at. *)
Definition listed_zones (c : ibmclient.Client.t)
    (instance : resourcecontrollerv2.ResourceInstance) : option (list zonesv1.ZoneDetails) :=
  match sdk.onNewZonesV1 (ibmclient.Client.Authenticator c) (resourcecontrollerv2.CRN instance) with
  | (Some zonesService, None) =>
      match sdk.onListZones zonesService with
      | (Some response, _, _) => Some (elems (zonesv1.Result response))
      | (None, _, _) => None
      end
  | _ => None
  end.

(** A CIS instance and zones that [GetDNSZones] can read in full. *)
Definition instance_complete (instance : resourcecontrollerv2.ResourceInstance) : Prop :=
  is_Some (resourcecontrollerv2.CRN instance) /\
  is_Some (resourcecontrollerv2.ResourceInstanceName instance) /\
  is_Some (resourcecontrollerv2.ResourceGroupID instance).

Definition zone_complete (zone : zonesv1.ZoneDetails) : Prop :=
  is_Some (zonesv1.ZoneStatus zone) /\ is_Some (zonesv1.ZoneName zone) /\
  is_Some (zonesv1.ZoneID zone).

(** A CIS instance whose zones are listed and can all be read. *)
Definition readable (c : ibmclient.Client.t)
    (instance : resourcecontrollerv2.ResourceInstance) : Prop :=
  instance_complete instance /\
  exists zones, listed_zones c instance = Some zones /\ Forall zone_complete zones.

(** What [GetDNSZones] returns for the active zones of a CIS instance. *)
Definition active_zones (c : ibmclient.Client.t)
    (instance : resourcecontrollerv2.ResourceInstance) : list ibmclient.DNSZoneResponse.t :=
  map (zone_response instance) (List.filter active (default [] (listed_zones c instance))).

End ibmclient_more.

(** ** pkg/controller/hibernation/ibmcloud_actuator.go: building the client

    [CanHandle] and [getIBMCloudClient] read other parts of the
    ClusterDeployment than the four operations do; the record below holds
    those parts. *)

Module hivev1_more.
(** [cd.Namespace] and [cd.Spec.Platform.IBMCloud], a pointer, with the
    name in its [CredentialsSecretRef]. *)
Record IBMCloudPlatform := { CredentialsSecretRefName : string }.
Record ClusterDeployment := { Namespace : string; IBMCloud : ptr IBMCloudPlatform }.
End hivev1_more.

Module hibernation_more.
Import corev1 hivev1_more ibmclient_more.

(** [client.ObjectKey] *)
Record ObjectKey := { KeyNamespace : string; KeyName : string }.

(** The controller-runtime client: what [Get] leaves in the secret it is
    given for a key, and the error it returns. *)
Record KubeClient := {
  onGet : Context -> ObjectKey -> Secret -> Secret * error
}.

(** CanHandle returns true if the actuator can handle a particular
    ClusterDeployment *)
Definition CanHandle (cd : ClusterDeployment) : bool :=
  match IBMCloud cd with Some _ => true | None => false end.

Section client.
Variable ibm : sdk_more.Library.
Variable IBMCloudAPIKeySecretKey : string.

Definition getIBMCloudClient (cd : ClusterDeployment) (c : KubeClient) :
    outcome (ptr Client.t * error) :=
  let secret := {| Data := ∅ |} in
  platform ← deref (IBMCloud cd);
  let '(secret, err) :=
    onGet c TODO
      {| KeyName := CredentialsSecretRefName platform; KeyNamespace := Namespace cd |}
      secret in
  match err with
  | Some e => mret (None, Some (Wrap e "failed to fetch IBM Cloud credentials secret" []))
  | None => Client.NewClientFromSecret ibm IBMCloudAPIKeySecretKey (Some secret)
  end.

End client.

End hibernation_more.

(** ** Concrete providers for the remaining functions *)

Module examples.
Import core vpcv1 vpcv1_more iamidentityv1 resourcemanagerv2 dnsrecordsv1 corev1.
Import sdk_more ibmclient_more hivev1_more hibernation_more.

(** An account with three CIS instances; for the second one the zones
    service answers without a response and without an error. *)
Definition silentInstance : resourcecontrollerv2.ResourceInstance :=
  {| resourcecontrollerv2.CRN := Some "crn:silent";
     resourcecontrollerv2.ResourceInstanceName := Some "silent";
     resourcecontrollerv2.ResourceGroupID := Some "rg-1" |}.

Definition silentAccount : ibmclient.Client.t := {|
  ibmclient.Client.controllerAPI := {|
    sdk.onGetResourceInstance := fun _ => (Some scenarios.cisInstance, scenarios.ok, None);
    sdk.onListResourceInstances := fun _ =>
      (Some {| resourcecontrollerv2.Resources :=
                 Slice [scenarios.cisInstance; silentInstance; scenarios.cisInstance] |},
       scenarios.ok, None)
  |};
  ibmclient.Client.vpcAPI := ibmclient.Client.vpcAPI scenarios.regional;
  ibmclient.Client.Authenticator := {|
    sdk.onNewZonesV1 := fun crn =>
      if bool_decide (crn = Some "crn:silent")
      then (Some {| sdk.zonesCrn := crn; sdk.onListZones := (None, scenarios.ok, None) |},
            None)
      else sdk.onNewZonesV1 scenarios.authenticator crn
  |}
|}.

(** The account [regional] with another answer to the listing of
    regions, and an SDK that may refuse every service URL. *)
Definition regions (listing : ptr RegionCollection * DetailedResponse * sdk.sdk_error)
    (refuse : bool) : ibmclient.Client.t :=
  let regional := ibmclient.Client.vpcAPI scenarios.regional in {|
  ibmclient.Client.controllerAPI := scenarios.cis;
  ibmclient.Client.Authenticator := scenarios.authenticator;
  ibmclient.Client.vpcAPI := {|
    sdk.onListInstances := sdk.onListInstances regional;
    sdk.onCreateInstanceAction := sdk.onCreateInstanceAction regional;
    sdk.onGetSubnet := sdk.onGetSubnet regional;
    sdk.onGetVPC := sdk.onGetVPC regional;
    sdk.onListRegions := fun _ => listing;
    sdk.onSetServiceURL := fun _ => if refuse then Some "invalid service URL" else None
  |}
|}.

(** The zone that the account of the scenarios has. *)
Definition exampleZone : ibmclient.DNSZoneResponse.t := {|
  ibmclient.DNSZoneResponse.Name := "example.com";
  ibmclient.DNSZoneResponse.ID := "z1";
  ibmclient.DNSZoneResponse.CISInstanceCRN := "crn:cis";
  ibmclient.DNSZoneResponse.CISInstanceName := "cis";
  ibmclient.DNSZoneResponse.ResourceGroupID := "rg-1"
|}.

(** An implementation of the interface that answers [GetDNSZones] with
    [answer]. *)
Definition zonesAPI (answer : slice ibmclient.DNSZoneResponse.t * error) :
    ibmclient.API (list scenarios.APICall) :=
  let mock := scenarios.mockAPI (nil_slice, None) None None in {|
  ibmclient.GetCISInstance := ibmclient.GetCISInstance mock;
  ibmclient.GetDNSZones := fun _ => mret answer;
  ibmclient.GetSubnet := ibmclient.GetSubnet mock;
  ibmclient.GetVPC := ibmclient.GetVPC mock;
  ibmclient.GetVPCInstances := ibmclient.GetVPCInstances mock;
  ibmclient.StartInstances := ibmclient.StartInstances mock;
  ibmclient.StopInstances := ibmclient.StopInstances mock
|}.

(** A zone named like [exampleZone] whose CIS instance has the empty
    CRN. *)
Definition orphanZone : ibmclient.DNSZoneResponse.t := {|
  ibmclient.DNSZoneResponse.Name := "example.com";
  ibmclient.DNSZoneResponse.ID := "z0";
  ibmclient.DNSZoneResponse.CISInstanceCRN := "";
  ibmclient.DNSZoneResponse.CISInstanceName := "";
  ibmclient.DNSZoneResponse.ResourceGroupID := ""
|}.

(** An instance that the provider lists without a name. *)
Definition nameless : Instance :=
  {| ID := Some "id-x"; Name := None; Status := Some "stopped" |}.

Definition dhost (name : string) : DedicatedHost :=
  {| DedicatedHostID := Some ("id-" +:+ name); DedicatedHostName := Some name |}.

Definition group (id name : string) : ResourceGroup :=
  {| GroupID := Some id; GroupName := Some name |}.

(** A VPC service that knows the region [eu-de]; two dedicated hosts and
    a third one without a name are listed at its endpoint. *)
Definition vpc : VpcV1 := {|
  firstHalf := ibmclient.Client.vpcAPI scenarios.regional;
  onGetRegion := fun _ _ options =>
    if bool_decide (GetRegionOptionsName options = Some "eu-de")
    then (Some {| Endpoint := Some "https://eu-de.example" |}, scenarios.ok, None)
    else (None, scenarios.not_found, Some "region not found");
  onListDedicatedHosts := fun _ url =>
    if bool_decide (url = "https://eu-de.example/v1")
    then (Some {| DedicatedHosts :=
                    Slice [dhost "h1"; dhost "h2";
                           {| DedicatedHostID := Some "id-h3"; DedicatedHostName := None |}] |},
          scenarios.ok, None)
    else (Some {| DedicatedHosts := Slice [] |}, scenarios.ok, None);
  onListDedicatedHostProfiles := fun _ _ =>
    (Some {| DedicatedHostProfiles :=
               Slice [{| DedicatedHostProfileName := Some "bx2d-host-152x608" |}] |},
     scenarios.ok, None);
  onListInstanceProfiles := fun _ _ =>
    (Some {| InstanceProfiles := Slice [{| InstanceProfileName := Some "bx2-4x16" |}] |},
     scenarios.ok, None);
  onListRegionZones := fun _ _ _ =>
    (Some {| Zones := Slice [{| VPCZoneName := Some "eu-de-1" |};
                             {| VPCZoneName := Some "eu-de-2" |}] |},
     scenarios.ok, None)
|}.

(** The account of the key is [account-1]; its second group is named
    like the ID of the third. *)
Definition iam : IamIdentityV1 := {|
  onGetAPIKeysDetails := fun _ _ =>
    (Some {| AccountID := Some "account-1" |}, scenarios.ok, None)
|}.

Definition rm : ResourceManagerV2 := {|
  onListResourceGroups := fun _ _ =>
    (Some {| Groups := Slice [group "rg-1" "default"; group "rg-2" "rg-3";
                              group "rg-3" "prod"] |},
     scenarios.ok, None)
|}.

(** An SDK whose constructors want an API key that is not empty. *)
Definition accepts {A} (service : A) (authenticator : ptr IamAuthenticator) :
    ptr A * sdk.sdk_error :=
  match authenticator with
  | Some a =>
      if String.eqb (ApiKey a) ""
      then (None, Some "the ApiKey property is required")
      else (Some service, None)
  | None => (None, Some "the authenticator is required")
  end.

Definition ibm : Library := {|
  onNewResourceManagerV2 := accepts rm;
  onNewResourceControllerV2 := accepts scenarios.cis;
  onNewVpcV1 := accepts vpc;
  onNewIamIdentityV1 := accepts iam;
  onNewDnsRecordsV1 := fun authenticator crn zoneIdentifier =>
    accepts {| dnsCrn := crn; dnsZoneIdentifier := zoneIdentifier;
               onListAllDnsRecords := fun _ options =>
                 (Some {| Records :=
                            Slice [{| RecordID := Some "r1"; RecordName := ListName options;
                                      RecordContent := Some "192.0.2.1" |}] |},
                  scenarios.ok, None) |}
            authenticator
|}.

Definition authenticator : IamAuthenticator := {| ApiKey := "key" |}.

Definition client : Client.t := {|
  Client.managementAPI := Some rm;
  Client.controllerAPI := Some scenarios.cis;
  Client.vpcAPI := Some vpc;
  Client.Authenticator := Some authenticator
|}.

Definition world : World := {| session := scenarios.fresh; calls := [] |}.

(** The secret of a cluster, with the API key under [ibmcloud_api_key]. *)
Definition secretKey : string := "ibmcloud_api_key".

Definition secret : Secret :=
  {| Data := {[ secretKey := String.list_byte_of_string "key" ]} |}.

Definition deployment : ClusterDeployment :=
  {| Namespace := "ns-1";
     IBMCloud := Some {| CredentialsSecretRefName := "creds" |} |}.

(** A cluster in which that secret is stored, and no other. *)
Definition kube : KubeClient := {|
  onGet := fun _ key object =>
    if String.eqb (KeyNamespace key) "ns-1" && String.eqb (KeyName key) "creds"
    then (secret, None)
    else (object, Some (ErrorString "secrets %q not found" [KeyName key]))
|}.

End examples.

(** * Properties *)

(** ** Strings *)

Lemma append_String a (s t : string) : String a s +:+ t = String a (s +:+ t).
Proof. reflexivity. Qed.

Lemma HasPrefix_app s p : strings.HasPrefix s p = true <-> exists post, s = p +:+ post.
Proof.
  revert s; induction p as [|a p IH]; intros s; simpl.
  - split; [intros _; by exists s | done].
  - destruct s as [|b s].
    + split; [done | intros [post Hp]; by rewrite append_String in Hp].
    + destruct (Ascii.eqb_spec a b) as [->|Hne].
      * rewrite IH. split; intros [post Hp]; exists post.
        -- by rewrite append_String, Hp.
        -- rewrite append_String in Hp. congruence.
      * split; [done | intros [post Hp]; rewrite append_String in Hp; congruence].
Qed.

(** [strings.Contains] decides the substring relation. *)
Lemma Contains_substring s sub :
  strings.Contains s sub = true <-> exists pre post, s = pre +:+ sub +:+ post.
Proof.
  induction s as [|b s IH]; simpl.
  - rewrite orb_false_r, HasPrefix_app. split.
    + intros [post Hp]. by exists "", post.
    + intros [pre [post Hp]]. destruct pre; [by exists post | by rewrite append_String in Hp].
  - rewrite orb_true_iff, HasPrefix_app, IH. split.
    + intros [[post Hp] | [pre [post Hp]]].
      * by exists "", post.
      * exists (String b pre), post. by rewrite append_String, Hp.
    + intros [pre [post Hp]]. destruct pre as [|c pre].
      * left. by exists post.
      * right. exists pre, post. rewrite append_String in Hp. congruence.
Qed.

(** ** The computation monad *)

Ltac exec_simpl :=
  unfold mbind, mret, exec_bind, exec_ret, lift in *; simpl in *.

(** ** The loops of the actuator *)

Section actuator_loops.
Import vpcv1 hibernation.

Lemma cluster_instances_range states l result :
  Forall (fun i => is_Some (Status i)) l ->
  getIBMCloudClusterInstances_range states l result =
    Done (append_all result (List.filter (status_in states) l)).
Proof.
  intros Hst. revert result.
  induction Hst as [|i l [status Hi] _ IH]; intros result; simpl; [done|].
  rewrite Hi. simpl. rewrite IH. unfold status_in at 2. rewrite Hi.
  destruct (sets.Has states status); simpl; [|done].
  f_equal. destruct (List.filter _ l); simpl.
  - done.
  - by rewrite <- app_assoc.
Qed.


Lemma instance_names_range pre l :
  Forall (fun i => is_Some (Name i)) l ->
  ibmCloudInstanceNames_range (List.length pre) l (Slice (pre ++ replicate (List.length l) ""))
  = Done (Slice (pre ++ map instance_name l)).
Proof.
  intros Hn. revert pre.
  induction Hn as [|i l [name Hi] _ IH]; intros pre; simpl; [done|].
  rewrite Hi. simpl.
  replace (<[List.length pre:=name]> (pre ++ "" :: replicate (List.length l) ""))
    with ((pre ++ [name]) ++ replicate (List.length l) "").
  - replace (S (List.length pre)) with (List.length (pre ++ [name]))
      by (rewrite length_app; simpl; lia).
    rewrite IH. unfold instance_name at 2. rewrite Hi. simpl.
    by rewrite <- app_assoc.
  - rewrite <- app_assoc. simpl.
    rewrite insert_app_r_alt by lia. by rewrite Nat.sub_diag.
Qed.

Lemma instance_names instances :
  Forall (fun i => is_Some (Name i)) (elems instances) ->
  ibmCloudInstanceNames instances = Done (Slice (map instance_name (elems instances))).
Proof.
  intros Hn. unfold ibmCloudInstanceNames, make, len.
  apply (instance_names_range [] _ Hn).
Qed.

End actuator_loops.

(** ** The actuator's operations *)

Lemma filter_nil_iff {A} (f : A -> bool) (l : list A) :
  List.filter f l = [] <-> forall x, In x l -> f x = false.
Proof.
  induction l as [|x l IH]; simpl; [by split|].
  destruct (f x) eqn:Hx; split.
  - done.
  - intros H. specialize (H x (or_introl eq_refl)). congruence.
  - intros Hn y [<-|Hy]; [done | by apply IH].
  - intros H. apply IH. intros y Hy. apply H. by right.
Qed.

Lemma elems_append_all {A} (l : list A) : elems (append_all nil_slice l) = l.
Proof. by destruct l. Qed.

Section actuator_operations.
Import vpcv1 hivev1 ibmclient hibernation.
Context {W KubeClient : Type}.
Implicit Types (a : ibmCloudActuator W KubeClient) (cd : ClusterDeployment)
  (hiveClient : KubeClient) (c : API W) (instances : slice Instance) (w : W).

(** What [getIBMCloudClusterInstances] returns once the listing has
    answered with instances that all carry a status. *)
Lemma cluster_instances cd c states w instances w' :
  GetVPCInstances c TODO (InfraID cd) w = (Done (instances, None), w') ->
  Forall (fun i => is_Some (Status i)) (elems instances) ->
  getIBMCloudClusterInstances cd (Some c) states w =
    (Done (append_all nil_slice (List.filter (status_in states) (elems instances)), None), w').
Proof.
  intros Hlist Hst. unfold getIBMCloudClusterInstances. exec_simpl.
  rewrite Hlist. by rewrite cluster_instances_range.
Qed.


Lemma StopMachines_listed a cd hiveClient c w instances w' :
  listed a cd hiveClient c w instances w' ->
  Forall (fun i => is_Some (Status i)) (elems instances) ->
  StopMachines a cd hiveClient w =
    match List.filter (status_in runningOrPendingStates) (elems instances) with
    | [] => (Done None, w')
    | targets => StopInstances c (Slice targets) w'
    end.
Proof.
  intros [Hfn Hlist] Hst. unfold StopMachines. rewrite Hfn. exec_simpl.
  rewrite (cluster_instances _ _ _ _ _ _ Hlist Hst).
  destruct (List.filter _ _) as [|i l]; [done|]. simpl.
  destruct (StopInstances c _ w') as [[[e|]|] w'']; done.
Qed.

Lemma StartMachines_listed a cd hiveClient c w instances w' :
  listed a cd hiveClient c w instances w' ->
  Forall (fun i => is_Some (Status i)) (elems instances) ->
  StartMachines a cd hiveClient w =
    match List.filter (status_in stoppedOrStoppingStates) (elems instances) with
    | [] => (Done None, w')
    | targets => StartInstances c (Slice targets) w'
    end.
Proof.
  intros [Hfn Hlist] Hst. unfold StartMachines. rewrite Hfn. exec_simpl.
  rewrite (cluster_instances _ _ _ _ _ _ Hlist Hst).
  destruct (List.filter _ _) as [|i l]; [done|]. simpl.
  destruct (StartInstances c _ w') as [[[e|]|] w'']; done.
Qed.

Lemma named_filter (f : Instance -> bool) (l : list Instance) :
  Forall (fun i => is_Some (Name i)) l ->
  Forall (fun i => is_Some (Name i)) (List.filter f l).
Proof.
  intros H. induction H as [|i l Hi _ IH]; simpl; [done|].
  destruct (f i); [by constructor | done].
Qed.

Lemma stragglers_listed cd c states w instances w' :
  GetVPCInstances c TODO (InfraID cd) w = (Done (instances, None), w') ->
  Forall (fun i => is_Some (Status i)) (elems instances) ->
  Forall (fun i => is_Some (Name i)) (elems instances) ->
  let stragglers := List.filter (status_in states) (elems instances) in
  (mbind (M := exec W)
     (fun '(instances, err) =>
        match err with
        | Some e => mret (false, nil_slice, Some e)
        | None =>
            names ← lift (ibmCloudInstanceNames instances);
            mret ((len instances =? 0)%nat, names, None)
        end)
     (getIBMCloudClusterInstances cd (Some c) states)) w =
  (Done ((List.length stragglers =? 0)%nat, Slice (map instance_name stragglers), None), w').
Proof.
  intros Hlist Hst Hn stragglers. exec_simpl.
  assert (H := cluster_instances cd c states w instances w' Hlist Hst).
  exec_simpl. rewrite H.
  rewrite instance_names; rewrite elems_append_all; [|by apply named_filter].
  unfold len. by rewrite elems_append_all.
Qed.

Lemma MachinesRunning_listed a cd hiveClient c w instances w' :
  listed a cd hiveClient c w instances w' ->
  Forall (fun i => is_Some (Status i)) (elems instances) ->
  Forall (fun i => is_Some (Name i)) (elems instances) ->
  let stragglers := List.filter (status_in notRunningStates) (elems instances) in
  MachinesRunning a cd hiveClient w =
    (Done ((List.length stragglers =? 0)%nat, Slice (map instance_name stragglers), None), w').
Proof.
  intros [Hfn Hlist] Hst Hn. unfold MachinesRunning. rewrite Hfn.
  apply (stragglers_listed cd c notRunningStates w instances w' Hlist Hst Hn).
Qed.

Lemma MachinesStopped_listed a cd hiveClient c w instances w' :
  listed a cd hiveClient c w instances w' ->
  Forall (fun i => is_Some (Status i)) (elems instances) ->
  Forall (fun i => is_Some (Name i)) (elems instances) ->
  let stragglers := List.filter (status_in notStoppedStates) (elems instances) in
  MachinesStopped a cd hiveClient w =
    (Done ((List.length stragglers =? 0)%nat, Slice (map instance_name stragglers), None), w').
Proof.
  intros [Hfn Hlist] Hst Hn. unfold MachinesStopped. rewrite Hfn.
  apply (stragglers_listed cd c notStoppedStates w instances w' Hlist Hst Hn).
Qed.

(** Stopped instances are not among those to stop. *)
Lemma stopped_are_no_targets (l : list Instance) :
  Forall (fun i => Status i = Some "stopped") l ->
  List.filter (status_in runningOrPendingStates) l = [].
Proof.
  intros Hall. induction Hall as [|i l Hi _ IH]; simpl; [done|].
  unfold status_in at 1. by rewrite Hi.
Qed.

(** C1. StopMachines lists the cluster's instances and keeps those whose
    status is in [runningOrPendingStates].  When none is kept it returns
    nil and the world is the one the listing left, so nothing was asked of
    [StopInstances]; this is the case in particular when every instance is
    stopped.  Otherwise it is exactly one call of [StopInstances] on the
    kept instances, in the order listed, and the result of that call (nil
    or the error) is the result of StopMachines. *)
Theorem StopMachines_stops_running_or_pending a cd hiveClient c w instances w' :
  listed a cd hiveClient c w instances w' ->
  Forall (fun i => is_Some (Status i)) (elems instances) ->
  let targets := List.filter (status_in runningOrPendingStates) (elems instances) in
  (targets = [] -> StopMachines a cd hiveClient w = (Done None, w')) /\
  (targets <> [] ->
     StopMachines a cd hiveClient w = StopInstances c (Slice targets) w') /\
  (Forall (fun i => Status i = Some "stopped") (elems instances) ->
     StopMachines a cd hiveClient w = (Done None, w')).
Proof.
  intros Hl Hst targets.
  rewrite (StopMachines_listed _ _ _ _ _ _ _ Hl Hst). fold targets.
  repeat split.
  - by intros ->.
  - by destruct targets.
  - intros Hall. unfold targets. by rewrite (stopped_are_no_targets _ Hall).
Qed.

(** C2. MachinesRunning reports all running exactly when no listed
    instance has a status in [notRunningStates], and its stragglers are
    the names of the instances with such a status, in the order of the
    listing; MachinesStopped does the same over [notStoppedStates].  For
    the single instance [a] that is stopping, MachinesStopped returns
    (false, [a], nil). *)
Theorem MachinesRunning_MachinesStopped_stragglers a cd hiveClient c w instances w' :
  listed a cd hiveClient c w instances w' ->
  Forall (fun i => is_Some (Status i)) (elems instances) ->
  Forall (fun i => is_Some (Name i)) (elems instances) ->
  (exists allRunning,
     MachinesRunning a cd hiveClient w =
       (Done (allRunning,
              Slice (map instance_name
                       (List.filter (status_in notRunningStates) (elems instances))),
              None), w') /\
     (allRunning = true <->
      forall i, In i (elems instances) -> status_in notRunningStates i = false)) /\
  (exists allStopped,
     MachinesStopped a cd hiveClient w =
       (Done (allStopped,
              Slice (map instance_name
                       (List.filter (status_in notStoppedStates) (elems instances))),
              None), w') /\
     (allStopped = true <->
      forall i, In i (elems instances) -> status_in notStoppedStates i = false)) /\
  (forall id,
     elems instances = [{| ID := id; Name := Some "a"; Status := Some "stopping" |}] ->
     MachinesStopped a cd hiveClient w = (Done (false, Slice ["a"], None), w')).
Proof.
  intros Hl Hst Hn.
  pose proof (MachinesRunning_listed _ _ _ _ _ _ _ Hl Hst Hn) as Hrun.
  pose proof (MachinesStopped_listed _ _ _ _ _ _ _ Hl Hst Hn) as Hstop.
  simpl in Hrun, Hstop.
  split; [|split].
  - eexists. split; [exact Hrun|].
    rewrite Nat.eqb_eq, length_zero_iff_nil. apply filter_nil_iff.
  - eexists. split; [exact Hstop|].
    rewrite Nat.eqb_eq, length_zero_iff_nil. apply filter_nil_iff.
  - intros id Hone. rewrite Hstop, Hone. reflexivity.
Qed.

(** C6. StartMachines mirrors StopMachines over [stoppedOrStoppingStates]
    and [StartInstances].  When the listing is empty, StopMachines and
    StartMachines return nil and leave the world as the listing left it,
    and MachinesRunning and MachinesStopped return true with a straggler
    slice that is empty and not nil. *)
Theorem StartMachines_mirror_and_empty_listing a cd hiveClient c w instances w' :
  listed a cd hiveClient c w instances w' ->
  Forall (fun i => is_Some (Status i)) (elems instances) ->
  let targets := List.filter (status_in stoppedOrStoppingStates) (elems instances) in
  (targets = [] -> StartMachines a cd hiveClient w = (Done None, w')) /\
  (targets <> [] ->
     StartMachines a cd hiveClient w = StartInstances c (Slice targets) w') /\
  (elems instances = [] ->
     StopMachines a cd hiveClient w = (Done None, w') /\
     StartMachines a cd hiveClient w = (Done None, w') /\
     exists stragglers,
       elems stragglers = [] /\ is_nil stragglers = false /\
       MachinesRunning a cd hiveClient w = (Done (true, stragglers, None), w') /\
       MachinesStopped a cd hiveClient w = (Done (true, stragglers, None), w')).
Proof.
  intros Hl Hst targets.
  rewrite (StartMachines_listed _ _ _ _ _ _ _ Hl Hst). fold targets.
  split; [by intros -> | split; [by destruct targets|]].
  intros Hempty.
  assert (Hn : Forall (fun i => is_Some (Name i)) (elems instances))
    by (rewrite Hempty; constructor).
  rewrite (StopMachines_listed _ _ _ _ _ _ _ Hl Hst).
  rewrite (MachinesRunning_listed _ _ _ _ _ _ _ Hl Hst Hn).
  rewrite (MachinesStopped_listed _ _ _ _ _ _ _ Hl Hst Hn).
  subst targets. rewrite Hempty. repeat split. by exists (Slice []).
Qed.

(** An unknown status is in none of the four sets the operations filter
    on. *)
Lemma unknown_status_in_no_set i :
  unknown_status i = true ->
  status_in runningOrPendingStates i = false /\
  status_in stoppedOrStoppingStates i = false /\
  status_in notRunningStates i = false /\
  status_in notStoppedStates i = false.
Proof.
  unfold unknown_status, status_in. destruct (Status i) as [status|]; [|done].
  unfold sets.Has. rewrite negb_true_iff, bool_decide_eq_false.
  intros Hk.
  repeat split; apply bool_decide_eq_false; intros Hin; apply Hk; revert Hin;
    unfold knownStates, notRunningStates, notStoppedStates,
      runningOrPendingStates, stoppedOrStoppingStates, runningStates,
      stoppedStates, pendingStates, stoppingStates, sets.Union, sets.NewString;
    rewrite !elem_of_union, !elem_of_list_to_set; tauto.
Qed.

Lemma filter_known (states : sets.String) (l : list Instance) :
  (forall i, unknown_status i = true -> status_in states i = false) ->
  List.filter (status_in states) l =
  List.filter (status_in states) (List.filter (fun i => negb (unknown_status i)) l).
Proof.
  intros Hs. induction l as [|i l IH]; simpl; [done|].
  destruct (unknown_status i) eqn:Hu; simpl.
  - by rewrite (Hs i Hu).
  - destruct (status_in states i); by rewrite IH.
Qed.

(** C4, amended.  An instance whose status is unknown is in
    none of the filtered subsets: StopMachines and StartMachines do not act
    on it, and MachinesRunning and MachinesStopped neither list it as a
    straggler nor let it hold back their answer.  All four operations
    give what the instances of known status alone would give. *)
Theorem unknown_status_is_ignored a cd hiveClient c w instances w' :
  listed a cd hiveClient c w instances w' ->
  Forall (fun i => is_Some (Status i)) (elems instances) ->
  Forall (fun i => is_Some (Name i)) (elems instances) ->
  let known := List.filter (fun i => negb (unknown_status i)) (elems instances) in
  StopMachines a cd hiveClient w =
    match List.filter (status_in runningOrPendingStates) known with
    | [] => (Done None, w')
    | targets => StopInstances c (Slice targets) w'
    end /\
  StartMachines a cd hiveClient w =
    match List.filter (status_in stoppedOrStoppingStates) known with
    | [] => (Done None, w')
    | targets => StartInstances c (Slice targets) w'
    end /\
  (let stragglers := List.filter (status_in notRunningStates) known in
   MachinesRunning a cd hiveClient w =
     (Done ((List.length stragglers =? 0)%nat,
            Slice (map instance_name stragglers), None), w')) /\
  (let stragglers := List.filter (status_in notStoppedStates) known in
   MachinesStopped a cd hiveClient w =
     (Done ((List.length stragglers =? 0)%nat,
            Slice (map instance_name stragglers), None), w')).
Proof.
  intros Hl Hst Hn known. subst known. simpl.
  rewrite <- !filter_known by (intros i Hu; by apply unknown_status_in_no_set).
  rewrite (StopMachines_listed _ _ _ _ _ _ _ Hl Hst).
  rewrite (StartMachines_listed _ _ _ _ _ _ _ Hl Hst).
  rewrite (MachinesRunning_listed _ _ _ _ _ _ _ Hl Hst Hn).
  rewrite (MachinesStopped_listed _ _ _ _ _ _ _ Hl Hst Hn).
  done.
Qed.

End actuator_operations.

(** ** The scenarios of the spec, run on the test double *)

Section scenarios_on_the_mock.
Import vpcv1 hivev1 ibmclient hibernation scenarios.

Lemma mock_listed (instances : list Instance) startErr stopErr :
  let api := mockAPI (Slice instances, None) startErr stopErr in
  listed (mockActuator api) cluster tt api [] (Slice instances) listing.
Proof. by split. Qed.

(** Scenario A: of a running [a] and a stopped [b], only [a] is handed to
    [StopInstances]. *)
Lemma StopMachines_scenarioA :
  let api := mockAPI (Slice scenarioA, None) None None in
  StopMachines (mockActuator api) cluster tt [] =
    (Done None, listing ++ [StopInstancesCall (Slice [instance "a" "running"])]).
Proof.
  intros api.
  destruct (StopMachines_stops_running_or_pending
              (mockActuator api) cluster tt api [] (Slice scenarioA) listing)
    as (_ & Hstop & _).
  - apply mock_listed.
  - repeat constructor; by eexists.
  - rewrite Hstop; [reflexivity | discriminate].
Defined.

(** Scenario B: a stopping [a] is the one straggler of MachinesStopped. *)
Lemma MachinesStopped_scenarioB :
  let api := mockAPI (Slice scenarioB, None) None None in
  MachinesStopped (mockActuator api) cluster tt [] =
    (Done (false, Slice ["a"], None), listing).
Proof.
  intros api.
  destruct (MachinesRunning_MachinesStopped_stragglers
              (mockActuator api) cluster tt api [] (Slice scenarioB) listing)
    as (_ & _ & Hb).
  - apply mock_listed.
  - repeat constructor; by eexists.
  - repeat constructor; by eexists.
  - exact (Hb _ eq_refl).
Defined.

(** Scenario C: an empty listing. *)
Lemma empty_listing_scenarioC :
  let api := mockAPI (Slice [], None) None None in
  let a := mockActuator api in
  StopMachines a cluster tt [] = (Done None, listing) /\
  StartMachines a cluster tt [] = (Done None, listing) /\
  exists stragglers,
    elems stragglers = [] /\ is_nil stragglers = false /\
    MachinesRunning a cluster tt [] = (Done (true, stragglers, None), listing) /\
    MachinesStopped a cluster tt [] = (Done (true, stragglers, None), listing).
Proof.
  intros api a.
  destruct (StartMachines_mirror_and_empty_listing
              a cluster tt api [] (Slice []) listing)
    as (_ & _ & Hempty).
  - apply mock_listed.
  - constructor.
  - exact (Hempty eq_refl).
Defined.

(** An instance of unknown status next to a stopped one: the stopped one
    alone decides what the four operations do. *)
Lemma unknown_status_next_to_stopped :
  let instances := [instance "a" ""; instance "b" "stopped"] in
  let api := mockAPI (Slice instances, None) None None in
  let a := mockActuator api in
  StopMachines a cluster tt [] = (Done None, listing) /\
  StartMachines a cluster tt [] =
    (Done None, listing ++ [StartInstancesCall (Slice [instance "b" "stopped"])]) /\
  MachinesRunning a cluster tt [] = (Done (false, Slice ["b"], None), listing) /\
  MachinesStopped a cluster tt [] = (Done (true, Slice [], None), listing).
Proof.
  intros instances api a.
  apply (unknown_status_is_ignored a cluster tt api [] (Slice instances) listing).
  - apply mock_listed.
  - repeat constructor; by eexists.
  - repeat constructor; by eexists.
Defined.

(** Counterexample to C4 as stated: the one listed instance has an
    unknown status, the empty string, yet neither MachinesRunning nor
    MachinesStopped names it among the stragglers, and both report that
    all machines are in the state asked about. *)
Lemma unknown_status_is_not_a_straggler :
  let api := mockAPI (Slice scenarioUnknown, None) None None in
  let a := mockActuator api in
  Forall (fun i => unknown_status i = true) scenarioUnknown /\
  MachinesRunning a cluster tt [] = (Done (true, Slice [], None), listing) /\
  MachinesStopped a cluster tt [] = (Done (true, Slice [], None), listing).
Proof.
  intros api a. split; [by repeat constructor|]. by split.
Qed.

End scenarios_on_the_mock.

(** ** The sets of states *)

Section state_sets.
Import hibernation.


End state_sets.

(** ** The client *)

Section client.
Import vpcv1 resourcecontrollerv2 core sdk ibmclient.
Implicit Types (c : Client.t) (ctx : Context) (s : Session) (i : Instance).

Lemma GetVPCInstances_range_filter infraID l acc r :
  Client.GetVPCInstances_range infraID l acc = Done r ->
  r = append_all acc (List.filter (belongs infraID) l).
Proof.
  revert acc. induction l as [|i l IH]; intros acc; simpl.
  - congruence.
  - unfold belongs at 1. destruct (Name i) as [name|]; simpl; [|done].
    intros Hr. rewrite (IH _ Hr).
    destruct (strings.Contains name infraID); [|done].
    destruct (List.filter _ l); simpl; [done|]. by rewrite <- app_assoc.
Qed.

(** On what [GetVPCInstances] returns and leaves behind, whatever the
    provider answers. *)
Lemma GetVPCInstances_run c ctx infraID s :
  let options := {| VPCName := Some (infraID +:+ "-vpc") |} in
  let s' := {| serviceURL := serviceURL s;
               requests := requests s ++
                 [{| reqContext := None; reqURL := Some (serviceURL s);
                     reqCall := CallListInstances options |}] |} in
  Client.GetVPCInstances c ctx infraID s =
    match onListInstances (Client.vpcAPI c) (serviceURL s) options with
    | (_, _, Some e) =>
        (Done (nil_slice, Some (Wrap (SDKError e) "failed to list vpc instances" [])), s')
    | (None, _, None) => (Panic, s')
    | (Some result, _, None) =>
        match Client.GetVPCInstances_range infraID (elems (Instances result)) nil_slice with
        | Done instances => (Done (instances, None), s')
        | Panic => (Panic, s')
        end
    end.
Proof.
  unfold Client.GetVPCInstances, sdk.ListInstances, send, SetVPCName. exec_simpl.
  destruct (onListInstances _ _ _) as [[[result|] response] [e|]]; simpl; done.
Qed.

(** C7. Every instance that [GetVPCInstances] returns has a name in
    which the infrastructure ID occurs, and an instance whose name does
    not contain the ID is not returned.  What is returned are the
    provider's instances that pass this test, in the provider's order. *)
Theorem GetVPCInstances_only_instances_of_the_cluster
    c ctx infraID s instances err s' :
  Client.GetVPCInstances c ctx infraID s = (Done (instances, err), s') ->
  (forall i, In i (elems instances) ->
     exists name pre post,
       Name i = Some name /\ name = pre +:+ infraID +:+ post) /\
  (forall i name, Name i = Some name -> strings.Contains name infraID = false ->
     ~ In i (elems instances)) /\
  (forall result response,
     onListInstances (Client.vpcAPI c) (serviceURL s)
       {| VPCName := Some (infraID +:+ "-vpc") |} = (Some result, response, None) ->
     elems instances = List.filter (belongs infraID) (elems (Instances result))).
Proof.
  intros Hrun. rewrite GetVPCInstances_run in Hrun. simpl in Hrun.
  assert (Hin : forall i, In i (elems instances) -> belongs infraID i = true).
  { destruct (onListInstances _ _ _) as [[[result|] response] [e|]];
      try (by inversion Hrun; subst).
    destruct (Client.GetVPCInstances_range _ _ _) as [r|] eqn:Hr; [|done].
    assert (r = instances) as -> by congruence.
    rewrite (GetVPCInstances_range_filter _ _ _ _ Hr), elems_append_all.
    intros i Hi. by apply filter_In in Hi as [_ Hi]. }
  split; [|split].
  - intros i Hi. specialize (Hin i Hi). unfold belongs in Hin.
    destruct (Name i) as [name|]; [|done].
    apply Contains_substring in Hin as (pre & post & Hname). by exists name, pre, post.
  - intros i name Hname Hno Hi. specialize (Hin i Hi). unfold belongs in Hin.
    rewrite Hname in Hin. congruence.
  - intros result response Hanswer. rewrite Hanswer in Hrun.
    destruct (Client.GetVPCInstances_range _ _ _) as [r|] eqn:Hr; [|done].
    assert (r = instances) as -> by congruence.
    by rewrite (GetVPCInstances_range_filter _ _ _ _ Hr), elems_append_all.
Qed.

(** *** Instance actions *)

Lemma StopInstances_range_error c l s e s' :
  Client.StopInstances_range c l s = (Done (Some e), s') ->
  exists msg, e = Wrap (SDKError msg) "failed to create stop instance action" [].
Proof.
  revert s. induction l as [|i l IH]; intros s; simpl; [done|].
  unfold sdk.CreateInstanceAction, send. exec_simpl.
  destruct (ID i) as [id|]; simpl; [|done].
  destruct (onCreateInstanceAction _ _ _) as [response [msg|]]; simpl.
  - intros [= <- _]. by exists msg.
  - apply IH.
Qed.

Lemma StartInstances_range_error c l s e s' :
  Client.StartInstances_range c l s = (Done (Some e), s') ->
  exists msg i name,
    In i l /\ Name i = Some name /\
    e = Wrap (SDKError msg) "failed to create start instance action for instance %q" [name].
Proof.
  revert s. induction l as [|i l IH]; intros s; simpl; [done|].
  unfold sdk.CreateInstanceAction, send. exec_simpl.
  destruct (ID i) as [id|]; simpl; [|done].
  destruct (onCreateInstanceAction _ _ _) as [response [msg|]]; simpl.
  - destruct (Name i) as [name|] eqn:Hname; simpl; [|done].
    intros [= <- _]. exists msg, i, name. by repeat split; [left|..].
  - intros H. destruct (IH _ H) as (msg & j & name & Hj & Hn & He).
    exists msg, j, name. by repeat split; [right|..].
Qed.

(** [StopInstances] asks for the instances one by one and stops at the
    first action that fails: the instances after it are not asked for,
    and the error is the SDK's error under a fixed text, whichever
    instance it was. *)
Lemma StopInstances_stops_at_first_failure c done_ ids i id msg rest s :
  Forall2 (fun j idj => ID j = Some idj /\
                        action_error c (serviceURL s) "stop" idj = None) done_ ids ->
  ID i = Some id ->
  action_error c (serviceURL s) "stop" id = Some msg ->
  Client.StopInstances c (Slice (done_ ++ i :: rest)) s =
    (Done (Some (Wrap (SDKError msg) "failed to create stop instance action" [])),
     {| serviceURL := serviceURL s;
        requests := requests s ++
                    map (action_request (serviceURL s) "stop") (ids ++ [id]) |}).
Proof.
  unfold Client.StopInstances, action_error. simpl.
  intros Hdone Hi Hfail. revert s Hfail Hdone.
  enough (forall s0 s, serviceURL s = serviceURL s0 ->
            (onCreateInstanceAction (Client.vpcAPI c) (serviceURL s0)
               {| InstanceID := Some id; Type_ := Some "stop" |}).2 = Some msg ->
            Forall2 (fun j idj => ID j = Some idj /\
              (onCreateInstanceAction (Client.vpcAPI c) (serviceURL s0)
                 {| InstanceID := Some idj; Type_ := Some "stop" |}).2 = None) done_ ids ->
            Client.StopInstances_range c (done_ ++ i :: rest) s =
            (Done (Some (Wrap (SDKError msg) "failed to create stop instance action" [])),
             {| serviceURL := serviceURL s0;
                requests := requests s ++
                  map (action_request (serviceURL s0) "stop") (ids ++ [id]) |}))
    as H by (intros s; by apply H).
  intros s0 s Hurl Hfail Hdone. revert s Hurl.
  induction Hdone as [|j idj done_ ids [Hj Hok] _ IH]; intros s Hurl; simpl;
    unfold sdk.CreateInstanceAction, send; exec_simpl.
  - rewrite Hi. simpl. rewrite Hurl.
    unfold SetType, SetInstanceID, CreateInstanceActionOptionsTypeStopConst. simpl.
    destruct (onCreateInstanceAction _ _ _) as [response err].
    simpl in Hfail. by rewrite Hfail.
  - rewrite Hj. simpl. rewrite Hurl.
    unfold SetType, SetInstanceID, CreateInstanceActionOptionsTypeStopConst. simpl.
    destruct (onCreateInstanceAction _ _ {| InstanceID := Some idj; Type_ := _ |})
      as [response err].
    simpl in Hok. rewrite Hok. simpl.
    rewrite IH by done. simpl. by rewrite <- app_assoc.
Qed.

(** C5, at scenario E.  The action fails on the second of three
    instances.  [StopInstances] stops after the second request: nothing
    is asked for the third instance.  Its error wraps the SDK's error
    with a fixed text; it is the same error as when the action fails on
    the first instance, so it does not tell which instance failed.
    [StartInstances], on the same input, puts the name of the failing
    instance into its error. *)
Theorem StopInstances_error_does_not_name_the_instance :
  let instances := Slice scenarios.scenarioE in
  let failing name := scenarios.account scenarios.scenarioE ["id-" +:+ name] in
  Client.StopInstances (failing "c1-b") instances scenarios.fresh =
    (Done (Some (Wrap (SDKError "service unavailable")
                   "failed to create stop instance action" [])),
     {| serviceURL := serviceURL scenarios.fresh;
        requests := [scenarios.actionRequest "stop" "c1-a";
                     scenarios.actionRequest "stop" "c1-b"] |}) /\
  (Client.StopInstances (failing "c1-a") instances scenarios.fresh).1 =
  (Client.StopInstances (failing "c1-b") instances scenarios.fresh).1 /\
  Client.StartInstances (failing "c1-b") instances scenarios.fresh =
    (Done (Some (Wrap (SDKError "service unavailable")
                   "failed to create start instance action for instance %q" ["c1-b"])),
     {| serviceURL := serviceURL scenarios.fresh;
        requests := [scenarios.actionRequest "start" "c1-a";
                     scenarios.actionRequest "start" "c1-b"] |}).
Proof. repeat split. Qed.

(** *** Contexts *)

Lemma WithTimeout_neq ctx d : ctx <> WithTimeout ctx d.
Proof.
  induction ctx as [| |p IH|p IH d0]; try discriminate.
  intros [= Hp Hd]. apply IH. by rewrite <- Hd.
Qed.

Lemma StopInstances_range_requests c l s :
  exists new,
    requests (Client.StopInstances_range c l s).2 = requests s ++ new /\
    Forall (fun r => reqContext r = None) new.
Proof.
  revert s. induction l as [|i l IH]; intros s; simpl.
  - exists []. by rewrite app_nil_r.
  - unfold sdk.CreateInstanceAction, send. exec_simpl.
    destruct (ID i) as [id|]; simpl; [|exists []; by rewrite app_nil_r].
    destruct (onCreateInstanceAction _ _ _) as [response [msg|]]; simpl.
    + eexists [_]. split; [done | by repeat constructor].
    + match goal with |- context [Client.StopInstances_range c l ?s1] =>
        destruct (IH s1) as (new & -> & Hnew) end.
      simpl. eexists (_ :: new). rewrite <- app_assoc. split; [done|].
      by constructor.
Qed.

Lemma StartInstances_range_requests c l s :
  exists new,
    requests (Client.StartInstances_range c l s).2 = requests s ++ new /\
    Forall (fun r => reqContext r = None) new.
Proof.
  revert s. induction l as [|i l IH]; intros s; simpl.
  - exists []. by rewrite app_nil_r.
  - unfold sdk.CreateInstanceAction, send. exec_simpl.
    destruct (ID i) as [id|]; simpl; [|exists []; by rewrite app_nil_r].
    destruct (onCreateInstanceAction _ _ _) as [response [msg|]]; simpl.
    + destruct (Name i); simpl; eexists [_]; (split; [done | by repeat constructor]).
    + match goal with |- context [Client.StartInstances_range c l ?s1] =>
        destruct (IH s1) as (new & -> & Hnew) end.
      simpl. eexists (_ :: new). rewrite <- app_assoc. split; [done|].
      by constructor.
Qed.

Lemma GetVPC_regions_requests c vpcID regions s :
  exists new,
    requests (Client.GetVPC_regions c vpcID regions s).2 = requests s ++ new /\
    Forall (fun r => reqContext r = None) new.
Proof.
  revert s. induction regions as [|region regions IH]; intros s; simpl.
  - exists []. by rewrite app_nil_r.
  - unfold sdk.SetServiceURL, sdk.GetVPC, send. exec_simpl.
    destruct (Endpoint region) as [endpoint|]; simpl;
      [|exists []; by rewrite app_nil_r].
    destruct (onSetServiceURL _ _) as [msg|]; simpl;
      [exists []; by rewrite app_nil_r|].
    destruct (onGetVPC _ _ _) as [[vpc response] [msg|]]; simpl.
    + destruct (negb _); simpl.
      * eexists [_]. split; [done | by repeat constructor].
      * match goal with |- context [Client.GetVPC_regions c vpcID regions ?s1] =>
          destruct (IH s1) as (new & -> & Hnew) end.
        simpl. eexists (_ :: new). rewrite <- app_assoc. split; [done|].
        by constructor.
    + destruct vpc as [v|]; simpl.
      * eexists [_]. split; [done | by repeat constructor].
      * match goal with |- context [Client.GetVPC_regions c vpcID regions ?s1] =>
          destruct (IH s1) as (new & -> & Hnew) end.
        simpl. eexists (_ :: new). rewrite <- app_assoc. split; [done|].
        by constructor.
Qed.

Lemma GetDNSZones_instances_requests c resources allZones s :
  exists new,
    requests (Client.GetDNSZones_instances c resources allZones s).2 = requests s ++ new /\
    Forall (fun r => reqContext r = None) new.
Proof.
  revert allZones s.
  induction resources as [|instance resources IH]; intros allZones s; simpl.
  - exists []. by rewrite app_nil_r.
  - unfold NewZonesV1, sdk.ListZones, record. exec_simpl.
    destruct (onNewZonesV1 _ _) as [[zonesService|] [msg|]]; simpl;
      try (exists []; by rewrite app_nil_r).
    destruct (onListZones zonesService) as [[[response|] detailed] err]; simpl.
    + destruct (Client.GetDNSZones_zones _ _ _) as [zones|]; simpl.
      * match goal with |- context [Client.GetDNSZones_instances c resources zones ?s1] =>
          destruct (IH zones s1) as (new & -> & Hnew) end.
        simpl. eexists (_ :: new). rewrite <- app_assoc. split; [done|].
        by constructor.
      * eexists [_]. split; [done | by repeat constructor].
    + eexists [_]. split; [done | by repeat constructor].
Qed.

(** C9, on the code.  The context that [context.WithTimeout]
    derives is dropped, so no request goes out under it.
    [GetCISInstance], [GetDNSZones], [GetVPCInstances], [GetSubnet],
    [StopInstances] and [StartInstances] hand their requests to SDK
    methods that take no context; [GetVPC] lists the regions under the
    caller's own context and looks the VPC up without one.  Hence no request carries the
    one-minute timeout, and none but the listing of regions can be
    reached by the caller's cancellation or deadline. *)
Theorem no_request_carries_the_timeout c ctx s :
  let unbounded (r : Request) :=
    reqContext r <> Some (WithTimeout ctx (1 * Minute)) in
  (forall crnstr,
     requests (Client.GetCISInstance c ctx crnstr s).2 =
     requests s ++
       [{| reqContext := None; reqURL := None;
           reqCall := CallGetResourceInstance (NewGetResourceInstanceOptions crnstr) |}]) /\
  (exists new,
     requests (Client.GetDNSZones c ctx s).2 = requests s ++ new /\
     Forall (fun r => reqContext r = None) new) /\
  (forall infraID,
     requests (Client.GetVPCInstances c ctx infraID s).2 =
     requests s ++
       [{| reqContext := None; reqURL := Some (serviceURL s);
           reqCall := CallListInstances {| VPCName := Some (infraID +:+ "-vpc") |} |}]) /\
  (forall subnetID,
     requests (Client.GetSubnet c ctx subnetID s).2 =
     requests s ++
       [{| reqContext := None; reqURL := Some (serviceURL s);
           reqCall := CallGetSubnet {| GetSubnetOptionsID := Some subnetID |} |}]) /\
  (forall instances, exists new,
     requests (Client.StopInstances c instances s).2 = requests s ++ new /\
     Forall (fun r => reqContext r = None) new) /\
  (forall instances, exists new,
     requests (Client.StartInstances c instances s).2 = requests s ++ new /\
     Forall (fun r => reqContext r = None) new) /\
  (forall vpcID, exists new,
     requests (Client.GetVPC c ctx vpcID s).2 = requests s ++ new /\
     Forall (fun r => reqContext r = None \/ reqContext r = Some ctx) new /\
     Forall unbounded new).
Proof.
  intros unbounded. repeat split.
  - intros crnstr. unfold Client.GetCISInstance, sdk.GetResourceInstance, record.
    exec_simpl.
    by destruct (onGetResourceInstance _ _) as [[resourceInstance response] [msg|]].
  - unfold Client.GetDNSZones, sdk.ListResourceInstances, record. exec_simpl.
    destruct (onListResourceInstances _ _) as [[[response|] detailed] [msg|]]; simpl;
      try (eexists [_]; split; [done | by repeat constructor]).
    match goal with |- context [Client.GetDNSZones_instances c ?l ?z ?s1] =>
      destruct (GetDNSZones_instances_requests c l z s1) as (new & -> & Hnew) end.
    simpl. eexists (_ :: new). rewrite <- app_assoc. split; [done|].
    by constructor.
  - intros infraID. rewrite GetVPCInstances_run. simpl.
    destruct (onListInstances _ _ _) as [[[result|] response] [e|]]; try done.
    by destruct (Client.GetVPCInstances_range _ _ _).
  - intros subnetID. unfold Client.GetSubnet, sdk.GetSubnet, send. exec_simpl.
    destruct (onGetSubnet _ _ _) as [[subnet response] [msg|]]; simpl;
      by destruct (_ =? _)%Z.
  - intros instances. apply StopInstances_range_requests.
  - intros instances. apply StartInstances_range_requests.
  - intros vpcID.
    unfold Client.GetVPC, Client.getVPCRegions, sdk.ListRegionsWithContext, send.
    exec_simpl.
    assert (Hctx : forall r, reqContext r = None \/ reqContext r = Some ctx -> unbounded r).
    { intros r [Hr|Hr]; unfold unbounded; rewrite Hr; [done|].
      intros [= H]. by apply WithTimeout_neq in H. }
    destruct (onListRegions _ _) as [[[response|] detailed] [msg|]]; simpl;
      try (eexists [_]; split; [done|];
           split; repeat constructor; apply Hctx; by right).
    match goal with |- context [Client.GetVPC_regions c vpcID ?l ?s1] =>
      destruct (GetVPC_regions_requests c vpcID l s1) as (new & -> & Hnew) end.
    simpl. eexists (_ :: new). rewrite <- app_assoc. split; [done|].
    split; constructor; try (by right); try (apply Hctx; by right).
    + eapply Forall_impl; [exact Hnew|]. intros r Hr. by left.
    + eapply Forall_impl; [exact Hnew|]. intros r Hr. apply Hctx. by left.
Qed.

(** *** Not found *)




(** *** Nil pointers *)



End client.

(** [GetDNSZones] on an account with one CIS instance: of its two zones
    the active one is returned, after two requests made without a
    context. *)
Example GetDNSZones_returns_the_active_zone :
  ibmclient.Client.GetDNSZones (scenarios.account [] []) TODO scenarios.fresh =
    (Done (Slice [ {| ibmclient.DNSZoneResponse.Name := "example.com";
                      ibmclient.DNSZoneResponse.ID := "z1";
                      ibmclient.DNSZoneResponse.CISInstanceCRN := "crn:cis";
                      ibmclient.DNSZoneResponse.CISInstanceName := "cis";
                      ibmclient.DNSZoneResponse.ResourceGroupID := "rg-1" |} ],
           None),
     {| sdk.serviceURL := sdk.serviceURL scenarios.fresh;
        sdk.requests :=
          [ {| sdk.reqContext := None; sdk.reqURL := None;
               sdk.reqCall := sdk.CallListResourceInstances
                 {| resourcecontrollerv2.ResourceID := Some ibmclient.cisServiceID |} |};
            {| sdk.reqContext := None; sdk.reqURL := None;
               sdk.reqCall := sdk.CallListZones (Some "crn:cis") |} ] |}).
Proof. reflexivity. Qed.

(** Of the instances of an account, those named after another cluster are
    left out. *)
Lemma GetVPCInstances_leaves_out_other_clusters :
  let mine := scenarios.instance "c1-worker" "running" in
  let other := scenarios.instance "c2-worker" "running" in
  exists s',
    ibmclient.Client.GetVPCInstances (scenarios.account [other; mine; other] [])
      TODO "c1" scenarios.fresh = (Done (Slice [mine], None), s') /\
    ~ In other [mine].
Proof.
  intros mine other. eexists. split; [reflexivity|].
  eapply (GetVPCInstances_only_instances_of_the_cluster
            (scenarios.account [other; mine; other] []) TODO "c1" scenarios.fresh
            (Slice [mine]) None _ eq_refl); reflexivity.
Defined.


(** ** The actuator over the client *)

Section actuator_over_the_client.
Import vpcv1 hivev1 sdk ibmclient hibernation.
Context {KubeClient : Type}.
Implicit Types (c : Client.t) (a : ibmCloudActuator Session KubeClient)
  (cd : ClusterDeployment) (hiveClient : KubeClient) (s : Session).





(** With the client of this repository: when every listed instance is
    stopped, StopMachines returns nil and the one request made is the
    listing; no instance action is asked of the provider. *)
Lemma StopMachines_all_stopped_asks_for_nothing c a cd hiveClient s instances s' :
  listed a cd hiveClient (ClientAPI c) s instances s' ->
  Forall (fun i => Status i = Some "stopped") (elems instances) ->
  StopMachines a cd hiveClient s = (Done None, s') /\
  requests s' =
    requests s ++
      [{| reqContext := None; reqURL := Some (serviceURL s);
          reqCall := CallListInstances {| VPCName := Some (InfraID cd +:+ "-vpc") |} |}].
Proof.
  intros Hl Hall.
  assert (Hst : Forall (fun i => is_Some (Status i)) (elems instances))
    by (eapply Forall_impl; [exact Hall|]; by intros i ->).
  rewrite (StopMachines_listed _ _ _ _ _ _ _ Hl Hst).
  rewrite (stopped_are_no_targets _ Hall). split; [done|].
  destruct Hl as [_ Hlist]. simpl in Hlist.
  rewrite GetVPCInstances_run in Hlist. simpl in Hlist.
  destruct (onListInstances _ _ _) as [[[result|] response] [e|]];
    try destruct (Client.GetVPCInstances_range _ _ _); by inversion Hlist.
Qed.

End actuator_over_the_client.



(** * Further properties of the client *)

Section client_further.
Import vpcv1 resourcecontrollerv2 zonesv1 core sdk ibmclient.
Implicit Types (c : Client.t) (ctx : Context) (s : Session) (i : Instance).

(** ** [GetVPC] and the service URL *)

Lemma GetVPC_regions_missed_url c vpcID missed rest s :
  forallb (region_missed c vpcID) missed = true ->
  exists s1,
    Client.GetVPC_regions c vpcID (missed ++ rest) s =
      Client.GetVPC_regions c vpcID rest s1 /\
    serviceURL s1 =
      match last missed with
      | Some region => default "" (Endpoint region) +:+ "/v1"
      | None => serviceURL s
      end.
Proof.
  revert s. induction missed as [|region missed IH]; intros s; simpl.
  - by exists s.
  - rewrite andb_true_iff. unfold region_missed at 1. intros [Hregion Hmissed].
    unfold sdk.SetServiceURL, sdk.GetVPC, send. exec_simpl.
    destruct (Endpoint region) as [endpoint|] eqn:Hendpoint; simpl; [|done].
    destruct (onSetServiceURL _ _) as [msg|]; simpl; [done|].
    destruct (onGetVPC _ _ _) as [[[v|] response] [msg|]]; simpl in *;
      try done; try rewrite Hregion; simpl;
      match goal with |- context [Client.GetVPC_regions c vpcID (missed ++ rest) ?s0] =>
        destruct (IH s0 Hmissed) as (s1 & -> & Hurl) end;
      exists s1; (split; [done|]); rewrite Hurl;
      (destruct missed as [|r missed]; simpl; [by rewrite Hendpoint|]);
      (destruct (last (r :: missed)) eqn:Hlast; [done | by apply last_None in Hlast]).
Qed.

(** [GetVPC] searches by moving the client's service URL from region to
    region, and does not move it back.  When the VPC is found, the service
    URL is left at the endpoint of the first region that has it, and a
    later listing of instances is sent there.  When no region has it, the
    service URL is left at the endpoint of the last region listed. *)
Theorem GetVPC_moves_the_service_URL c ctx vpcID s response detailed :
  onListRegions (Client.vpcAPI c) (serviceURL s) = (Some response, detailed, None) ->
  (forall missed region rest endpoint v found,
     elems (Regions response) = missed ++ region :: rest ->
     forallb (region_missed c vpcID) missed = true ->
     Endpoint region = Some endpoint ->
     onSetServiceURL (Client.vpcAPI c) (endpoint +:+ "/v1") = None ->
     onGetVPC (Client.vpcAPI c) (endpoint +:+ "/v1") (NewGetVPCOptions vpcID) =
       (Some v, found, None) ->
     exists s',
       Client.GetVPC c ctx vpcID s = (Done (Some v, None), s') /\
       serviceURL s' = endpoint +:+ "/v1" /\
       forall ctx' infraID,
         requests (Client.GetVPCInstances c ctx' infraID s').2 =
         requests s' ++
           [{| reqContext := None; reqURL := Some (endpoint +:+ "/v1");
               reqCall := CallListInstances {| VPCName := Some (infraID +:+ "-vpc") |} |}]) /\
  (forall region endpoint,
     forallb (region_missed c vpcID) (elems (Regions response)) = true ->
     last (elems (Regions response)) = Some region ->
     Endpoint region = Some endpoint ->
     exists s',
       Client.GetVPC c ctx vpcID s = (Done (None, Some VPCResourceNotFoundError), s') /\
       serviceURL s' = endpoint +:+ "/v1").
Proof.
  intros Hlist. split.
  - intros missed region rest endpoint v found Hregions Hmissed Hendpoint Hurl Hanswer.
    unfold Client.GetVPC, Client.getVPCRegions, sdk.ListRegionsWithContext, send.
    exec_simpl. rewrite Hlist. simpl. rewrite Hregions.
    match goal with |- context [Client.GetVPC_regions c vpcID _ ?s0] =>
      destruct (GetVPC_regions_missed_url c vpcID missed (region :: rest) s0 Hmissed)
        as (s1 & -> & _) end.
    simpl. unfold sdk.SetServiceURL, sdk.GetVPC, send. exec_simpl.
    rewrite Hendpoint. simpl. rewrite Hurl. simpl. rewrite Hanswer. simpl.
    eexists. split; [reflexivity|]. split; [reflexivity|].
    intros ctx' infraID. rewrite GetVPCInstances_run. simpl.
    destruct (onListInstances _ _ _) as [[[result|] resp] [e|]]; try done.
    by destruct (Client.GetVPCInstances_range _ _ _).
  - intros region endpoint Hmissed Hlast Hendpoint.
    unfold Client.GetVPC, Client.getVPCRegions, sdk.ListRegionsWithContext, send.
    exec_simpl. rewrite Hlist. simpl.
    match goal with |- context [Client.GetVPC_regions c vpcID _ ?s0] =>
      destruct (GetVPC_regions_missed_url c vpcID _ [] s0 Hmissed) as (s1 & Hrun & Hs1) end.
    rewrite app_nil_r in Hrun. rewrite Hrun. simpl.
    eexists. split; [reflexivity|]. by rewrite Hs1, Hlast, Hendpoint.
Qed.

(** [GetVPC] before the search.  When the regions cannot be listed, the
    error is the SDK's under "failed to list vpc regions", the one request
    made is that listing, under the caller's context, and the service URL
    is as it was.  When the SDK refuses the endpoint of a region as
    service URL, the search ends there with the SDK's error under "failed
    to set vpc api service url", whatever regions follow.  A region
    without an endpoint makes [GetVPC] panic. *)
Theorem GetVPC_cannot_search c ctx vpcID s :
  (forall result detailed msg,
     onListRegions (Client.vpcAPI c) (serviceURL s) = (result, detailed, Some msg) ->
     Client.GetVPC c ctx vpcID s =
       (Done (None, Some (Wrap (SDKError msg) "failed to list vpc regions" [])),
        {| serviceURL := serviceURL s;
           requests := requests s ++
             [{| reqContext := Some ctx; reqURL := Some (serviceURL s);
                 reqCall := CallListRegions |}] |})) /\
  (forall response detailed missed region rest endpoint msg,
     onListRegions (Client.vpcAPI c) (serviceURL s) = (Some response, detailed, None) ->
     elems (Regions response) = missed ++ region :: rest ->
     forallb (region_missed c vpcID) missed = true ->
     Endpoint region = Some endpoint ->
     onSetServiceURL (Client.vpcAPI c) (endpoint +:+ "/v1") = Some msg ->
     exists s',
       Client.GetVPC c ctx vpcID s =
         (Done (None, Some (Wrap (SDKError msg) "failed to set vpc api service url" [])),
          s')) /\
  (forall response detailed missed region rest,
     onListRegions (Client.vpcAPI c) (serviceURL s) = (Some response, detailed, None) ->
     elems (Regions response) = missed ++ region :: rest ->
     forallb (region_missed c vpcID) missed = true ->
     Endpoint region = None ->
     panics (Client.GetVPC c ctx vpcID s).1 = true).
Proof.
  split; [|split].
  - intros result detailed msg Hlist.
    unfold Client.GetVPC, Client.getVPCRegions, sdk.ListRegionsWithContext, send.
    exec_simpl. by rewrite Hlist.
  - intros response detailed missed region rest endpoint msg
      Hlist Hregions Hmissed Hendpoint Hurl.
    unfold Client.GetVPC, Client.getVPCRegions, sdk.ListRegionsWithContext, send.
    exec_simpl. rewrite Hlist. simpl. rewrite Hregions.
    match goal with |- context [Client.GetVPC_regions c vpcID _ ?s0] =>
      destruct (GetVPC_regions_missed_url c vpcID missed (region :: rest) s0 Hmissed)
        as (s1 & -> & _) end.
    simpl. unfold sdk.SetServiceURL. exec_simpl.
    rewrite Hendpoint. simpl. rewrite Hurl. simpl. by eexists.
  - intros response detailed missed region rest Hlist Hregions Hmissed Hendpoint.
    unfold Client.GetVPC, Client.getVPCRegions, sdk.ListRegionsWithContext, send.
    exec_simpl. rewrite Hlist. simpl. rewrite Hregions.
    match goal with |- context [Client.GetVPC_regions c vpcID _ ?s0] =>
      destruct (GetVPC_regions_missed_url c vpcID missed (region :: rest) s0 Hmissed)
        as (s1 & -> & _) end.
    simpl. exec_simpl. by rewrite Hendpoint.
Qed.

End client_further.

(** ** [GetDNSZones] *)

Section dns_zones.
Import resourcecontrollerv2 zonesv1 core sdk ibmclient ibmclient_more.
Implicit Types (c : ibmclient.Client.t) (ctx : Context) (s : Session)
  (instance : ResourceInstance) (zone : ZoneDetails).

Lemma GetDNSZones_zones_complete instance zones allZones :
  instance_complete instance ->
  Forall zone_complete zones ->
  ibmclient.Client.GetDNSZones_zones instance zones allZones =
    Done (append_all allZones (map (zone_response instance) (List.filter active zones))).
Proof.
  intros ([crn Hcrn] & [iname Hname] & [rg Hrg]) Hzones. revert allZones.
  induction Hzones as [|zone zones ([status Hs] & [name Hn] & [id Hi]) _ IH];
    intros allZones; simpl; [done|].
  rewrite Hs. simpl. unfold active at 1. rewrite Hs.
  destruct (String.eqb_spec status "active") as [->|Hne].
  - rewrite bool_decide_eq_true_2 by done. simpl.
    rewrite Hn, Hi, Hcrn, Hname, Hrg. simpl. rewrite IH.
    unfold zone_response at 2. rewrite Hn, Hi, Hcrn, Hname, Hrg. simpl.
    f_equal. destruct (map _ _); simpl; [done|]. by rewrite <- app_assoc.
  - rewrite bool_decide_eq_false_2 by congruence. apply IH.
Qed.

Lemma append_all_app {A} (s : slice A) (l1 l2 : list A) :
  append_all (append_all s l1) l2 = append_all s (l1 ++ l2).
Proof.
  destruct l1 as [|x l1]; simpl; [done|].
  destruct l2 as [|y l2]; simpl; [by rewrite app_nil_r|].
  by rewrite <- app_assoc.
Qed.

(** The instances whose zones are listed and readable are gone through
    one request each; their active zones are added to those gathered. *)
Lemma GetDNSZones_instances_readable c before rest allZones s :
  Forall (readable c) before ->
  exists s1,
    ibmclient.Client.GetDNSZones_instances c (before ++ rest) allZones s =
    ibmclient.Client.GetDNSZones_instances c rest
      (append_all allZones (flat_map (active_zones c) before)) s1 /\
    serviceURL s1 = serviceURL s /\
    List.length (requests s1) = (List.length (requests s) + List.length before)%nat.
Proof.
  intros Hbefore. revert allZones s.
  induction Hbefore as [|instance before (Hinst & zones & Hzones & Hcomplete) _ IH];
    intros allZones s; simpl.
  - exists s. split; [done|]. split; [done|]. lia.
  - unfold active_zones at 1. rewrite Hzones. simpl.
    unfold listed_zones in Hzones. unfold NewZonesV1, sdk.ListZones, record. exec_simpl.
    destruct (onNewZonesV1 _ _) as [[zonesService|] [msg|]]; try done. simpl.
    destruct (onListZones zonesService) as [[[response|] detailed] err]; [|done].
    injection Hzones as <-. simpl.
    rewrite (GetDNSZones_zones_complete _ _ _ Hinst Hcomplete). simpl.
    match goal with |- context [ibmclient.Client.GetDNSZones_instances c _ ?z ?s0] =>
      destruct (IH z s0) as (s1 & -> & Hurl & Hlen) end.
    exists s1. rewrite append_all_app. split; [done|]. split; [done|].
    rewrite Hlen. simpl. rewrite length_app. simpl. lia.
Qed.

(** When the CIS instances are listed, and for each of them the zones
    service is built and answers with a response, [GetDNSZones] returns
    the active zones, and only those, in the order of the instances and,
    within an instance, of its zones, each with the CRN, the name and the
    resource group of its instance; one request is made per instance after
    the listing.  The error is nil also when the zones service sent an
    error along with a response. *)
Theorem GetDNSZones_collects_the_active_zones c ctx s response detailed :
  onListResourceInstances (ibmclient.Client.controllerAPI c)
    {| ResourceID := Some cisServiceID |} = (Some response, detailed, None) ->
  Forall (readable c) (elems (Resources response)) ->
  exists s',
    ibmclient.Client.GetDNSZones c ctx s =
      (Done (append_all nil_slice (flat_map (active_zones c) (elems (Resources response))),
             None), s') /\
    serviceURL s' = serviceURL s /\
    List.length (requests s') =
      (List.length (requests s) + 1 + List.length (elems (Resources response)))%nat.
Proof.
  intros Hlist Hreadable.
  unfold ibmclient.Client.GetDNSZones, sdk.ListResourceInstances, record,
    NewListResourceInstancesOptions, SetResourceID.
  exec_simpl. rewrite Hlist. simpl.
  match goal with |- context [ibmclient.Client.GetDNSZones_instances c _ _ ?s0] =>
    destruct (GetDNSZones_instances_readable c _ [] nil_slice s0 Hreadable)
      as (s1 & Hrun & Hurl & Hlen) end.
  rewrite app_nil_r in Hrun. rewrite Hrun. simpl.
  exists s1. split; [done|]. split; [done|].
  rewrite Hlen. simpl. rewrite length_app. simpl. lia.
Qed.

(** [GetDNSZones] gives up at the first CIS instance for which the zones
    cannot be had, and returns no zone at all, whatever the instances
    before it had.  When the zones service cannot be built, the error is
    the SDK's under "failed to list DNS zones".  When the zones service
    answers without a response, the error is what the SDK returned with
    it, unwrapped; if that is nil, [GetDNSZones] returns neither zones
    nor an error.  The instances that follow are not asked about. *)
Theorem GetDNSZones_gives_up_at_the_first_failure
    c ctx s response detailed before instance rest :
  onListResourceInstances (ibmclient.Client.controllerAPI c)
    {| ResourceID := Some cisServiceID |} = (Some response, detailed, None) ->
  elems (Resources response) = before ++ instance :: rest ->
  Forall (readable c) before ->
  (forall zonesService msg,
     onNewZonesV1 (ibmclient.Client.Authenticator c) (CRN instance) =
       (zonesService, Some msg) ->
     exists s',
       ibmclient.Client.GetDNSZones c ctx s =
         (Done (nil_slice, Some (Wrap (SDKError msg) "failed to list DNS zones" [])), s') /\
       List.length (requests s') =
         (List.length (requests s) + 1 + List.length before)%nat) /\
  (forall zonesService answered err,
     onNewZonesV1 (ibmclient.Client.Authenticator c) (CRN instance) =
       (Some zonesService, None) ->
     onListZones zonesService = (None, answered, err) ->
     exists s',
       ibmclient.Client.GetDNSZones c ctx s = (Done (nil_slice, to_error err), s') /\
       List.length (requests s') =
         (List.length (requests s) + 1 + List.length before + 1)%nat).
Proof.
  intros Hlist Hresources Hbefore.
  assert (Hrun : exists s1,
    ibmclient.Client.GetDNSZones c ctx s =
      ibmclient.Client.GetDNSZones_instances c (instance :: rest)
        (append_all nil_slice (flat_map (active_zones c) before)) s1 /\
    List.length (requests s1) = (List.length (requests s) + 1 + List.length before)%nat).
  { unfold ibmclient.Client.GetDNSZones, sdk.ListResourceInstances, record,
      NewListResourceInstancesOptions, SetResourceID.
    exec_simpl. rewrite Hlist. simpl. rewrite Hresources.
    match goal with |- context [ibmclient.Client.GetDNSZones_instances c _ _ ?s0] =>
      destruct (GetDNSZones_instances_readable c before (instance :: rest) nil_slice s0
                  Hbefore) as (s1 & -> & _ & Hlen) end.
    exists s1. split; [done|]. rewrite Hlen. simpl. rewrite length_app. simpl. lia. }
  destruct Hrun as (s1 & -> & Hlen). split.
  - intros zonesService msg Hnew. simpl. unfold NewZonesV1. rewrite Hnew. simpl.
    exists s1. by split.
  - intros zonesService answered err Hnew Hzones. simpl.
    unfold NewZonesV1, sdk.ListZones, record. rewrite Hnew. exec_simpl.
    rewrite Hzones. simpl. eexists. split; [reflexivity|].
    simpl. rewrite length_app. simpl. lia.
Qed.

End dns_zones.

(** ** Instance actions *)

Section instance_actions.
Import vpcv1 core sdk ibmclient.
Implicit Types (c : Client.t) (s : Session) (i : Instance).

Lemma session_eta s s0 :
  serviceURL s = serviceURL s0 ->
  s = {| serviceURL := serviceURL s0; requests := requests s ++ [] |}.
Proof. destruct s; simpl; intros <-. by rewrite app_nil_r. Qed.

Lemma StopInstances_range_succeeds c l ids s0 s :
  serviceURL s = serviceURL s0 ->
  Forall2 (fun j idj => ID j = Some idj /\
                        action_error c (serviceURL s0) "stop" idj = None) l ids ->
  Client.StopInstances_range c l s =
    (Done None,
     {| serviceURL := serviceURL s0;
        requests := requests s ++ map (action_request (serviceURL s0) "stop") ids |}).
Proof.
  intros Hurl Hall. revert s Hurl.
  induction Hall as [|j idj l ids [Hj Hok] _ IH]; intros s Hurl; simpl.
  - unfold mret, exec_ret. f_equal. by apply session_eta.
  - unfold sdk.CreateInstanceAction, send; exec_simpl.
    rewrite Hj. simpl. rewrite Hurl.
    unfold SetType, SetInstanceID, CreateInstanceActionOptionsTypeStopConst. simpl.
    unfold action_error in Hok. simpl in Hok.
    destruct (onCreateInstanceAction _ _ {| InstanceID := Some idj; Type_ := _ |})
      as [response err].
    simpl in Hok. rewrite Hok. simpl.
    rewrite IH by done. simpl. by rewrite <- app_assoc.
Qed.

Lemma StartInstances_range_succeeds c l ids s0 s :
  serviceURL s = serviceURL s0 ->
  Forall2 (fun j idj => ID j = Some idj /\
                        action_error c (serviceURL s0) "start" idj = None) l ids ->
  Client.StartInstances_range c l s =
    (Done None,
     {| serviceURL := serviceURL s0;
        requests := requests s ++ map (action_request (serviceURL s0) "start") ids |}).
Proof.
  intros Hurl Hall. revert s Hurl.
  induction Hall as [|j idj l ids [Hj Hok] _ IH]; intros s Hurl; simpl.
  - unfold mret, exec_ret. f_equal. by apply session_eta.
  - unfold sdk.CreateInstanceAction, send; exec_simpl.
    rewrite Hj. simpl. rewrite Hurl.
    unfold SetType, SetInstanceID, CreateInstanceActionOptionsTypeStartConst. simpl.
    unfold action_error in Hok. simpl in Hok.
    destruct (onCreateInstanceAction _ _ {| InstanceID := Some idj; Type_ := _ |})
      as [response err].
    simpl in Hok. rewrite Hok. simpl.
    rewrite IH by done. simpl. by rewrite <- app_assoc.
Qed.

(** When every instance has an ID and the provider accepts every action,
    [StopInstances] and [StartInstances] return nil after asking for each
    instance once, in the order of the slice, at the service URL in
    force, with action "stop" and "start"; the service URL stays.  On the
    nil slice and on the empty one nothing is asked. *)
Theorem instance_actions_ask_once_per_instance c instances ids s :
  Forall2 (fun j idj => ID j = Some idj) (elems instances) ids ->
  (Forall (fun idj => action_error c (serviceURL s) "stop" idj = None) ids ->
   Client.StopInstances c instances s =
     (Done None,
      {| serviceURL := serviceURL s;
         requests := requests s ++ map (action_request (serviceURL s) "stop") ids |})) /\
  (Forall (fun idj => action_error c (serviceURL s) "start" idj = None) ids ->
   Client.StartInstances c instances s =
     (Done None,
      {| serviceURL := serviceURL s;
         requests := requests s ++ map (action_request (serviceURL s) "start") ids |})).
Proof.
  intros Hids. split; intros Hok.
  - apply StopInstances_range_succeeds; [done|].
    clear -Hids Hok. induction Hids as [|j idj l ids Hj _ IH]; [constructor|].
    inversion Hok; subst. constructor; [done | by apply IH].
  - apply StartInstances_range_succeeds; [done|].
    clear -Hids Hok. induction Hids as [|j idj l ids Hj _ IH]; [constructor|].
    inversion Hok; subst. constructor; [done | by apply IH].
Qed.

(** [StartInstances] stops at the first action that fails: the instances
    after it are not asked for.  Its error is the SDK's error under a text
    that carries the name of the failing instance.  The name is read only
    then; if the failing instance has none, [StartInstances] panics where
    it would have returned the error. *)
Theorem StartInstances_stops_at_first_failure c done_ ids i id msg rest s :
  Forall2 (fun j idj => ID j = Some idj /\
                        action_error c (serviceURL s) "start" idj = None) done_ ids ->
  ID i = Some id ->
  action_error c (serviceURL s) "start" id = Some msg ->
  let s' := {| serviceURL := serviceURL s;
               requests := requests s ++
                 map (action_request (serviceURL s) "start") (ids ++ [id]) |} in
  (forall name, Name i = Some name ->
     Client.StartInstances c (Slice (done_ ++ i :: rest)) s =
       (Done (Some (Wrap (SDKError msg)
                      "failed to create start instance action for instance %q" [name])),
        s')) /\
  (Name i = None ->
     Client.StartInstances c (Slice (done_ ++ i :: rest)) s = (Panic, s')).
Proof.
  unfold Client.StartInstances, action_error. simpl.
  intros Hdone Hi Hfail. revert s Hfail Hdone.
  enough (forall s0 s, serviceURL s = serviceURL s0 ->
            (onCreateInstanceAction (Client.vpcAPI c) (serviceURL s0)
               {| InstanceID := Some id; Type_ := Some "start" |}).2 = Some msg ->
            Forall2 (fun j idj => ID j = Some idj /\
              (onCreateInstanceAction (Client.vpcAPI c) (serviceURL s0)
                 {| InstanceID := Some idj; Type_ := Some "start" |}).2 = None) done_ ids ->
            Client.StartInstances_range c (done_ ++ i :: rest) s =
            (match Name i with
             | Some name =>
                 Done (Some (Wrap (SDKError msg)
                   "failed to create start instance action for instance %q" [name]))
             | None => Panic
             end,
             {| serviceURL := serviceURL s0;
                requests := requests s ++
                  map (action_request (serviceURL s0) "start") (ids ++ [id]) |}))
    as H.
  { intros s Hfail Hdone. specialize (H s s eq_refl Hfail Hdone).
    split; [intros name Hname | intros Hname]; rewrite H, Hname; done. }
  intros s0 s Hurl Hfail Hdone. revert s Hurl.
  induction Hdone as [|j idj done_ ids [Hj Hok] _ IH]; intros s Hurl; simpl;
    unfold sdk.CreateInstanceAction, send; exec_simpl.
  - rewrite Hi. simpl. rewrite Hurl.
    unfold SetType, SetInstanceID, CreateInstanceActionOptionsTypeStartConst. simpl.
    destruct (onCreateInstanceAction _ _ _) as [response err].
    simpl in Hfail. rewrite Hfail. simpl. by destruct (Name i).
  - rewrite Hj. simpl. rewrite Hurl.
    unfold SetType, SetInstanceID, CreateInstanceActionOptionsTypeStartConst. simpl.
    destruct (onCreateInstanceAction _ _ {| InstanceID := Some idj; Type_ := _ |})
      as [response err].
    simpl in Hok. rewrite Hok. simpl.
    rewrite IH by done. simpl. by rewrite <- app_assoc.
Qed.

End instance_actions.

(** ** The listing of the cluster's instances *)

Section listing.
Import vpcv1 core sdk ibmclient.
Implicit Types (c : Client.t) (ctx : Context) (s : Session) (i : Instance).

Lemma Contains_empty name : strings.Contains name "" = true.
Proof. by destruct name. Qed.

Lemma GetVPCInstances_range_named infraID l acc :
  Forall (fun i => is_Some (Name i)) l ->
  Client.GetVPCInstances_range infraID l acc =
    Done (append_all acc (List.filter (belongs infraID) l)).
Proof.
  intros Hn. revert acc.
  induction Hn as [|i l [name Hi] _ IH]; intros acc; simpl; [done|].
  rewrite Hi. simpl. rewrite IH. unfold belongs at 2. rewrite Hi.
  destruct (strings.Contains name infraID); [|done].
  f_equal. destruct (List.filter _ l); simpl; [done|]. by rewrite <- app_assoc.
Qed.

Lemma GetVPCInstances_range_nameless infraID l acc :
  Exists (fun i => Name i = None) l ->
  Client.GetVPCInstances_range infraID l acc = Panic.
Proof.
  intros Hex. revert acc.
  induction Hex as [i l Hi | i l _ IH]; intros acc; simpl.
  - by rewrite Hi.
  - destruct (Name i); simpl; [apply IH | done].
Qed.

Lemma filter_all {A} (f : A -> bool) (l : list A) :
  Forall (fun x => f x = true) l -> List.filter f l = l.
Proof.
  intros H. induction H as [|x l Hx _ IH]; simpl; [done|]. by rewrite Hx, IH.
Qed.

(** [GetVPCInstances] at the edges.  With the empty infrastructure ID it
    asks for the VPC named "-vpc" and returns every instance listed there,
    since every name contains the empty string.  When no listed instance
    belongs to the cluster, the result is the nil slice.  A listed
    instance without a name makes it panic, whether or not the instance
    belongs to the cluster, and so does an answer of the SDK that carries
    neither a result nor an error. *)
Theorem GetVPCInstances_edges c ctx s :
  (forall result response,
     onListInstances (Client.vpcAPI c) (serviceURL s) {| VPCName := Some "-vpc" |} =
       (Some result, response, None) ->
     Forall (fun i => is_Some (Name i)) (elems (Instances result)) ->
     exists instances,
       (Client.GetVPCInstances c ctx "" s).1 = Done (instances, None) /\
       elems instances = elems (Instances result)) /\
  (forall infraID result response,
     onListInstances (Client.vpcAPI c) (serviceURL s)
       {| VPCName := Some (infraID +:+ "-vpc") |} = (Some result, response, None) ->
     Forall (fun i => is_Some (Name i)) (elems (Instances result)) ->
     Forall (fun i => belongs infraID i = false) (elems (Instances result)) ->
     (Client.GetVPCInstances c ctx infraID s).1 = Done (nil_slice, None)) /\
  (forall infraID result response,
     onListInstances (Client.vpcAPI c) (serviceURL s)
       {| VPCName := Some (infraID +:+ "-vpc") |} = (Some result, response, None) ->
     Exists (fun i => Name i = None) (elems (Instances result)) ->
     (Client.GetVPCInstances c ctx infraID s).1 = Panic) /\
  (forall infraID response,
     onListInstances (Client.vpcAPI c) (serviceURL s)
       {| VPCName := Some (infraID +:+ "-vpc") |} = (None, response, None) ->
     (Client.GetVPCInstances c ctx infraID s).1 = Panic).
Proof.
  split; [|split; [|split]].
  - intros result response Hanswer Hnamed.
    rewrite GetVPCInstances_run. simpl.
    change ("" +:+ "-vpc") with "-vpc". rewrite Hanswer.
    rewrite (GetVPCInstances_range_named _ _ _ Hnamed). simpl.
    eexists. split; [reflexivity|]. rewrite elems_append_all.
    apply filter_all. eapply Forall_impl; [exact Hnamed|].
    intros i [name Hi]. unfold belongs. rewrite Hi. apply Contains_empty.
  - intros infraID result response Hanswer Hnamed Hnone.
    rewrite GetVPCInstances_run. simpl. rewrite Hanswer.
    rewrite (GetVPCInstances_range_named _ _ _ Hnamed). simpl.
    replace (List.filter (belongs infraID) (elems (Instances result))) with (@nil Instance);
      [done|].
    symmetry. apply filter_nil_iff. intros i Hi.
    by apply (proj1 (List.Forall_forall _ _) Hnone).
  - intros infraID result response Hanswer Hnameless.
    rewrite GetVPCInstances_run. simpl. rewrite Hanswer.
    by rewrite (GetVPCInstances_range_nameless _ _ _ Hnameless).
  - intros infraID response Hanswer.
    rewrite GetVPCInstances_run. simpl. by rewrite Hanswer.
Qed.

End listing.

(** ** The actuator: errors and nil pointers *)

Section actuator_errors.
Import vpcv1 hivev1 ibmclient hibernation.
Context {W KubeClient : Type}.
Implicit Types (a : ibmCloudActuator W KubeClient) (cd : ClusterDeployment)
  (hiveClient : KubeClient) (c : API W) (instances : slice Instance) (w : W).

(** The four operations hand errors on as they are.  When the client
    cannot be built, each returns the error of [ibmCloudClientFn] and
    nothing is asked of any client.  When the listing fails, each returns
    the listing's error, not wrapped, whatever instances came with it, and
    nothing more is asked.  [MachinesRunning] and [MachinesStopped] then
    answer false with a nil list.  A client function that returns neither
    a client nor an error makes all four panic. *)
Theorem actuator_hands_errors_on a cd hiveClient w :
  (forall client e,
     ibmCloudClientFn a cd hiveClient = (client, Some e) ->
     StopMachines a cd hiveClient w = (Done (Some e), w) /\
     StartMachines a cd hiveClient w = (Done (Some e), w) /\
     MachinesRunning a cd hiveClient w = (Done (false, nil_slice, Some e), w) /\
     MachinesStopped a cd hiveClient w = (Done (false, nil_slice, Some e), w)) /\
  (forall c instances e w',
     ibmCloudClientFn a cd hiveClient = (Some c, None) ->
     GetVPCInstances c TODO (InfraID cd) w = (Done (instances, Some e), w') ->
     StopMachines a cd hiveClient w = (Done (Some e), w') /\
     StartMachines a cd hiveClient w = (Done (Some e), w') /\
     MachinesRunning a cd hiveClient w = (Done (false, nil_slice, Some e), w') /\
     MachinesStopped a cd hiveClient w = (Done (false, nil_slice, Some e), w')) /\
  (ibmCloudClientFn a cd hiveClient = (None, None) ->
     StopMachines a cd hiveClient w = (Panic, w) /\
     StartMachines a cd hiveClient w = (Panic, w) /\
     MachinesRunning a cd hiveClient w = (Panic, w) /\
     MachinesStopped a cd hiveClient w = (Panic, w)).
Proof.
  split; [|split].
  - intros client e Hfn.
    unfold StopMachines, StartMachines, MachinesRunning, MachinesStopped.
    by rewrite Hfn.
  - intros c instances e w' Hfn Hlist.
    unfold StopMachines, StartMachines, MachinesRunning, MachinesStopped,
      getIBMCloudClusterInstances.
    rewrite Hfn. exec_simpl. by rewrite Hlist.
  - intros Hfn.
    unfold StopMachines, StartMachines, MachinesRunning, MachinesStopped,
      getIBMCloudClusterInstances.
    by rewrite Hfn.
Qed.

(** The two loops of the actuator panic exactly on a nil field:
    [getIBMCloudClusterInstances] when some listed instance has no
    status, [ibmCloudInstanceNames] when some instance has no name.  When
    [ibmCloudInstanceNames] returns, its result is not nil, also for no
    instances, and holds the names in the order of the instances. *)
Theorem actuator_loops_panic_on_a_nil_field :
  (forall states l result,
     panics (getIBMCloudClusterInstances_range states l result) = true <->
     Exists (fun i => Status i = None) l) /\
  (forall instances,
     panics (ibmCloudInstanceNames instances) = true <->
     Exists (fun i => Name i = None) (elems instances)) /\
  (forall instances names,
     ibmCloudInstanceNames instances = Done names ->
     is_nil names = false /\
     elems names = map instance_name (elems instances) /\
     Forall (fun i => is_Some (Name i)) (elems instances)).
Proof.
  assert (Hnames : forall l k names,
    panics (ibmCloudInstanceNames_range k l names) = true <->
    Exists (fun i => Name i = None) l).
  { induction l as [|i l IH]; intros k names; simpl.
    - split; [done | by intros H; inversion H].
    - rewrite Exists_cons. destruct (Name i) as [name|]; simpl.
      + rewrite IH. split; [by right | by intros [?|?]].
      + split; [by left | done]. }
  split; [|split].
  - intros states l. induction l as [|i l IH]; intros result; simpl.
    + split; [done | by intros H; inversion H].
    + rewrite Exists_cons. destruct (Status i) as [status|]; simpl.
      * rewrite IH. split; [by right | by intros [?|?]].
      * split; [by left | done].
  - intros instances. apply Hnames.
  - intros instances names Hrun.
    assert (Hn : Forall (fun i => is_Some (Name i)) (elems instances)).
    { apply Forall_forall. intros i Hi.
      destruct (Name i) as [name|] eqn:Hname; [by eexists|].
      assert (Hex : Exists (fun i => Name i = None) (elems instances))
        by (apply Exists_exists; by exists i).
      apply Hnames with (k := 0%nat) (names := make "" (len instances)) in Hex.
      unfold ibmCloudInstanceNames in Hrun. by rewrite Hrun in Hex. }
    rewrite (instance_names _ Hn) in Hrun. injection Hrun as <-. by repeat split.
Qed.

End actuator_errors.

(** ** Lookups by name over [GetDNSZones] *)

Section lookups_by_name.
Import core sdk ibmclient ibmclient_more.
Implicit Types (c : ibmclient.Client.t) (ctx : Context) (s : Session)
  (z : DNSZoneResponse.t).

Lemma GetDNSZoneIDByName_range_first name before z rest :
  Forall (fun x => DNSZoneResponse.Name x <> name) before ->
  DNSZoneResponse.Name z = name ->
  GetDNSZoneIDByName_range name (before ++ z :: rest) = (DNSZoneResponse.ID z, None).
Proof.
  intros Hbefore Hz. induction Hbefore as [|x before Hx _ IH]; simpl.
  - by rewrite (proj2 (String.eqb_eq _ _) Hz).
  - by rewrite (proj2 (String.eqb_neq _ _) Hx).
Qed.

Lemma GetDNSZoneIDByName_range_none name zones :
  Forall (fun x => DNSZoneResponse.Name x <> name) zones ->
  GetDNSZoneIDByName_range name zones =
    ("", Some (ErrorString "DNS zone %q not found" [name])).
Proof.
  intros Hzones. induction Hzones as [|x zones Hx _ IH]; simpl; [done|].
  by rewrite (proj2 (String.eqb_neq _ _) Hx).
Qed.

Lemma GetCISInstanceCRN_range_first baseDomain before z rest crn :
  Forall (fun x => DNSZoneResponse.Name x <> baseDomain) before ->
  DNSZoneResponse.Name z = baseDomain ->
  GetCISInstanceCRN_range baseDomain (before ++ z :: rest) crn =
    DNSZoneResponse.CISInstanceCRN z.
Proof.
  intros Hbefore Hz. induction Hbefore as [|x before Hx _ IH]; simpl.
  - by rewrite (proj2 (String.eqb_eq _ _) Hz).
  - by rewrite (proj2 (String.eqb_neq _ _) Hx).
Qed.

Lemma GetCISInstanceCRN_range_none baseDomain zones crn :
  Forall (fun x => DNSZoneResponse.Name x <> baseDomain) zones ->
  GetCISInstanceCRN_range baseDomain zones crn = crn.
Proof.
  intros Hzones. induction Hzones as [|x zones Hx _ IH]; simpl; [done|].
  by rewrite (proj2 (String.eqb_neq _ _) Hx).
Qed.

(** [GetDNSZoneIDByName] returns the ID of the first zone, in the order
    of [GetDNSZones], whose name is the one asked for; zones of the same
    name further on are not looked at.  When no zone has the name, it
    returns the empty ID with an error that carries the name.  An error
    of [GetDNSZones] is returned as it is, with the empty ID. *)
Theorem GetDNSZoneIDByName_first_zone_of_the_name c ctx name s :
  (forall zones s' before z rest,
     Client.GetDNSZones c ctx s = (Done (zones, None), s') ->
     elems zones = before ++ z :: rest ->
     Forall (fun x => DNSZoneResponse.Name x <> name) before ->
     DNSZoneResponse.Name z = name ->
     GetDNSZoneIDByName c ctx name s = (Done (DNSZoneResponse.ID z, None), s')) /\
  (forall zones s',
     Client.GetDNSZones c ctx s = (Done (zones, None), s') ->
     Forall (fun x => DNSZoneResponse.Name x <> name) (elems zones) ->
     GetDNSZoneIDByName c ctx name s =
       (Done ("", Some (ErrorString "DNS zone %q not found" [name])), s')) /\
  (forall zones e s',
     Client.GetDNSZones c ctx s = (Done (zones, Some e), s') ->
     GetDNSZoneIDByName c ctx name s = (Done ("", Some e), s')).
Proof.
  split; [|split].
  - intros zones s' before z rest Hzones Helems Hbefore Hz.
    unfold GetDNSZoneIDByName. exec_simpl. rewrite Hzones, Helems.
    by rewrite (GetDNSZoneIDByName_range_first _ _ _ _ Hbefore Hz).
  - intros zones s' Hzones Hnone.
    unfold GetDNSZoneIDByName. exec_simpl. rewrite Hzones.
    by rewrite (GetDNSZoneIDByName_range_none _ _ Hnone).
  - intros zones e s' Hzones.
    unfold GetDNSZoneIDByName. exec_simpl. by rewrite Hzones.
Qed.

(** [GetCISInstanceCRN], over any implementation of the interface.  The
    first zone named like the base domain decides: its CRN is returned
    when it is not empty.  When it is empty, the error says that no DNS
    zone was found for the base domain, although one was, and also when a
    zone of that name further on has a CRN.  When no zone has the name the
    error is the same.  An error of [GetDNSZones] is wrapped under
    "Unable to retrieve IBM Cloud DNS zones"; a nil client makes the
    function panic. *)
Theorem GetCISInstanceCRN_first_zone_of_the_base_domain
    {W} (client : ibmclient.API W) ctx baseDomain (w : W) :
  let none_found :=
    ErrorString "Could not determine CISInstanceCRN, no DNS zone found for base domain %s"
      [baseDomain] in
  (forall zones w' before z rest,
     ibmclient.GetDNSZones client ctx w = (Done (zones, None), w') ->
     elems zones = before ++ z :: rest ->
     Forall (fun x => DNSZoneResponse.Name x <> baseDomain) before ->
     DNSZoneResponse.Name z = baseDomain ->
     (DNSZoneResponse.CISInstanceCRN z <> "" ->
      GetCISInstanceCRN (Some client) ctx baseDomain w =
        (Done (DNSZoneResponse.CISInstanceCRN z, None), w')) /\
     (DNSZoneResponse.CISInstanceCRN z = "" ->
      GetCISInstanceCRN (Some client) ctx baseDomain w =
        (Done ("", Some none_found), w'))) /\
  (forall zones w',
     ibmclient.GetDNSZones client ctx w = (Done (zones, None), w') ->
     Forall (fun x => DNSZoneResponse.Name x <> baseDomain) (elems zones) ->
     GetCISInstanceCRN (Some client) ctx baseDomain w = (Done ("", Some none_found), w')) /\
  (forall zones e w',
     ibmclient.GetDNSZones client ctx w = (Done (zones, Some e), w') ->
     GetCISInstanceCRN (Some client) ctx baseDomain w =
       (Done ("", Some (Wrap e "Unable to retrieve IBM Cloud DNS zones" [])), w')) /\
  GetCISInstanceCRN (W := W) None ctx baseDomain w = (Panic, w).
Proof.
  intros none_found. split; [|split; [|split]].
  - intros zones w' before z rest Hzones Helems Hbefore Hz.
    unfold GetCISInstanceCRN. exec_simpl. rewrite Hzones, Helems.
    rewrite (GetCISInstanceCRN_range_first _ _ _ _ _ Hbefore Hz).
    split; intros Hcrn.
    + by rewrite (proj2 (String.eqb_neq _ _) Hcrn).
    + by rewrite Hcrn.
  - intros zones w' Hzones Hnone.
    unfold GetCISInstanceCRN. exec_simpl. rewrite Hzones.
    by rewrite (GetCISInstanceCRN_range_none _ _ _ Hnone).
  - intros zones e w' Hzones.
    unfold GetCISInstanceCRN. exec_simpl. by rewrite Hzones.
  - done.
Qed.

Lemma ranges_agree name l id crn :
  GetDNSZoneIDByName_range name l = (id, None) ->
  exists z,
    In z l /\ DNSZoneResponse.Name z = name /\ DNSZoneResponse.ID z = id /\
    GetCISInstanceCRN_range name l crn = DNSZoneResponse.CISInstanceCRN z.
Proof.
  induction l as [|x l IH]; simpl; [done|].
  destruct (String.eqb_spec (DNSZoneResponse.Name x) name) as [Hx|Hx].
  - intros [= <-]. exists x. repeat split; try done. by left.
  - intros Hfound. destruct (IH Hfound) as (z & Hin & Hz & Hid & Hcrn).
    exists z. repeat split; try done. by right.
Qed.

(** The two lookups over the client of this repository look at the same
    zone.  When [GetDNSZoneIDByName] returns an ID for a name, it is the
    ID of a zone that [GetDNSZones] returned, and [GetCISInstanceCRN]
    returns the CRN of that very zone for the name as base domain, or its
    error when that CRN is empty. *)
Theorem lookups_by_name_agree c ctx name s id s' :
  GetDNSZoneIDByName c ctx name s = (Done (id, None), s') ->
  exists zones z,
    Client.GetDNSZones c ctx s = (Done (zones, None), s') /\
    In z (elems zones) /\
    DNSZoneResponse.Name z = name /\
    DNSZoneResponse.ID z = id /\
    GetCISInstanceCRN (Some (ibmclient.ClientAPI c)) ctx name s =
      (Done (if String.eqb (DNSZoneResponse.CISInstanceCRN z) ""
             then ("", Some (ErrorString
                    "Could not determine CISInstanceCRN, no DNS zone found for base domain %s"
                    [name]))
             else (DNSZoneResponse.CISInstanceCRN z, None)), s').
Proof.
  unfold GetDNSZoneIDByName, GetCISInstanceCRN. exec_simpl.
  destruct (Client.GetDNSZones c ctx s) as [[[zones [e|]]|] s1]; simpl; try done.
  intros Hrun. exists zones.
  assert (Hs : s1 = s') by congruence. subst s1.
  assert (Hfound : GetDNSZoneIDByName_range name (elems zones) = (id, None)) by congruence.
  destruct (ranges_agree _ _ _ "" Hfound) as (z & Hin & Hz & Hid & Hcrn).
  exists z. rewrite Hcrn. repeat split; try done.
  by destruct (String.eqb _ "").
Qed.

End lookups_by_name.

(** ** What the functions leave alone *)

Section left_alone.
Import vpcv1 resourcecontrollerv2 zonesv1 core sdk ibmclient.
Implicit Types (c : Client.t) (ctx : Context) (s : Session) (i : Instance).

Lemma StopInstances_range_actions c l s0 s :
  serviceURL s = serviceURL s0 ->
  exists ids,
    (Client.StopInstances_range c l s).2 =
      {| serviceURL := serviceURL s0;
         requests := requests s ++ map (action_request (serviceURL s0) "stop") ids |}.
Proof.
  revert s. induction l as [|i l IH]; intros s Hurl; simpl.
  - exists []. by apply session_eta.
  - unfold sdk.CreateInstanceAction, send. exec_simpl.
    destruct (ID i) as [id|]; simpl; [|exists []; by apply session_eta].
    rewrite Hurl.
    unfold SetType, SetInstanceID, CreateInstanceActionOptionsTypeStopConst. simpl.
    destruct (onCreateInstanceAction _ _ _) as [response [msg|]]; simpl.
    + by exists [id].
    + match goal with |- context [Client.StopInstances_range c l ?s1] =>
        destruct (IH s1 eq_refl) as (ids & ->) end.
      exists (id :: ids). simpl. by rewrite <- app_assoc.
Qed.

Lemma StartInstances_range_actions c l s0 s :
  serviceURL s = serviceURL s0 ->
  exists ids,
    (Client.StartInstances_range c l s).2 =
      {| serviceURL := serviceURL s0;
         requests := requests s ++ map (action_request (serviceURL s0) "start") ids |}.
Proof.
  revert s. induction l as [|i l IH]; intros s Hurl; simpl.
  - exists []. by apply session_eta.
  - unfold sdk.CreateInstanceAction, send. exec_simpl.
    destruct (ID i) as [id|]; simpl; [|exists []; by apply session_eta].
    rewrite Hurl.
    unfold SetType, SetInstanceID, CreateInstanceActionOptionsTypeStartConst. simpl.
    destruct (onCreateInstanceAction _ _ _) as [response [msg|]]; simpl.
    + exists [id]. by destruct (Name i).
    + match goal with |- context [Client.StartInstances_range c l ?s1] =>
        destruct (IH s1 eq_refl) as (ids & ->) end.
      exists (id :: ids). simpl. by rewrite <- app_assoc.
Qed.

Lemma GetDNSZones_instances_url c resources allZones s :
  serviceURL (Client.GetDNSZones_instances c resources allZones s).2 = serviceURL s.
Proof.
  revert allZones s.
  induction resources as [|instance resources IH]; intros allZones s; simpl; [done|].
  unfold NewZonesV1, sdk.ListZones, record. exec_simpl.
  destruct (onNewZonesV1 _ _) as [[zonesService|] [msg|]]; simpl; try done.
  destruct (onListZones zonesService) as [[[response|] detailed] err]; simpl; [|done].
  destruct (Client.GetDNSZones_zones _ _ _) as [zones|]; simpl; [|done].
  by rewrite IH.
Qed.

(** Of the functions of the client that the actuator and the DNS lookups
    go through, none but [GetVPC] touches the service URL: whatever the
    provider answers, and also when they fail or panic, [GetCISInstance],
    [GetDNSZones], [GetSubnet], [GetVPCInstances], [StopInstances] and
    [StartInstances] leave it as they found it. *)
Theorem the_service_URL_is_left_alone c ctx s :
  (forall crnstr, serviceURL (Client.GetCISInstance c ctx crnstr s).2 = serviceURL s) /\
  serviceURL (Client.GetDNSZones c ctx s).2 = serviceURL s /\
  (forall subnetID, serviceURL (Client.GetSubnet c ctx subnetID s).2 = serviceURL s) /\
  (forall infraID, serviceURL (Client.GetVPCInstances c ctx infraID s).2 = serviceURL s) /\
  (forall instances, serviceURL (Client.StopInstances c instances s).2 = serviceURL s) /\
  (forall instances, serviceURL (Client.StartInstances c instances s).2 = serviceURL s).
Proof.
  repeat split.
  - intros crnstr. unfold Client.GetCISInstance, sdk.GetResourceInstance, record.
    exec_simpl.
    by destruct (onGetResourceInstance _ _) as [[resourceInstance response] [msg|]].
  - unfold Client.GetDNSZones, sdk.ListResourceInstances, record. exec_simpl.
    destruct (onListResourceInstances _ _) as [[[response|] detailed] [msg|]]; simpl;
      try done.
    by rewrite GetDNSZones_instances_url.
  - intros subnetID. unfold Client.GetSubnet, sdk.GetSubnet, send. exec_simpl.
    destruct (onGetSubnet _ _ _) as [[subnet response] [msg|]]; simpl;
      by destruct (_ =? _)%Z.
  - intros infraID. rewrite GetVPCInstances_run. simpl.
    destruct (onListInstances _ _ _) as [[[result|] response] [e|]]; try done.
    by destruct (Client.GetVPCInstances_range _ _ _).
  - intros instances. unfold Client.StopInstances.
    by destruct (StopInstances_range_actions c (elems instances) s s eq_refl) as (ids & ->).
  - intros instances. unfold Client.StartInstances.
    by destruct (StartInstances_range_actions c (elems instances) s s eq_refl) as (ids & ->).
Qed.

End left_alone.

Section requests_of_the_operations.
Import vpcv1 hivev1 core sdk ibmclient hibernation.
Context {KubeClient : Type}.
Implicit Types (c : Client.t) (a : ibmCloudActuator Session KubeClient)
  (cd : ClusterDeployment) (hiveClient : KubeClient) (s : Session).

(** Over the client of this repository, on every path, also those that
    end in an error or a panic: each of the four operations lists the
    instances of the VPC of the cluster once.  [MachinesRunning] and
    [MachinesStopped] ask for nothing else.  All further requests of
    [StopMachines] are stop actions, all further requests of
    [StartMachines] are start actions: stopping never starts an instance
    and starting never stops one. *)
Theorem operations_ask_for_what_they_are_named_after c a cd hiveClient s :
  ibmCloudClientFn a cd hiveClient = (Some (ClientAPI c), None) ->
  let listing :=
    {| reqContext := None; reqURL := Some (serviceURL s);
       reqCall := CallListInstances {| VPCName := Some (InfraID cd +:+ "-vpc") |} |} in
  (exists ids,
     requests (StopMachines a cd hiveClient s).2 =
     requests s ++ listing :: map (action_request (serviceURL s) "stop") ids) /\
  (exists ids,
     requests (StartMachines a cd hiveClient s).2 =
     requests s ++ listing :: map (action_request (serviceURL s) "start") ids) /\
  requests (MachinesRunning a cd hiveClient s).2 = requests s ++ [listing] /\
  requests (MachinesStopped a cd hiveClient s).2 = requests s ++ [listing].
Proof.
  intros Hfn listing.
  unfold StopMachines, StartMachines, MachinesRunning, MachinesStopped,
    getIBMCloudClusterInstances.
  rewrite Hfn. exec_simpl. rewrite GetVPCInstances_run. simpl. fold listing.
  destruct (onListInstances _ _ _) as [[[result|] response] [e|]]; simpl;
    try (repeat split; try done; by exists []).
  destruct (Client.GetVPCInstances_range _ _ _) as [instances|]; simpl;
    [|repeat split; try done; by exists []].
  split; [|split; [|split]].
  - destruct (getIBMCloudClusterInstances_range _ _ _) as [targets|]; simpl;
      [|by exists []].
    destruct (len targets =? 0)%nat; simpl; [by exists []|].
    unfold Client.StopInstances.
    match goal with |- context [Client.StopInstances_range c ?l ?s1] =>
      pose proof (StopInstances_range_actions c l s1 s1 eq_refl) as (ids & Hids);
      destruct (Client.StopInstances_range c l s1) as [[[e|]|] s2] end;
      simpl in *; subst s2; simpl; exists ids; by rewrite <- app_assoc.
  - destruct (getIBMCloudClusterInstances_range _ _ _) as [targets|]; simpl;
      [|by exists []].
    destruct (len targets =? 0)%nat; simpl; [by exists []|].
    unfold Client.StartInstances.
    match goal with |- context [Client.StartInstances_range c ?l ?s1] =>
      pose proof (StartInstances_range_actions c l s1 s1 eq_refl) as (ids & Hids);
      destruct (Client.StartInstances_range c l s1) as [[[e|]|] s2] end;
      simpl in *; subst s2; simpl; exists ids; by rewrite <- app_assoc.
  - destruct (getIBMCloudClusterInstances_range _ _ _) as [stragglers|]; simpl; [|done].
    by destruct (ibmCloudInstanceNames stragglers).
  - destruct (getIBMCloudClusterInstances_range _ _ _) as [stragglers|]; simpl; [|done].
    by destruct (ibmCloudInstanceNames stragglers).
Qed.

End requests_of_the_operations.

(** * Properties of the remaining functions *)

(** ** Regions *)

Section regions.
Import core vpcv1 vpcv1_more sdk_more ibmclient_more.
Implicit Types (c : Client.t) (vpc : VpcV1) (ctx : Context) (w : World).

(** The request by which [setVPCServiceURLForRegion] looks a region up. *)
Lemma setVPCServiceURLForRegion_run c vpc ctx region w :
  Client.vpcAPI c = Some vpc ->
  let url := sdk.serviceURL (session w) in
  let asked := {|
    session := session w;
    calls := calls w ++
      [{| reqContext := ctx; reqURL := Some url;
          reqCall := CallGetRegion (NewGetRegionOptions region) |}] |} in
  Client.setVPCServiceURLForRegion c ctx region w =
    match onGetRegion vpc ctx url (NewGetRegionOptions region) with
    | (_, _, Some msg) => (Done (Some (SDKError msg)), asked)
    | (None, _, None) => (Panic, asked)
    | (Some vpcRegion, _, None) =>
        match Endpoint vpcRegion with
        | None => (Panic, asked)
        | Some endpoint =>
            match sdk.onSetServiceURL (firstHalf vpc) (endpoint +:+ "/v1") with
            | Some msg => (Done (Some (SDKError msg)), asked)
            | None =>
                (Done None,
                 {| session := {| sdk.serviceURL := endpoint +:+ "/v1";
                                  sdk.requests := sdk.requests (session w) |};
                    calls := calls asked |})
            end
        end
    end.
Proof.
  intros Hvpc. unfold Client.setVPCServiceURLForRegion, GetRegionWithContext, send,
    SetServiceURL, on_session, sdk.SetServiceURL.
  rewrite Hvpc. exec_simpl.
  destruct (onGetRegion _ _ _ _) as [[[vpcRegion|] response] [msg|]]; simpl; try done.
  destruct (Endpoint vpcRegion) as [endpoint|]; simpl; [|done].
  destruct w as [[url requests] calls]. simpl.
  by destruct (sdk.onSetServiceURL _ _) as [msg|].
Qed.

Lemma GetDedicatedHostByName_range_first name before dhost rest :
  Forall (fun x => exists n, DedicatedHostName x = Some n /\ n <> name) before ->
  Client.GetDedicatedHostByName_range name (before ++ dhost :: rest) =
    match DedicatedHostName dhost with
    | None => Panic
    | Some n =>
        if String.eqb n name then Done (Some dhost, None)
        else Client.GetDedicatedHostByName_range name rest
    end.
Proof.
  intros Hbefore. induction Hbefore as [|x before (n & Hx & Hn) _ IH]; simpl.
  - by destruct (DedicatedHostName dhost).
  - rewrite Hx. simpl. by rewrite (proj2 (String.eqb_neq _ _) Hn).
Qed.

Lemma GetDedicatedHostByName_range_none name dhosts :
  Forall (fun x => exists n, DedicatedHostName x = Some n /\ n <> name) dhosts ->
  Client.GetDedicatedHostByName_range name dhosts =
    Done (None, Some (ErrorString "dedicated host %q not found" [name])).
Proof.
  intros Hall. induction Hall as [|x dhosts (n & Hx & Hn) _ IH]; simpl; [done|].
  rewrite Hx. simpl. by rewrite (proj2 (String.eqb_neq _ _) Hn).
Qed.

Lemma GetDedicatedHostByName_run c vpc ctx name region w vpcRegion response endpoint :
  Client.vpcAPI c = Some vpc ->
  onGetRegion vpc ctx (sdk.serviceURL (session w)) (NewGetRegionOptions region) =
    (Some vpcRegion, response, None) ->
  Endpoint vpcRegion = Some endpoint ->
  sdk.onSetServiceURL (firstHalf vpc) (endpoint +:+ "/v1") = None ->
  Client.GetDedicatedHostByName c ctx name region w =
    (match onListDedicatedHosts vpc ctx (endpoint +:+ "/v1") with
     | (_, _, Some msg) =>
         Done (None, Some (Wrap (SDKError msg) "failed to list dedicated hosts" []))
     | (Some dhosts, _, None) =>
         Client.GetDedicatedHostByName_range name (elems (DedicatedHosts dhosts))
     | (None, _, None) => Panic
     end,
     {| session := {| sdk.serviceURL := endpoint +:+ "/v1";
                      sdk.requests := sdk.requests (session w) |};
        calls := calls w ++
          [{| reqContext := ctx; reqURL := Some (sdk.serviceURL (session w));
              reqCall := CallGetRegion (NewGetRegionOptions region) |};
           {| reqContext := ctx; reqURL := Some (endpoint +:+ "/v1");
              reqCall := CallListDedicatedHosts |}] |}).
Proof.
  intros Hvpc Hregion Hendpoint Hurl.
  assert (Hset := setVPCServiceURLForRegion_run c vpc ctx region w Hvpc).
  simpl in Hset. rewrite Hregion, Hendpoint, Hurl in Hset.
  unfold Client.GetDedicatedHostByName. exec_simpl. rewrite Hset. simpl.
  rewrite Hvpc. simpl. unfold ListDedicatedHostsWithContext, send. exec_simpl.
  rewrite <- app_assoc. simpl.
  by destruct (onListDedicatedHosts _ _ _) as [[[dhosts|] answered] [msg|]].
Qed.

(** [GetDedicatedHostProfiles] and [GetDedicatedHostByName] first look
    the region up at the service URL in force and move the service URL to
    the region's endpoint; their listing is sent there, and the service
    URL stays there afterwards, so that [GetVSIProfiles], which does not
    set it, then lists at the region's endpoint too.  An error of the
    listing is returned as it is by [GetDedicatedHostProfiles] and under
    "failed to list dedicated hosts" by [GetDedicatedHostByName]. *)
Theorem dedicated_host_listings_go_to_the_region
    c vpc ctx region w vpcRegion response endpoint :
  Client.vpcAPI c = Some vpc ->
  onGetRegion vpc ctx (sdk.serviceURL (session w)) (NewGetRegionOptions region) =
    (Some vpcRegion, response, None) ->
  Endpoint vpcRegion = Some endpoint ->
  sdk.onSetServiceURL (firstHalf vpc) (endpoint +:+ "/v1") = None ->
  let there := endpoint +:+ "/v1" in
  let lookup := {| reqContext := ctx; reqURL := Some (sdk.serviceURL (session w));
                   reqCall := CallGetRegion (NewGetRegionOptions region) |} in
  let moved := {| sdk.serviceURL := there; sdk.requests := sdk.requests (session w) |} in
  Client.GetDedicatedHostProfiles c ctx region w =
    (match onListDedicatedHostProfiles vpc ctx there with
     | (_, _, Some msg) => Done (nil_slice, Some (SDKError msg))
     | (Some profiles, _, None) => Done (DedicatedHostProfiles profiles, None)
     | (None, _, None) => Panic
     end,
     {| session := moved;
        calls := calls w ++
          [lookup; {| reqContext := ctx; reqURL := Some there;
                      reqCall := CallListDedicatedHostProfiles |}] |}) /\
  (forall name,
     Client.GetDedicatedHostByName c ctx name region w =
       (match onListDedicatedHosts vpc ctx there with
        | (_, _, Some msg) =>
            Done (None, Some (Wrap (SDKError msg) "failed to list dedicated hosts" []))
        | (Some dhosts, _, None) =>
            Client.GetDedicatedHostByName_range name (elems (DedicatedHosts dhosts))
        | (None, _, None) => Panic
        end,
        {| session := moved;
           calls := calls w ++
             [lookup; {| reqContext := ctx; reqURL := Some there;
                         reqCall := CallListDedicatedHosts |}] |})) /\
  (forall ctx' w',
     session w' = moved ->
     Client.GetVSIProfiles c ctx' w' =
       (match onListInstanceProfiles vpc ctx' there with
        | (_, _, Some msg) =>
            Done (nil_slice, Some (Wrap (SDKError msg) "failed to list vpc vsi profiles" []))
        | (Some profiles, _, None) => Done (InstanceProfiles profiles, None)
        | (None, _, None) => Panic
        end,
        {| session := moved;
           calls := calls w' ++
             [{| reqContext := ctx'; reqURL := Some there;
                 reqCall := CallListInstanceProfiles |}] |})).
Proof.
  intros Hvpc Hregion Hendpoint Hurl there lookup moved.
  assert (Hset := setVPCServiceURLForRegion_run c vpc ctx region w Hvpc).
  simpl in Hset. rewrite Hregion, Hendpoint, Hurl in Hset.
  split; [|split].
  - unfold Client.GetDedicatedHostProfiles. exec_simpl. rewrite Hset. simpl.
    rewrite Hvpc. simpl. unfold ListDedicatedHostProfilesWithContext, send. exec_simpl.
    rewrite <- app_assoc. simpl. fold there.
    by destruct (onListDedicatedHostProfiles _ _ _) as [[[profiles|] answered] [msg|]].
  - intros name.
    apply (GetDedicatedHostByName_run c vpc ctx name region w vpcRegion response endpoint
             Hvpc Hregion Hendpoint Hurl).
  - intros ctx' w' Hw'. unfold Client.GetVSIProfiles. rewrite Hvpc.
    unfold ListInstanceProfilesWithContext, send. exec_simpl. rewrite Hw'. simpl.
    by destruct (onListInstanceProfiles _ _ _) as [[[profiles|] answered] [msg|]].
Qed.

(** When the region cannot be looked up, or the SDK refuses its endpoint
    as service URL, [GetDedicatedHostProfiles] and
    [GetDedicatedHostByName] return the SDK's error as it is, not
    wrapped; nothing is listed and the service URL is as it was.  A
    region that comes without an endpoint makes them panic. *)
Theorem no_listing_without_the_region c vpc ctx region name w :
  Client.vpcAPI c = Some vpc ->
  let lookup := {| reqContext := ctx; reqURL := Some (sdk.serviceURL (session w));
                   reqCall := CallGetRegion (NewGetRegionOptions region) |} in
  let asked := {| session := session w; calls := calls w ++ [lookup] |} in
  let answer := onGetRegion vpc ctx (sdk.serviceURL (session w)) (NewGetRegionOptions region) in
  (forall vpcRegion response msg,
     answer = (vpcRegion, response, Some msg) ->
     Client.GetDedicatedHostProfiles c ctx region w =
       (Done (nil_slice, Some (SDKError msg)), asked) /\
     Client.GetDedicatedHostByName c ctx name region w =
       (Done (None, Some (SDKError msg)), asked)) /\
  (forall vpcRegion response endpoint msg,
     answer = (Some vpcRegion, response, None) ->
     Endpoint vpcRegion = Some endpoint ->
     sdk.onSetServiceURL (firstHalf vpc) (endpoint +:+ "/v1") = Some msg ->
     Client.GetDedicatedHostProfiles c ctx region w =
       (Done (nil_slice, Some (SDKError msg)), asked) /\
     Client.GetDedicatedHostByName c ctx name region w =
       (Done (None, Some (SDKError msg)), asked)) /\
  (forall vpcRegion response,
     answer = (Some vpcRegion, response, None) ->
     Endpoint vpcRegion = None ->
     Client.GetDedicatedHostProfiles c ctx region w = (Panic, asked) /\
     Client.GetDedicatedHostByName c ctx name region w = (Panic, asked)).
Proof.
  intros Hvpc lookup asked answer.
  assert (Hset := setVPCServiceURLForRegion_run c vpc ctx region w Hvpc).
  simpl in Hset. fold answer in Hset.
  unfold Client.GetDedicatedHostProfiles, Client.GetDedicatedHostByName. exec_simpl.
  rewrite Hset. clear Hset.
  split; [|split].
  - intros vpcRegion response msg ->. by destruct vpcRegion.
  - intros vpcRegion response endpoint msg -> Hendpoint Hurl.
    by rewrite Hendpoint, Hurl.
  - intros vpcRegion response -> Hendpoint. by rewrite Hendpoint.
Qed.

(** [GetDedicatedHostByName] returns the first host, in the order of the
    listing, that has the name asked for.  When no host has it, the error
    carries the name.  The names are read one after the other up to that
    host: a host without a name before it makes the function panic, one
    after it does not matter. *)
Theorem GetDedicatedHostByName_first_host_of_the_name
    c vpc ctx name region w vpcRegion response endpoint dhosts answered :
  Client.vpcAPI c = Some vpc ->
  onGetRegion vpc ctx (sdk.serviceURL (session w)) (NewGetRegionOptions region) =
    (Some vpcRegion, response, None) ->
  Endpoint vpcRegion = Some endpoint ->
  sdk.onSetServiceURL (firstHalf vpc) (endpoint +:+ "/v1") = None ->
  onListDedicatedHosts vpc ctx (endpoint +:+ "/v1") = (Some dhosts, answered, None) ->
  let others :=
    Forall (fun x => exists n, DedicatedHostName x = Some n /\ n <> name) in
  (forall before dhost rest,
     elems (DedicatedHosts dhosts) = before ++ dhost :: rest ->
     others before ->
     DedicatedHostName dhost = Some name ->
     (Client.GetDedicatedHostByName c ctx name region w).1 = Done (Some dhost, None)) /\
  (others (elems (DedicatedHosts dhosts)) ->
   (Client.GetDedicatedHostByName c ctx name region w).1 =
     Done (None, Some (ErrorString "dedicated host %q not found" [name]))) /\
  (forall before dhost rest,
     elems (DedicatedHosts dhosts) = before ++ dhost :: rest ->
     others before ->
     DedicatedHostName dhost = None ->
     (Client.GetDedicatedHostByName c ctx name region w).1 = Panic).
Proof.
  intros Hvpc Hregion Hendpoint Hurl Hlist others.
  pose proof (GetDedicatedHostByName_run c vpc ctx name region w vpcRegion response
                endpoint Hvpc Hregion Hendpoint Hurl) as Hrun.
  split; [|split].
  - intros before dhost rest Hhosts Hbefore Hname.
    rewrite Hrun, Hlist. simpl. rewrite Hhosts.
    rewrite (GetDedicatedHostByName_range_first _ _ _ _ Hbefore), Hname.
    by rewrite String.eqb_refl.
  - intros Hnone. rewrite Hrun, Hlist. simpl.
    by rewrite (GetDedicatedHostByName_range_none _ _ Hnone).
  - intros before dhost rest Hhosts Hbefore Hname.
    rewrite Hrun, Hlist. simpl. rewrite Hhosts.
    by rewrite (GetDedicatedHostByName_range_first _ _ _ _ Hbefore), Hname.
Qed.

Lemma GetVPCZonesForRegion_range_named pre zones :
  Forall (fun zone => is_Some (VPCZoneName zone)) zones ->
  Client.GetVPCZonesForRegion_range (List.length pre) zones
    (Slice (pre ++ replicate (List.length zones) "")) =
  Done (Slice (pre ++ map (fun zone => default "" (VPCZoneName zone)) zones)).
Proof.
  intros Hn. revert pre.
  induction Hn as [|zone zones [name Hzone] _ IH]; intros pre; simpl; [done|].
  rewrite Hzone. simpl.
  replace (<[List.length pre:=name]> (pre ++ "" :: replicate (List.length zones) ""))
    with ((pre ++ [name]) ++ replicate (List.length zones) "").
  - replace (S (List.length pre)) with (List.length (pre ++ [name]))
      by (rewrite length_app; simpl; lia).
    rewrite IH. by rewrite <- app_assoc.
  - rewrite <- app_assoc. simpl.
    rewrite insert_app_r_alt by lia. by rewrite Nat.sub_diag.
Qed.

Lemma GetVPCZonesForRegion_range_nameless idx zones response :
  Exists (fun zone => VPCZoneName zone = None) zones ->
  Client.GetVPCZonesForRegion_range idx zones response = Panic.
Proof.
  intros Hex. revert idx response.
  induction Hex as [zone zones Hzone | zone zones _ IH]; intros idx response; simpl.
  - by rewrite Hzone.
  - destruct (VPCZoneName zone); simpl; [apply IH | done].
Qed.

(** [GetVPCZonesForRegion] asks once, at the service URL in force, which
    it does not move to the region, and under the caller's context: the
    context with the one-minute timeout is not used.  It returns the
    names of the zones in the order listed, in a slice that is not nil
    also when there is no zone, and the SDK's error as it is.  A zone
    without a name makes it panic. *)
Theorem GetVPCZonesForRegion_names_in_order c vpc ctx region w :
  Client.vpcAPI c = Some vpc ->
  let url := sdk.serviceURL (session w) in
  let options := NewListRegionZonesOptions region in
  let asked := {|
    session := session w;
    calls := calls w ++
      [{| reqContext := ctx; reqURL := Some url; reqCall := CallListRegionZones options |}] |} in
  (forall zones response,
     onListRegionZones vpc ctx url options = (Some zones, response, None) ->
     Forall (fun zone => is_Some (VPCZoneName zone)) (elems (Zones zones)) ->
     Client.GetVPCZonesForRegion c ctx region w =
       (Done (Slice (map (fun zone => default "" (VPCZoneName zone)) (elems (Zones zones))),
              None), asked)) /\
  (forall zones response msg,
     onListRegionZones vpc ctx url options = (zones, response, Some msg) ->
     Client.GetVPCZonesForRegion c ctx region w =
       (Done (nil_slice, Some (SDKError msg)), asked)) /\
  (forall zones response,
     onListRegionZones vpc ctx url options = (Some zones, response, None) ->
     Exists (fun zone => VPCZoneName zone = None) (elems (Zones zones)) ->
     Client.GetVPCZonesForRegion c ctx region w = (Panic, asked)) /\
  (forall r, last (calls asked) = Some r ->
     reqContext r = ctx /\ reqContext r <> WithTimeout ctx (1 * Minute)).
Proof.
  intros Hvpc url options asked.
  unfold Client.GetVPCZonesForRegion, ListRegionZonesWithContext, send.
  rewrite Hvpc. exec_simpl. fold url options.
  split; [|split; [|split]].
  - intros zones response Hanswer Hnamed. rewrite Hanswer. simpl.
    pose proof (GetVPCZonesForRegion_range_named [] _ Hnamed) as Hrange.
    simpl in Hrange. unfold make, len. by rewrite Hrange.
  - intros zones response msg Hanswer. by rewrite Hanswer.
  - intros zones response Hanswer Hnameless. rewrite Hanswer. simpl.
    by rewrite (GetVPCZonesForRegion_range_nameless _ _ _ Hnameless).
  - intros r. simpl. rewrite last_snoc. intros [= <-]. simpl.
    split; [done | apply WithTimeout_neq].
Qed.

End regions.

(** ** The API key and the resource groups *)

Section identity.
Import core iamidentityv1 resourcemanagerv2 sdk_more ibmclient_more.
Variable ibm : Library.
Implicit Types (c : Client.t) (ctx : Context) (w : World) (rg : ResourceGroup).

(** What [GetAuthenticatorAPIKeyDetails] does once the identity service
    is built: one request, for the key of the authenticator, under the
    context given. *)
Lemma GetAuthenticatorAPIKeyDetails_run c ctx w authenticator iam :
  Client.Authenticator c = Some authenticator ->
  onNewIamIdentityV1 ibm (Some authenticator) = (Some iam, None) ->
  let options := {| IamAPIKey := Some (ApiKey authenticator) |} in
  Client.GetAuthenticatorAPIKeyDetails ibm c ctx w =
    (match onGetAPIKeysDetails iam ctx options with
     | (_, _, Some msg) => Done (None, Some (SDKError msg))
     | (details, _, None) => Done (details, None)
     end,
     {| session := session w;
        calls := calls w ++
          [{| reqContext := ctx; reqURL := None; reqCall := CallGetAPIKeysDetails options |}] |}).
Proof.
  intros Hauth Hiam options.
  unfold Client.GetAuthenticatorAPIKeyDetails, NewIamIdentityV1,
    GetAPIKeysDetailsWithContext, record.
  rewrite Hauth, Hiam. exec_simpl. fold options.
  by destruct (onGetAPIKeysDetails _ _ _) as [[details response] [msg|]].
Qed.

(** [GetResourceGroups] asks for the details of the authenticator's API
    key and then for the resource groups of the account that the key
    belongs to, both under the caller's context.  Errors are returned as
    the SDK gave them; when the key's details cannot be had, no groups
    are asked for.  Details without an account ID make it panic. *)
Theorem GetResourceGroups_of_the_account_of_the_key c ctx w authenticator iam rm :
  Client.Authenticator c = Some authenticator ->
  onNewIamIdentityV1 ibm (Some authenticator) = (Some iam, None) ->
  Client.managementAPI c = Some rm ->
  let keyOptions := {| IamAPIKey := Some (ApiKey authenticator) |} in
  let keyRequest := {| reqContext := ctx; reqURL := None;
                       reqCall := CallGetAPIKeysDetails keyOptions |} in
  (forall details response accountID,
     onGetAPIKeysDetails iam ctx keyOptions = (Some details, response, None) ->
     AccountID details = Some accountID ->
     let options := {| ListAccountID := Some accountID |} in
     Client.GetResourceGroups ibm c ctx w =
       (match onListResourceGroups rm ctx options with
        | (_, _, Some msg) => Done (nil_slice, Some (SDKError msg))
        | (Some groups, _, None) => Done (Groups groups, None)
        | (None, _, None) => Panic
        end,
        {| session := session w;
           calls := calls w ++
             [keyRequest;
              {| reqContext := ctx; reqURL := None;
                 reqCall := CallListResourceGroups options |}] |})) /\
  (forall details response msg,
     onGetAPIKeysDetails iam ctx keyOptions = (details, response, Some msg) ->
     Client.GetResourceGroups ibm c ctx w =
       (Done (nil_slice, Some (SDKError msg)),
        {| session := session w; calls := calls w ++ [keyRequest] |})) /\
  (forall details response,
     onGetAPIKeysDetails iam ctx keyOptions = (details, response, None) ->
     details = None \/ (exists d, details = Some d /\ AccountID d = None) ->
     Client.GetResourceGroups ibm c ctx w =
       (Panic, {| session := session w; calls := calls w ++ [keyRequest] |})).
Proof.
  intros Hauth Hiam Hrm keyOptions keyRequest.
  assert (Hkey := GetAuthenticatorAPIKeyDetails_run c ctx w authenticator iam Hauth Hiam).
  simpl in Hkey. fold keyOptions keyRequest in Hkey.
  unfold Client.GetResourceGroups. exec_simpl. rewrite Hkey. clear Hkey.
  split; [|split].
  - intros details response accountID -> Haccount. simpl.
    rewrite Haccount, Hrm. simpl.
    unfold ListResourceGroupsWithContext, record, SetAccountID. exec_simpl.
    rewrite <- app_assoc. simpl.
    by destruct (onListResourceGroups _ _ _) as [[[groups|] answered] [msg|]].
  - by intros details response msg ->.
  - intros details response -> [->|(d & -> & Haccount)]; simpl; [done|].
    by rewrite Haccount.
Qed.

Lemma GetResourceGroup_range_first nameOrID before rg rest :
  Forall (fun x => exists id name,
            GroupID x = Some id /\ GroupName x = Some name /\
            id <> nameOrID /\ name <> nameOrID) before ->
  Client.GetResourceGroup_range nameOrID (before ++ rg :: rest) =
  Client.GetResourceGroup_range nameOrID (rg :: rest).
Proof.
  intros Hbefore.
  induction Hbefore as [|x before (id & name & Hid & Hname & Hi & Hn) _ IH]; simpl; [done|].
  rewrite Hid. simpl. rewrite (proj2 (String.eqb_neq _ _) Hi).
  rewrite Hname. simpl. by rewrite (proj2 (String.eqb_neq _ _) Hn).
Qed.

Lemma GetResourceGroup_range_none nameOrID groups :
  Forall (fun x => exists id name,
            GroupID x = Some id /\ GroupName x = Some name /\
            id <> nameOrID /\ name <> nameOrID) groups ->
  Client.GetResourceGroup_range nameOrID groups =
    Done (None, Some (ErrorString "resource group %q not found" [nameOrID])).
Proof.
  intros Hall.
  induction Hall as [|x groups (id & name & Hid & Hname & Hi & Hn) _ IH]; simpl; [done|].
  rewrite Hid. simpl. rewrite (proj2 (String.eqb_neq _ _) Hi).
  rewrite Hname. simpl. by rewrite (proj2 (String.eqb_neq _ _) Hn).
Qed.

(** [GetResourceGroup] returns the first group, in the order of
    [GetResourceGroups], whose ID or whose name is the string asked for:
    a group that carries the string as its name is returned before a
    later group that carries it as its ID.  The name of a group is read
    only when its ID is another string.  When no group matches, the error
    carries the string.  An error of [GetResourceGroups] is returned as
    it is. *)
Theorem GetResourceGroup_first_group_by_ID_or_name c ctx nameOrID w :
  let others :=
    Forall (fun x => exists id name,
              GroupID x = Some id /\ GroupName x = Some name /\
              id <> nameOrID /\ name <> nameOrID) in
  (forall groups w' before rg rest,
     Client.GetResourceGroups ibm c ctx w = (Done (groups, None), w') ->
     elems groups = before ++ rg :: rest ->
     others before ->
     (GroupID rg = Some nameOrID \/
      exists id, GroupID rg = Some id /\ GroupName rg = Some nameOrID) ->
     Client.GetResourceGroup ibm c ctx nameOrID w = (Done (Some rg, None), w')) /\
  (forall groups w',
     Client.GetResourceGroups ibm c ctx w = (Done (groups, None), w') ->
     others (elems groups) ->
     Client.GetResourceGroup ibm c ctx nameOrID w =
       (Done (None, Some (ErrorString "resource group %q not found" [nameOrID])), w')) /\
  (forall groups e w',
     Client.GetResourceGroups ibm c ctx w = (Done (groups, Some e), w') ->
     Client.GetResourceGroup ibm c ctx nameOrID w = (Done (None, Some e), w')).
Proof.
  intros others. split; [|split].
  - intros groups w' before rg rest Hgroups Helems Hbefore Hrg.
    unfold Client.GetResourceGroup. exec_simpl. rewrite Hgroups. simpl.
    rewrite Helems, (GetResourceGroup_range_first _ _ _ _ Hbefore). simpl.
    destruct Hrg as [Hid|(id & Hid & Hname)]; rewrite Hid; simpl.
    + by rewrite String.eqb_refl.
    + destruct (String.eqb id nameOrID); [done|].
      rewrite Hname. simpl. by rewrite String.eqb_refl.
  - intros groups w' Hgroups Hnone.
    unfold Client.GetResourceGroup. exec_simpl. rewrite Hgroups. simpl.
    by rewrite (GetResourceGroup_range_none _ _ Hnone).
  - intros groups e w' Hgroups.
    unfold Client.GetResourceGroup. exec_simpl. by rewrite Hgroups.
Qed.

(** [GetAccountID] does not pass its context on: over the client of this
    repository the request for the key's details goes out under
    [context.TODO], and the answer is the provider's answer under that
    context, whatever context the caller gave.  An error is wrapped under
    "Unable to retrieve IBM Cloud APIKeyDetails"; details without an
    account ID make the function panic. *)
Theorem GetAccountID_asks_under_TODO c ctx w authenticator iam :
  Client.Authenticator c = Some authenticator ->
  onNewIamIdentityV1 ibm (Some authenticator) = (Some iam, None) ->
  let options := {| IamAPIKey := Some (ApiKey authenticator) |} in
  GetAccountID (Some (ClientAPI ibm c)) ctx w =
    (match onGetAPIKeysDetails iam TODO options with
     | (_, _, Some msg) =>
         Done ("", Some (Wrap (SDKError msg) "Unable to retrieve IBM Cloud APIKeyDetails" []))
     | (Some details, _, None) =>
         match AccountID details with
         | Some accountID => Done (accountID, None)
         | None => Panic
         end
     | (None, _, None) => Panic
     end,
     {| session := session w;
        calls := calls w ++
          [{| reqContext := TODO; reqURL := None;
              reqCall := CallGetAPIKeysDetails options |}] |}).
Proof.
  intros Hauth Hiam options.
  assert (Hkey := GetAuthenticatorAPIKeyDetails_run c TODO w authenticator iam Hauth Hiam).
  simpl in Hkey. fold options in Hkey.
  unfold GetAccountID. exec_simpl. rewrite Hkey. clear Hkey.
  destruct (onGetAPIKeysDetails _ _ _) as [[[details|] response] [msg|]]; simpl; try done.
  by destruct (AccountID details).
Qed.

End identity.

(** ** Building the client *)

Section construction.
Import core corev1 iamidentityv1 sdk_more ibmclient_more.
Variable ibm : Library.
Variable IBMCloudAPIKeySecretKey : string.
Implicit Types (c : Client.t) (apiKey : string).

Lemma NewClient_authenticator apiKey c e :
  Client.NewClient ibm apiKey = (Some c, e) ->
  Client.Authenticator c = Some {| ApiKey := apiKey |}.
Proof.
  unfold Client.NewClient, Client.loadSDKServices, Client.loadSDKServices_range,
    Client.loadResourceManagementAPI, Client.loadResourceControllerAPI,
    Client.loadVPCV1API, NewResourceManagerV2, NewResourceControllerV2, NewVpcV1.
  simpl.
  destruct (onNewResourceManagerV2 _ _) as [m [em|]]; simpl; [done|].
  destruct (onNewResourceControllerV2 _ _) as [k [ek|]]; simpl; [done|].
  destruct (onNewVpcV1 _ _) as [v [ev|]]; simpl; [done|].
  by intros [= <- _].
Qed.

(** [NewClient] builds the three services in the order resource manager,
    resource controller, VPC, each with the authenticator of the API key.
    It returns a client exactly when none of the three constructors
    returns an error; the client then holds the key and the three
    services as constructed.  Otherwise it returns no client, and the
    error of the first constructor that failed, in that order, under
    "failed to load IBM SDK services". *)
Theorem NewClient_loads_the_services_in_order apiKey :
  let authenticator := Some {| ApiKey := apiKey |} in
  let management := onNewResourceManagerV2 ibm authenticator in
  let controller := onNewResourceControllerV2 ibm authenticator in
  let vpc := onNewVpcV1 ibm authenticator in
  let failed msg := Some (Wrap (SDKError msg) "failed to load IBM SDK services" []) in
  (management.2 = None -> controller.2 = None -> vpc.2 = None ->
   Client.NewClient ibm apiKey =
     (Some {| Client.managementAPI := management.1;
              Client.controllerAPI := controller.1;
              Client.vpcAPI := vpc.1;
              Client.Authenticator := authenticator |}, None)) /\
  (forall msg, management.2 = Some msg ->
     Client.NewClient ibm apiKey = (None, failed msg)) /\
  (forall msg, management.2 = None -> controller.2 = Some msg ->
     Client.NewClient ibm apiKey = (None, failed msg)) /\
  (forall msg, management.2 = None -> controller.2 = None -> vpc.2 = Some msg ->
     Client.NewClient ibm apiKey = (None, failed msg)) /\
  (forall c, Client.NewClient ibm apiKey = (Some c, None) ->
     management.2 = None /\ controller.2 = None /\ vpc.2 = None).
Proof.
  intros authenticator management controller vpc failed.
  unfold Client.NewClient, Client.loadSDKServices, Client.loadSDKServices_range,
    Client.loadResourceManagementAPI, Client.loadResourceControllerAPI,
    Client.loadVPCV1API, NewResourceManagerV2, NewResourceControllerV2, NewVpcV1.
  subst management controller vpc. simpl. fold authenticator.
  destruct (onNewResourceManagerV2 ibm authenticator) as [m [em|]]; simpl;
    [by repeat split; try done; intros; simplify_eq|].
  destruct (onNewResourceControllerV2 ibm authenticator) as [k [ek|]]; simpl;
    [by repeat split; try done; intros; simplify_eq|].
  destruct (onNewVpcV1 ibm authenticator) as [v [ev|]]; simpl;
    by repeat split; try done; intros; simplify_eq.
Qed.

(** [NewClientFromSecret] reads the API key from the secret's data under
    the key [IBMCloudAPIKeySecretKey].  Without that entry it returns no
    client and an error that names the key between double quotes.  With
    it, the bytes are taken as the API key as they are, also when there
    are none, and the result is that of [NewClient]: the authenticator of
    the client holds the bytes of the secret as its key.  A nil secret
    makes it panic. *)
Theorem NewClientFromSecret_reads_the_key_of_the_secret secret :
  (Data secret !! IBMCloudAPIKeySecretKey = None ->
   Client.NewClientFromSecret ibm IBMCloudAPIKeySecretKey (Some secret) =
     Done (None,
           Some (ErrorString
                   ("creds secret does not contain " +:+ quote +:+
                    IBMCloudAPIKeySecretKey +:+ quote +:+ " data") []))) /\
  (forall bytes,
     Data secret !! IBMCloudAPIKeySecretKey = Some bytes ->
     Client.NewClientFromSecret ibm IBMCloudAPIKeySecretKey (Some secret) =
       Done (Client.NewClient ibm (String.string_of_list_byte bytes)) /\
     forall c e,
       Client.NewClient ibm (String.string_of_list_byte bytes) = (Some c, e) ->
       Client.Authenticator c = Some {| ApiKey := String.string_of_list_byte bytes |}) /\
  Client.NewClientFromSecret ibm IBMCloudAPIKeySecretKey None = Panic.
Proof.
  split; [|split]; [| |done].
  - intros Hmissing. unfold Client.NewClientFromSecret. simpl. by rewrite Hmissing.
  - intros bytes Hkey. split.
    + unfold Client.NewClientFromSecret. simpl. by rewrite Hkey.
    + intros c e. apply NewClient_authenticator.
Qed.

(** The API key of the secret is the key that the client asks about: a
    client built from a secret sends, in [GetAuthenticatorAPIKeyDetails],
    the bytes stored under [IBMCloudAPIKeySecretKey] as the IAM API
    key. *)
Theorem the_key_of_the_secret_is_the_key_asked_about secret bytes c ctx w iam :
  Data secret !! IBMCloudAPIKeySecretKey = Some bytes ->
  Client.NewClientFromSecret ibm IBMCloudAPIKeySecretKey (Some secret) =
    Done (Some c, None) ->
  let apiKey := String.string_of_list_byte bytes in
  onNewIamIdentityV1 ibm (Some {| ApiKey := apiKey |}) = (Some iam, None) ->
  calls (Client.GetAuthenticatorAPIKeyDetails ibm c ctx w).2 =
    calls w ++
      [{| reqContext := ctx; reqURL := None;
          reqCall := CallGetAPIKeysDetails {| IamAPIKey := Some apiKey |} |}].
Proof.
  intros Hkey Hnew apiKey Hiam.
  unfold Client.NewClientFromSecret in Hnew. simpl in Hnew. rewrite Hkey in Hnew.
  injection Hnew as Hnew.
  pose proof (NewClient_authenticator _ _ _ Hnew) as Hauth. fold apiKey in Hauth.
  unfold Client.GetAuthenticatorAPIKeyDetails, NewIamIdentityV1,
    GetAPIKeysDetailsWithContext, record.
  rewrite Hauth, Hiam. exec_simpl.
  by destruct (onGetAPIKeysDetails _ _ _) as [[details response] [msg|]].
Qed.

(** [GetDNSRecordsByName] builds a DNS records service for the CRN and
    the zone given and asks it once, under the caller's context, for the
    records of the name given, which it returns as they come.  When the
    service cannot be built, the SDK's error is returned as it is and
    nothing is asked; an error of the listing is returned under "could
    not retrieve DNS records". *)
Theorem GetDNSRecordsByName_asks_the_zone_of_the_instance
    c ctx crnstr zoneID recordName (w : World) :
  let built := onNewDnsRecordsV1 ibm (Client.Authenticator c) (Some crnstr) (Some zoneID) in
  let options := {| dnsrecordsv1.ListName := Some recordName |} in
  (forall dnsService msg,
     built = (dnsService, Some msg) ->
     Client.GetDNSRecordsByName ibm c ctx crnstr zoneID recordName w =
       (Done (nil_slice, Some (SDKError msg)), w)) /\
  (forall dnsService,
     built = (Some dnsService, None) ->
     Client.GetDNSRecordsByName ibm c ctx crnstr zoneID recordName w =
       (match onListAllDnsRecords dnsService ctx options with
        | (_, _, Some msg) =>
            Done (nil_slice, Some (Wrap (SDKError msg) "could not retrieve DNS records" []))
        | (Some records, _, None) => Done (dnsrecordsv1.Records records, None)
        | (None, _, None) => Panic
        end,
        {| session := session w;
           calls := calls w ++
             [{| reqContext := ctx; reqURL := None;
                 reqCall := CallListAllDnsRecords (dnsCrn dnsService)
                              (dnsZoneIdentifier dnsService) options |}] |})).
Proof.
  intros built options. subst built.
  unfold Client.GetDNSRecordsByName, NewDnsRecordsV1, ListAllDnsRecordsWithContext, record.
  split.
  - by intros dnsService msg ->.
  - intros dnsService ->. exec_simpl. fold options.
    by destruct (onListAllDnsRecords _ _ _) as [[[records|] response] [msg|]].
Qed.

End construction.

(** ** The client of the actuator *)

Section actuator_client.
Import corev1 hivev1_more sdk_more ibmclient_more hibernation_more.
Variable ibm : Library.
Variable IBMCloudAPIKeySecretKey : string.
Implicit Types (cd : ClusterDeployment) (kube : KubeClient).

(** [getIBMCloudClient] panics exactly on the cluster deployments that
    [CanHandle] refuses, those without an IBM Cloud platform.  On the
    others it fetches the secret named by the platform's credentials
    reference in the namespace of the deployment, under [context.TODO].
    When the fetch fails, the error is wrapped under "failed to fetch IBM
    Cloud credentials secret" and no client is built; otherwise the result
    is that of [NewClientFromSecret] on what the fetch left in the secret,
    which is never nil. *)
Theorem getIBMCloudClient_fetches_the_secret cd kube :
  (panics (getIBMCloudClient ibm IBMCloudAPIKeySecretKey cd kube) = true <->
   CanHandle cd = false) /\
  (forall platform,
     IBMCloud cd = Some platform ->
     let key := {| KeyName := CredentialsSecretRefName platform;
                   KeyNamespace := Namespace cd |} in
     let fetched := onGet kube TODO key {| Data := ∅ |} in
     (forall e, fetched.2 = Some e ->
        getIBMCloudClient ibm IBMCloudAPIKeySecretKey cd kube =
          Done (None, Some (Wrap e "failed to fetch IBM Cloud credentials secret" []))) /\
     (fetched.2 = None ->
        getIBMCloudClient ibm IBMCloudAPIKeySecretKey cd kube =
          Client.NewClientFromSecret ibm IBMCloudAPIKeySecretKey (Some fetched.1) /\
        panics (getIBMCloudClient ibm IBMCloudAPIKeySecretKey cd kube) = false)).
Proof.
  unfold getIBMCloudClient, CanHandle. split.
  - destruct (IBMCloud cd) as [platform|]; simpl; [|done].
    destruct (onGet _ _ _ _) as [secret [e|]]; simpl; [done|].
    unfold Client.NewClientFromSecret. simpl.
    by destruct (Data secret !! IBMCloudAPIKeySecretKey).
  - intros platform Hplatform. rewrite Hplatform. simpl.
    destruct (onGet kube TODO _ _) as [secret [e|]]; simpl; split; try done.
    + by intros e' [= <-].
    + intros _. split; [done|]. unfold Client.NewClientFromSecret. simpl.
      by destruct (Data secret !! IBMCloudAPIKeySecretKey).
Qed.

End actuator_client.

(** ** What the remaining functions leave alone *)

Section session_left_alone.
Import core vpcv1 vpcv1_more iamidentityv1 resourcemanagerv2 sdk_more ibmclient_more.
Variable ibm : Library.
Implicit Types (c : Client.t) (ctx : Context) (w : World).

Lemma GetAuthenticatorAPIKeyDetails_session c ctx w :
  session (Client.GetAuthenticatorAPIKeyDetails ibm c ctx w).2 = session w.
Proof.
  unfold Client.GetAuthenticatorAPIKeyDetails, NewIamIdentityV1,
    GetAPIKeysDetailsWithContext, record.
  destruct (onNewIamIdentityV1 _ _) as [iam [msg|]]; simpl; [done|].
  exec_simpl.
  destruct (Client.Authenticator c) as [authenticator|]; simpl; [|done].
  destruct iam as [iam|]; simpl; [|done].
  by destruct (onGetAPIKeysDetails _ _ _) as [[details response] [msg|]].
Qed.

Lemma GetResourceGroups_session c ctx w :
  session (Client.GetResourceGroups ibm c ctx w).2 = session w.
Proof.
  unfold Client.GetResourceGroups. exec_simpl.
  pose proof (GetAuthenticatorAPIKeyDetails_session c ctx w) as Hkey.
  destruct (Client.GetAuthenticatorAPIKeyDetails ibm c ctx w) as [[[apikey [e|]]|] w1];
    simpl in *; try done.
  destruct apikey as [apikey|]; simpl; [|done].
  destruct (AccountID apikey) as [accountID|]; simpl; [|done].
  destruct (Client.managementAPI c) as [rm|]; simpl; [|done].
  unfold ListResourceGroupsWithContext, record. exec_simpl.
  by destruct (onListResourceGroups _ _ _) as [[[groups|] response] [msg|]].
Qed.

(** Among the remaining functions only those that look a region up,
    [GetDedicatedHostByName] and [GetDedicatedHostProfiles], move the
    service URL.  Whatever the provider answers, and also when they fail
    or panic, [GetVPCZonesForRegion], although it is given a region,
    [GetVSIProfiles], [GetAuthenticatorAPIKeyDetails],
    [GetResourceGroups], [GetResourceGroup] and [GetDNSRecordsByName]
    leave the session of the VPC service, its service URL included, as
    they found it. *)
Theorem the_VPC_session_is_left_alone c ctx w :
  (forall region, session (Client.GetVPCZonesForRegion c ctx region w).2 = session w) /\
  session (Client.GetVSIProfiles c ctx w).2 = session w /\
  session (Client.GetAuthenticatorAPIKeyDetails ibm c ctx w).2 = session w /\
  session (Client.GetResourceGroups ibm c ctx w).2 = session w /\
  (forall nameOrID, session (Client.GetResourceGroup ibm c ctx nameOrID w).2 = session w) /\
  (forall crnstr zoneID recordName,
     session (Client.GetDNSRecordsByName ibm c ctx crnstr zoneID recordName w).2 =
     session w).
Proof.
  split; [|split; [|split; [|split; [|split]]]].
  - intros region.
    unfold Client.GetVPCZonesForRegion, ListRegionZonesWithContext, send. exec_simpl.
    destruct (Client.vpcAPI c) as [vpc|]; simpl; [|done].
    destruct (onListRegionZones _ _ _ _) as [[[zones|] response] [msg|]]; simpl; try done.
    by destruct (Client.GetVPCZonesForRegion_range _ _ _).
  - unfold Client.GetVSIProfiles, ListInstanceProfilesWithContext, send. exec_simpl.
    destruct (Client.vpcAPI c) as [vpc|]; simpl; [|done].
    by destruct (onListInstanceProfiles _ _ _) as [[[profiles|] response] [msg|]].
  - apply GetAuthenticatorAPIKeyDetails_session.
  - apply GetResourceGroups_session.
  - intros nameOrID. unfold Client.GetResourceGroup. exec_simpl.
    pose proof (GetResourceGroups_session c ctx w) as Hgroups.
    by destruct (Client.GetResourceGroups ibm c ctx w) as [[[groups [e|]]|] w1].
  - intros crnstr zoneID recordName.
    unfold Client.GetDNSRecordsByName, NewDnsRecordsV1, ListAllDnsRecordsWithContext, record.
    destruct (onNewDnsRecordsV1 _ _ _ _) as [dns [msg|]]; simpl; [done|].
    exec_simpl. destruct dns as [dns|]; simpl; [|done].
    by destruct (onListAllDnsRecords _ _ _) as [[[records|] response] [msg|]].
Qed.

End session_left_alone.

(** * The further properties on concrete providers *)

(** In the account [regional] the VPC [vpc-1] is in the second region,
    [us-south]: after it is found there, and also after [vpc-0] is found
    nowhere, the client is left at the endpoint of [us-south]. *)
Lemma GetVPC_leaves_the_client_at_us_south :
  (exists s',
     ibmclient.Client.GetVPC scenarios.regional TODO "vpc-1" scenarios.fresh =
       (Done (Some {| vpcv1.VPCID := Some "vpc-1" |}, None), s') /\
     sdk.serviceURL s' = "https://us-south.example/v1") /\
  (exists s',
     ibmclient.Client.GetVPC scenarios.regional TODO "vpc-0" scenarios.fresh =
       (Done (None, Some VPCResourceNotFoundError), s') /\
     sdk.serviceURL s' = "https://us-south.example/v1").
Proof.
  split.
  - destruct (GetVPC_moves_the_service_URL scenarios.regional TODO "vpc-1"
                scenarios.fresh _ _ eq_refl) as [Hfound _].
    destruct (Hfound [ {| vpcv1.Endpoint := Some "https://eu-de.example" |} ]
                {| vpcv1.Endpoint := Some "https://us-south.example" |} []
                "https://us-south.example" _ _ eq_refl eq_refl eq_refl eq_refl eq_refl)
      as (s' & Hrun & Hurl & _).
    exists s'. by split.
  - destruct (GetVPC_moves_the_service_URL scenarios.regional TODO "vpc-0"
                scenarios.fresh _ _ eq_refl) as [_ Hnowhere].
    exact (Hnowhere {| vpcv1.Endpoint := Some "https://us-south.example" |}
             "https://us-south.example" eq_refl eq_refl eq_refl).
Defined.

(** The three ways in which [GetVPC] does not get to search: the regions
    cannot be listed, the SDK refuses the endpoint of the first region,
    the first region has no endpoint. *)
Lemma GetVPC_without_a_search :
  let failed := (None, scenarios.unavailable, Some "service unavailable") in
  let one endpoint :=
    (Some {| vpcv1.Regions := Slice [ {| vpcv1.Endpoint := endpoint |} ] |},
     scenarios.ok, None) in
  (ibmclient.Client.GetVPC (examples.regions failed false) Background "vpc-1"
     scenarios.fresh).1 =
    Done (None, Some (Wrap (SDKError "service unavailable") "failed to list vpc regions" [])) /\
  (exists s',
     ibmclient.Client.GetVPC (examples.regions (one (Some "https://eu-de.example")) true)
       Background "vpc-1" scenarios.fresh =
     (Done (None, Some (Wrap (SDKError "invalid service URL")
                          "failed to set vpc api service url" [])), s')) /\
  panics (ibmclient.Client.GetVPC (examples.regions (one None) false)
            Background "vpc-1" scenarios.fresh).1 = true.
Proof.
  intros failed one. split; [|split].
  - destruct (GetVPC_cannot_search (examples.regions failed false) Background "vpc-1"
                scenarios.fresh) as (Hlisting & _ & _).
    by rewrite (Hlisting _ _ _ eq_refl).
  - destruct (GetVPC_cannot_search
                (examples.regions (one (Some "https://eu-de.example")) true)
                Background "vpc-1" scenarios.fresh) as (_ & Hrefused & _).
    exact (Hrefused _ _ [] _ [] "https://eu-de.example" _
             eq_refl eq_refl eq_refl eq_refl eq_refl).
  - destruct (GetVPC_cannot_search (examples.regions (one None) false)
                Background "vpc-1" scenarios.fresh) as (_ & _ & Hnil).
    exact (Hnil _ _ [] _ [] eq_refl eq_refl eq_refl eq_refl).
Defined.

(** The account of the scenarios has one CIS instance with an active and
    a pending zone: the active one is what [GetDNSZones] returns, after
    two requests. *)
Lemma GetDNSZones_of_the_scenarios :
  exists s',
    ibmclient.Client.GetDNSZones (scenarios.account [] []) TODO scenarios.fresh =
      (Done (Slice [examples.exampleZone], None), s') /\
    List.length (sdk.requests s') = 2%nat.
Proof.
  destruct (GetDNSZones_collects_the_active_zones (scenarios.account [] []) TODO
              scenarios.fresh _ _ eq_refl) as (s' & Hrun & _ & Hlen).
  - repeat constructor; try by eexists.
    eexists. split; [reflexivity|]. repeat constructor; by eexists.
  - exists s'. by split.
Defined.

(** In the account [silentAccount] the zones service of the second CIS
    instance answers without a response and without an error:
    [GetDNSZones] returns neither a zone nor an error, although the first
    instance has an active zone, and the third instance is not asked
    about. *)
Lemma GetDNSZones_silent_instance :
  exists s',
    ibmclient.Client.GetDNSZones examples.silentAccount TODO scenarios.fresh =
      (Done (nil_slice, None), s') /\
    List.length (sdk.requests s') = 3%nat.
Proof.
  destruct (GetDNSZones_gives_up_at_the_first_failure examples.silentAccount TODO
              scenarios.fresh _ _ [scenarios.cisInstance] examples.silentInstance
              [scenarios.cisInstance] eq_refl eq_refl) as [_ Hsilent].
  - repeat constructor; try by eexists.
    eexists. split; [reflexivity|]. repeat constructor; by eexists.
  - exact (Hsilent _ _ None eq_refl eq_refl).
Defined.

(** The three instances of scenario E are stopped, and started, with one
    request each, in their order. *)
Lemma instance_actions_scenarioE :
  let c := scenarios.account scenarios.scenarioE [] in
  ibmclient.Client.StopInstances c (Slice scenarios.scenarioE) scenarios.fresh =
    (Done None,
     {| sdk.serviceURL := sdk.serviceURL scenarios.fresh;
        sdk.requests := [scenarios.actionRequest "stop" "c1-a";
                         scenarios.actionRequest "stop" "c1-b";
                         scenarios.actionRequest "stop" "c1-c"] |}) /\
  ibmclient.Client.StartInstances c (Slice scenarios.scenarioE) scenarios.fresh =
    (Done None,
     {| sdk.serviceURL := sdk.serviceURL scenarios.fresh;
        sdk.requests := [scenarios.actionRequest "start" "c1-a";
                         scenarios.actionRequest "start" "c1-b";
                         scenarios.actionRequest "start" "c1-c"] |}).
Proof.
  intros c.
  destruct (instance_actions_ask_once_per_instance c (Slice scenarios.scenarioE)
              ["id-c1-a"; "id-c1-b"; "id-c1-c"] scenarios.fresh) as [Hstop Hstart].
  - by repeat constructor.
  - split; [apply Hstop | apply Hstart]; by repeat constructor.
Defined.

(** The start action fails on the second of three instances.  When that
    instance has a name, the error carries it; when the provider listed
    it without a name, [StartInstances] panics.  Either way the third
    instance is not asked for. *)
Lemma StartInstances_fails_on_the_second :
  let first := scenarios.instance "c1-a" "stopped" in
  let third := scenarios.instance "c1-c" "stopped" in
  let asked id :=
    {| sdk.serviceURL := sdk.serviceURL scenarios.fresh;
       sdk.requests :=
         [scenarios.actionRequest "start" "c1-a";
          ibmclient.action_request (sdk.serviceURL scenarios.fresh) "start" id] |} in
  ibmclient.Client.StartInstances
    (scenarios.account [] ["id-c1-b"])
    (Slice [first; scenarios.instance "c1-b" "stopped"; third]) scenarios.fresh =
    (Done (Some (Wrap (SDKError "service unavailable")
                   "failed to create start instance action for instance %q" ["c1-b"])),
     asked "id-c1-b") /\
  ibmclient.Client.StartInstances
    (scenarios.account [] ["id-x"])
    (Slice [first; examples.nameless; third]) scenarios.fresh =
    (Panic, asked "id-x").
Proof.
  intros first third asked. split.
  - destruct (StartInstances_stops_at_first_failure (scenarios.account [] ["id-c1-b"])
                [first] ["id-c1-a"] (scenarios.instance "c1-b" "stopped") "id-c1-b"
                "service unavailable" [third] scenarios.fresh) as [Hnamed _];
      [by repeat constructor | done | done |].
    exact (Hnamed "c1-b" eq_refl).
  - destruct (StartInstances_stops_at_first_failure (scenarios.account [] ["id-x"])
                [first] ["id-c1-a"] examples.nameless "id-x"
                "service unavailable" [third] scenarios.fresh) as [_ Hnameless];
      [by repeat constructor | done | done |].
    exact (Hnameless eq_refl).
Defined.

(** The general form of scenario E for [StopInstances]: the stop action
    fails on the second of three instances. *)
Lemma StopInstances_fails_on_the_second :
  ibmclient.Client.StopInstances
    (scenarios.account scenarios.scenarioE ["id-c1-b"])
    (Slice scenarios.scenarioE) scenarios.fresh =
    (Done (Some (Wrap (SDKError "service unavailable")
                   "failed to create stop instance action" [])),
     {| sdk.serviceURL := sdk.serviceURL scenarios.fresh;
        sdk.requests := [scenarios.actionRequest "stop" "c1-a";
                         scenarios.actionRequest "stop" "c1-b"] |}).
Proof.
  apply (StopInstances_stops_at_first_failure
           (scenarios.account scenarios.scenarioE ["id-c1-b"])
           [scenarios.instance "c1-a" "running"] ["id-c1-a"]
           (scenarios.instance "c1-b" "running") "id-c1-b" "service unavailable"
           [scenarios.instance "c1-c" "running"] scenarios.fresh);
    [by repeat constructor | done | done].
Defined.

(** With the empty infrastructure ID every instance of the VPC named
    [-vpc] is returned; with an ID that no name contains, the nil slice;
    a nameless instance in the listing makes [GetVPCInstances] panic also
    for another cluster. *)
Lemma GetVPCInstances_at_the_edges :
  let a := scenarios.instance "c1-a" "running" in
  let b := scenarios.instance "c2-b" "stopped" in
  (exists instances,
     (ibmclient.Client.GetVPCInstances (scenarios.account [a; b] []) TODO ""
        scenarios.fresh).1 = Done (instances, None) /\
     elems instances = [a; b]) /\
  (ibmclient.Client.GetVPCInstances (scenarios.account [a; b] []) TODO "c3"
     scenarios.fresh).1 = Done (nil_slice, None) /\
  (ibmclient.Client.GetVPCInstances (scenarios.account [a; examples.nameless] []) TODO "c1"
     scenarios.fresh).1 = Panic.
Proof.
  intros a b. split; [|split].
  - destruct (GetVPCInstances_edges (scenarios.account [a; b] []) TODO scenarios.fresh)
      as (Hempty & _).
    apply (Hempty _ _ eq_refl). repeat constructor; by eexists.
  - destruct (GetVPCInstances_edges (scenarios.account [a; b] []) TODO scenarios.fresh)
      as (_ & Hnone & _).
    apply (Hnone "c3" _ _ eq_refl); repeat constructor; by eexists.
  - destruct (GetVPCInstances_edges (scenarios.account [a; examples.nameless] []) TODO
                scenarios.fresh) as (_ & _ & Hnameless & _).
    apply (Hnameless "c1" _ _ eq_refl). right. by left.
Defined.

(** The listing fails on the test double: the four operations return its
    error after that one call. *)
Lemma actuator_listing_fails :
  let e := ErrorString "boom" [] in
  let api := scenarios.mockAPI (nil_slice, Some e) None None in
  let a := scenarios.mockActuator api in
  hibernation.StopMachines a scenarios.cluster tt [] = (Done (Some e), scenarios.listing) /\
  hibernation.StartMachines a scenarios.cluster tt [] = (Done (Some e), scenarios.listing) /\
  hibernation.MachinesRunning a scenarios.cluster tt [] =
    (Done (false, nil_slice, Some e), scenarios.listing) /\
  hibernation.MachinesStopped a scenarios.cluster tt [] =
    (Done (false, nil_slice, Some e), scenarios.listing).
Proof.
  intros e api a.
  destruct (actuator_hands_errors_on a scenarios.cluster tt []) as (_ & Hlisting & _).
  exact (Hlisting api nil_slice e scenarios.listing eq_refl eq_refl).
Defined.

(** The zone [example.com] of the account of the scenarios has the ID
    [z1] and belongs to the CIS instance [crn:cis]; there is no zone
    [example.net]. *)
Lemma lookups_in_the_scenarios :
  let c := scenarios.account [] [] in
  (ibmclient_more.GetDNSZoneIDByName c TODO "example.com" scenarios.fresh).1 =
    Done ("z1", None) /\
  (ibmclient_more.GetDNSZoneIDByName c TODO "example.net" scenarios.fresh).1 =
    Done ("", Some (ErrorString "DNS zone %q not found" ["example.net"])).
Proof.
  intros c.
  destruct (GetDNSZoneIDByName_first_zone_of_the_name c TODO "example.com" scenarios.fresh)
    as (Hfirst & _ & _).
  destruct (GetDNSZoneIDByName_first_zone_of_the_name c TODO "example.net" scenarios.fresh)
    as (_ & Hnone & _).
  split.
  - by rewrite (Hfirst (Slice [examples.exampleZone]) _ [] examples.exampleZone []
                  eq_refl eq_refl (List.Forall_nil _) eq_refl).
  - rewrite (Hnone (Slice [examples.exampleZone]) _ eq_refl); [done|].
    by repeat constructor.
Defined.

(** Over the client of the scenarios the base domain [example.com] gives
    [crn:cis].  When a zone of that name without a CRN comes before the
    zone of [crn:cis], the function says that no zone was found. *)
Lemma GetCISInstanceCRN_in_the_scenarios :
  let api := ibmclient.ClientAPI (scenarios.account [] []) in
  let orphaned :=
    examples.zonesAPI (Slice [examples.orphanZone; examples.exampleZone], None) in
  let none_found domain :=
    ErrorString "Could not determine CISInstanceCRN, no DNS zone found for base domain %s"
      [domain] in
  (ibmclient_more.GetCISInstanceCRN (Some api) TODO "example.com" scenarios.fresh).1 =
    Done ("crn:cis", None) /\
  (ibmclient_more.GetCISInstanceCRN (Some api) TODO "example.net" scenarios.fresh).1 =
    Done ("", Some (none_found "example.net")) /\
  (ibmclient_more.GetCISInstanceCRN (Some orphaned) TODO "example.com" []).1 =
    Done ("", Some (none_found "example.com")).
Proof.
  intros api orphaned none_found.
  destruct (GetCISInstanceCRN_first_zone_of_the_base_domain api TODO "example.com"
              scenarios.fresh) as (Hfirst & _ & _).
  destruct (GetCISInstanceCRN_first_zone_of_the_base_domain api TODO "example.net"
              scenarios.fresh) as (_ & Hnone & _).
  destruct (GetCISInstanceCRN_first_zone_of_the_base_domain orphaned TODO "example.com" [])
    as (Horphan & _ & _).
  split; [|split].
  - destruct (Hfirst (Slice [examples.exampleZone]) _ [] examples.exampleZone []
                eq_refl eq_refl (List.Forall_nil _) eq_refl) as [Hcrn _].
    by rewrite Hcrn.
  - rewrite (Hnone (Slice [examples.exampleZone]) _ eq_refl); [done|].
    by repeat constructor.
  - destruct (Horphan _ _ [] examples.orphanZone [examples.exampleZone]
                eq_refl eq_refl (List.Forall_nil _) eq_refl) as [_ Hempty].
    by rewrite (Hempty eq_refl).
Defined.

(** The name [example.com] gives the ID [z1] and, as base domain, the CRN
    of the same zone. *)
Lemma lookups_agree_in_the_scenarios :
  exists s',
    ibmclient_more.GetCISInstanceCRN
      (Some (ibmclient.ClientAPI (scenarios.account [] []))) TODO "example.com"
      scenarios.fresh = (Done ("crn:cis", None), s').
Proof.
  destruct (lookups_by_name_agree (scenarios.account [] []) TODO "example.com"
              scenarios.fresh "z1" _ eq_refl)
    as (zones & z & Hzones & Hin & Hname & Hid & Hcrn).
  assert (Hz : zones = Slice [examples.exampleZone])
    by (apply (f_equal fst) in Hzones; by injection Hzones as <-).
  subst zones. destruct Hin as [<-|[]].
  eexists. exact Hcrn.
Defined.

(** With the VPC service of the examples: the profiles of dedicated
    hosts for [eu-de] are listed at the endpoint of [eu-de], after the
    region was looked up at the URL in force before. *)
Lemma GetDedicatedHostProfiles_in_eu_de :
  ibmclient_more.Client.GetDedicatedHostProfiles examples.client Background "eu-de"
    examples.world =
    (Done (Slice [ {| vpcv1_more.DedicatedHostProfileName := Some "bx2d-host-152x608" |} ],
           None),
     {| sdk_more.session :=
          {| sdk.serviceURL := "https://eu-de.example/v1"; sdk.requests := [] |};
        sdk_more.calls :=
          [ {| sdk_more.reqContext := Background;
               sdk_more.reqURL := Some "https://us-south.iaas.cloud.ibm.com/v1";
               sdk_more.reqCall :=
                 sdk_more.CallGetRegion (vpcv1_more.NewGetRegionOptions "eu-de") |};
            {| sdk_more.reqContext := Background;
               sdk_more.reqURL := Some "https://eu-de.example/v1";
               sdk_more.reqCall := sdk_more.CallListDedicatedHostProfiles |} ] |}).
Proof.
  destruct (dedicated_host_listings_go_to_the_region examples.client examples.vpc
              Background "eu-de" examples.world _ _ "https://eu-de.example"
              eq_refl eq_refl eq_refl eq_refl) as (Hprofiles & _ & _).
  exact Hprofiles.
Defined.

(** The region [mars] is not known: nothing is listed. *)
Lemma no_listing_on_mars :
  ibmclient_more.Client.GetDedicatedHostByName examples.client Background "h1" "mars"
    examples.world =
    (Done (None, Some (SDKError "region not found")),
     {| sdk_more.session := scenarios.fresh;
        sdk_more.calls :=
          [ {| sdk_more.reqContext := Background;
               sdk_more.reqURL := Some "https://us-south.iaas.cloud.ibm.com/v1";
               sdk_more.reqCall :=
                 sdk_more.CallGetRegion (vpcv1_more.NewGetRegionOptions "mars") |} ] |}).
Proof.
  destruct (no_listing_without_the_region examples.client examples.vpc Background
              "mars" "h1" examples.world eq_refl) as (Hunknown & _ & _).
  destruct (Hunknown _ _ _ eq_refl) as [_ Hhost]. exact Hhost.
Defined.

(** Of the hosts [h1], [h2] and a nameless one, listed in that order,
    [h2] is found; the search for a host [h9] panics at the nameless
    one. *)
Lemma GetDedicatedHostByName_in_eu_de :
  (ibmclient_more.Client.GetDedicatedHostByName examples.client Background "h2" "eu-de"
     examples.world).1 = Done (Some (examples.dhost "h2"), None) /\
  (ibmclient_more.Client.GetDedicatedHostByName examples.client Background "h9" "eu-de"
     examples.world).1 = Panic.
Proof.
  split.
  - destruct (GetDedicatedHostByName_first_host_of_the_name examples.client examples.vpc
                Background "h2" "eu-de" examples.world _ _ "https://eu-de.example" _ _
                eq_refl eq_refl eq_refl eq_refl eq_refl) as (Hfirst & _ & _).
    apply (Hfirst [examples.dhost "h1"] (examples.dhost "h2")
             [ {| vpcv1_more.DedicatedHostID := Some "id-h3";
                  vpcv1_more.DedicatedHostName := None |} ]); [done| |done].
    repeat constructor. by exists "h1".
  - destruct (GetDedicatedHostByName_first_host_of_the_name examples.client examples.vpc
                Background "h9" "eu-de" examples.world _ _ "https://eu-de.example" _ _
                eq_refl eq_refl eq_refl eq_refl eq_refl) as (_ & _ & Hnameless).
    apply (Hnameless [examples.dhost "h1"; examples.dhost "h2"]
             {| vpcv1_more.DedicatedHostID := Some "id-h3";
                vpcv1_more.DedicatedHostName := None |} []); [done| |done].
    repeat constructor; [by exists "h1" | by exists "h2"].
Defined.

(** The zones of [eu-de], asked for at the service URL in force, which is
    not that of [eu-de]. *)
Lemma GetVPCZonesForRegion_in_eu_de :
  ibmclient_more.Client.GetVPCZonesForRegion examples.client Background "eu-de"
    examples.world =
    (Done (Slice ["eu-de-1"; "eu-de-2"], None),
     {| sdk_more.session := scenarios.fresh;
        sdk_more.calls :=
          [ {| sdk_more.reqContext := Background;
               sdk_more.reqURL := Some "https://us-south.iaas.cloud.ibm.com/v1";
               sdk_more.reqCall :=
                 sdk_more.CallListRegionZones
                   (vpcv1_more.NewListRegionZonesOptions "eu-de") |} ] |}).
Proof.
  destruct (GetVPCZonesForRegion_names_in_order examples.client examples.vpc Background
              "eu-de" examples.world eq_refl) as (Hnames & _).
  apply (Hnames _ _ eq_refl). repeat constructor; by eexists.
Defined.

(** The resource groups of [account-1], the account of the key, after two
    requests under the caller's context. *)
Lemma GetResourceGroups_of_account_1 :
  ibmclient_more.Client.GetResourceGroups examples.ibm examples.client Background
    examples.world =
    (Done (Slice [examples.group "rg-1" "default"; examples.group "rg-2" "rg-3";
                  examples.group "rg-3" "prod"], None),
     {| sdk_more.session := scenarios.fresh;
        sdk_more.calls :=
          [ {| sdk_more.reqContext := Background; sdk_more.reqURL := None;
               sdk_more.reqCall :=
                 sdk_more.CallGetAPIKeysDetails {| iamidentityv1.IamAPIKey := Some "key" |} |};
            {| sdk_more.reqContext := Background; sdk_more.reqURL := None;
               sdk_more.reqCall :=
                 sdk_more.CallListResourceGroups
                   {| resourcemanagerv2.ListAccountID := Some "account-1" |} |} ] |}).
Proof.
  destruct (GetResourceGroups_of_the_account_of_the_key examples.ibm examples.client
              Background examples.world examples.authenticator examples.iam examples.rm
              eq_refl eq_refl eq_refl) as (Hgroups & _ & _).
  exact (Hgroups _ _ "account-1" eq_refl eq_refl).
Defined.

(** Looked up by [rg-3], the group that is returned is the second one,
    whose name is [rg-3], not the third one, whose ID is [rg-3]. *)
Lemma GetResourceGroup_by_name_before_ID :
  (ibmclient_more.Client.GetResourceGroup examples.ibm examples.client Background "rg-3"
     examples.world).1 = Done (Some (examples.group "rg-2" "rg-3"), None) /\
  (ibmclient_more.Client.GetResourceGroup examples.ibm examples.client Background "rg-4"
     examples.world).1 =
    Done (None, Some (ErrorString "resource group %q not found" ["rg-4"])).
Proof.
  split.
  - destruct (GetResourceGroup_first_group_by_ID_or_name examples.ibm examples.client
                Background "rg-3" examples.world) as (Hfirst & _ & _).
    rewrite (Hfirst _ _ [examples.group "rg-1" "default"] (examples.group "rg-2" "rg-3")
               [examples.group "rg-3" "prod"] eq_refl eq_refl);
      [done | | right; by exists "rg-2"].
    repeat constructor. by exists "rg-1", "default".
  - destruct (GetResourceGroup_first_group_by_ID_or_name examples.ibm examples.client
                Background "rg-4" examples.world) as (_ & Hnone & _).
    rewrite (Hnone _ _ eq_refl); [done|].
    repeat constructor;
      [by exists "rg-1", "default" | by exists "rg-2", "rg-3" | by exists "rg-3", "prod"].
Defined.

(** The caller's context is [Background]; the request goes out under
    [TODO]. *)
Lemma GetAccountID_of_the_examples :
  ibmclient_more.GetAccountID
    (Some (ibmclient_more.ClientAPI examples.ibm examples.client)) Background
    examples.world =
    (Done ("account-1", None),
     {| sdk_more.session := scenarios.fresh;
        sdk_more.calls :=
          [ {| sdk_more.reqContext := TODO; sdk_more.reqURL := None;
               sdk_more.reqCall :=
                 sdk_more.CallGetAPIKeysDetails
                   {| iamidentityv1.IamAPIKey := Some "key" |} |} ] |}).
Proof.
  exact (GetAccountID_asks_under_TODO examples.ibm examples.client Background
           examples.world examples.authenticator examples.iam eq_refl eq_refl).
Defined.

(** The SDK of the examples builds the three services for the key [key]
    and refuses the empty key at the first constructor. *)
Lemma NewClient_of_the_examples :
  ibmclient_more.Client.NewClient examples.ibm "key" = (Some examples.client, None) /\
  ibmclient_more.Client.NewClient examples.ibm "" =
    (None, Some (Wrap (SDKError "the ApiKey property is required")
                   "failed to load IBM SDK services" [])).
Proof.
  split.
  - destruct (NewClient_loads_the_services_in_order examples.ibm "key") as (Hloaded & _).
    exact (Hloaded eq_refl eq_refl eq_refl).
  - destruct (NewClient_loads_the_services_in_order examples.ibm "") as (_ & Hfirst & _).
    exact (Hfirst _ eq_refl).
Defined.

(** The secret of the examples holds the key [key]; a secret without
    data gives the error that names the key. *)
Lemma NewClientFromSecret_of_the_examples :
  ibmclient_more.Client.NewClientFromSecret examples.ibm examples.secretKey
    (Some examples.secret) = Done (Some examples.client, None) /\
  ibmclient_more.Client.NewClientFromSecret examples.ibm examples.secretKey
    (Some {| corev1.Data := ∅ |}) =
    Done (None,
          Some (ErrorString
                  ("creds secret does not contain " +:+ ibmclient_more.quote +:+
                   "ibmcloud_api_key" +:+ ibmclient_more.quote +:+ " data") [])).
Proof.
  split.
  - destruct (NewClientFromSecret_reads_the_key_of_the_secret examples.ibm
                examples.secretKey examples.secret) as (_ & Hkey & _).
    destruct (Hkey (String.list_byte_of_string "key") eq_refl) as [Hrun _].
    rewrite Hrun. reflexivity.
  - destruct (NewClientFromSecret_reads_the_key_of_the_secret examples.ibm
                examples.secretKey {| corev1.Data := ∅ |}) as (Hmissing & _).
    exact (Hmissing eq_refl).
Defined.

(** The client built from the secret of the examples asks about the key
    [key]. *)
Lemma the_key_of_the_examples_is_asked_about :
  sdk_more.calls
    (ibmclient_more.Client.GetAuthenticatorAPIKeyDetails examples.ibm examples.client
       Background examples.world).2 =
    [ {| sdk_more.reqContext := Background; sdk_more.reqURL := None;
         sdk_more.reqCall :=
           sdk_more.CallGetAPIKeysDetails {| iamidentityv1.IamAPIKey := Some "key" |} |} ].
Proof.
  exact (the_key_of_the_secret_is_the_key_asked_about examples.ibm examples.secretKey
           examples.secret (String.list_byte_of_string "key") examples.client Background
           examples.world examples.iam eq_refl eq_refl eq_refl).
Defined.

(** The deployment of the examples names the secret [creds] in [ns-1],
    which the cluster has; a deployment in another namespace gets the
    cluster's error, wrapped; one without an IBM Cloud platform makes
    [getIBMCloudClient] panic. *)
Lemma getIBMCloudClient_of_the_examples :
  hibernation_more.getIBMCloudClient examples.ibm examples.secretKey
    examples.deployment examples.kube = Done (Some examples.client, None) /\
  hibernation_more.getIBMCloudClient examples.ibm examples.secretKey
    {| hivev1_more.Namespace := "ns-2";
       hivev1_more.IBMCloud := Some {| hivev1_more.CredentialsSecretRefName := "creds" |} |}
    examples.kube =
    Done (None, Some (Wrap (ErrorString "secrets %q not found" ["creds"])
                        "failed to fetch IBM Cloud credentials secret" [])) /\
  panics (hibernation_more.getIBMCloudClient examples.ibm examples.secretKey
            {| hivev1_more.Namespace := "ns-1"; hivev1_more.IBMCloud := None |}
            examples.kube) = true.
Proof.
  split; [|split].
  - destruct (getIBMCloudClient_fetches_the_secret examples.ibm examples.secretKey
                examples.deployment examples.kube) as [_ Hfetch].
    destruct (Hfetch _ eq_refl) as [_ Hfetched].
    destruct (Hfetched eq_refl) as [Hrun _]. rewrite Hrun. reflexivity.
  - destruct (getIBMCloudClient_fetches_the_secret examples.ibm examples.secretKey
                {| hivev1_more.Namespace := "ns-2";
                   hivev1_more.IBMCloud :=
                     Some {| hivev1_more.CredentialsSecretRefName := "creds" |} |}
                examples.kube) as [_ Hfetch].
    destruct (Hfetch _ eq_refl) as [Hfailed _].
    exact (Hfailed _ eq_refl).
  - destruct (getIBMCloudClient_fetches_the_secret examples.ibm examples.secretKey
                {| hivev1_more.Namespace := "ns-1"; hivev1_more.IBMCloud := None |}
                examples.kube) as [Hpanics _].
    by apply Hpanics.
Defined.

(** The records of [www.example.com] in the zone [z1] of [crn:cis]. *)
Lemma GetDNSRecordsByName_of_the_examples :
  ibmclient_more.Client.GetDNSRecordsByName examples.ibm examples.client Background
    "crn:cis" "z1" "www.example.com" examples.world =
    (Done (Slice [ {| dnsrecordsv1.RecordID := Some "r1";
                      dnsrecordsv1.RecordName := Some "www.example.com";
                      dnsrecordsv1.RecordContent := Some "192.0.2.1" |} ], None),
     {| sdk_more.session := scenarios.fresh;
        sdk_more.calls :=
          [ {| sdk_more.reqContext := Background; sdk_more.reqURL := None;
               sdk_more.reqCall :=
                 sdk_more.CallListAllDnsRecords (Some "crn:cis") (Some "z1")
                   {| dnsrecordsv1.ListName := Some "www.example.com" |} |} ] |}).
Proof.
  destruct (GetDNSRecordsByName_asks_the_zone_of_the_instance examples.ibm examples.client
              Background "crn:cis" "z1" "www.example.com" examples.world) as [_ Hbuilt].
  exact (Hbuilt _ eq_refl).
Defined.

(** Scenario A over the client of this repository: after the listing,
    [StopMachines] asks for stop actions only. *)
Lemma StopMachines_asks_for_stop_actions :
  let a := scenarios.actuator (scenarios.account scenarios.scenarioA []) in
  exists ids,
    sdk.requests (hibernation.StopMachines a scenarios.cluster tt scenarios.fresh).2 =
      {| sdk.reqContext := None; sdk.reqURL := Some (sdk.serviceURL scenarios.fresh);
         sdk.reqCall := sdk.CallListInstances {| vpcv1.VPCName := Some "c1-vpc" |} |}
      :: map (ibmclient.action_request (sdk.serviceURL scenarios.fresh) "stop") ids.
Proof.
  intros a.
  destruct (operations_ask_for_what_they_are_named_after
              (scenarios.account scenarios.scenarioA []) a scenarios.cluster tt
              scenarios.fresh eq_refl) as (Hstop & _).
  exact Hstop.
Defined.
